(** * gin-erp: authentication and session lifecycle

    A shallow embedding of the authentication core of the service:
    the phone validators and the JWT helper of [pkg/utils], the MongoDB and
    Redis repositories of [internal/repository], and the use-case layer
    [internal/usecase/auth_usecase.go], followed by the properties the
    design document states about them.

    Conventions.
    - Instants and durations are Go's: integers counting nanoseconds
      ([time.Time] as nanoseconds since the Unix epoch, [time.Duration] as an
      int64 with its wrap-around on multiplication).
    - The three external stores are explicit data: two MongoDB collections
      as lists in insertion order (the unique indexes of [CreateIndexes]
      are enforced by [InsertOne]), and one Redis keyspace as a finite map
      from keys to a string value with an optional expiry instant.
    - Everything a request takes from its surroundings is an argument of
      type [Env]: the clock reading (one per request, which is thereby
      served in an instant), the identifier the driver assigns to an
      inserted document, the random draws of the OTP generator, and, per
      external call site, whether the call is served or fails in transit
      (a failed call leaves its store untouched).
    - Requests are served one after the other; interleavings of the store
      calls of concurrent requests are outside this development.
    - Go's [(value, error)] results are a sum type; a use case is a state
      and error monad over the stores, so that an early [return nil, err]
      keeps the writes made before it. *)

From Stdlib Require Import ZArith String Ascii List Lia DecimalString DecimalZ DecimalPos.
From stdpp Require Import base gmap strings list.

Open Scope string_scope.
Open Scope Z_scope.

(** ** Package [time] *)

Module time.

Definition Nanosecond : Z := 1.
Definition Millisecond : Z := 1000000.
Definition Second : Z := 1000000000.
Definition Minute : Z := 60 * Second.
Definition Hour : Z := 60 * Minute.

(** Two's-complement reduction of an int64 product. *)
Definition wrap64 (z : Z) : Z := (z + 2 ^ 63) mod 2 ^ 64 - 2 ^ 63.

(** [time.Duration(n) * unit] *)
Definition Duration (n unit : Z) : Z := wrap64 (n * unit).

(** [t.Add(d)] *)
Definition Add (t d : Z) : Z := t + d.

(** [t.Truncate(d)], rounding down to a multiple of [d]. *)
Definition Truncate (t d : Z) : Z := t - t mod d.

(** [t.After(u)] and [t.Before(u)] *)
Definition After (t u : Z) : bool := u <? t.
Definition Before (t u : Z) : bool := t <? u.

End time.

(** ** Errors

    The sentinel values of [internal/domain/auth] (compared by identity in
    Go, hence one constructor each), the two sentinels of the drivers the
    repositories test for, the driver's duplicate-key write error, and
    [External msg] for every other error value a library hands back. *)

Inductive error : Type :=
  | ErrInvalidCredentials
  | ErrUserAlreadyExists
  | ErrPhoneAlreadyExists
  | ErrUserNotFound
  | ErrUserNotVerified
  | ErrUserInactive
  | ErrInvalidToken
  | ErrExpiredToken
  | ErrRevokedToken
  | ErrInvalidOTP
  | ErrExpiredOTP
  | ErrOTPNotFound
  | ErrOTPAlreadySent
  | ErrInvalidPhoneFormat
  | ErrInvalidRole
  | ErrWeakPassword
  | ErrRateLimitExceeded
  | ErrInternalServer
  | ErrBadRequest
  | ErrUnauthorized
  | ErrForbidden
  | redis_Nil
  | mongo_ErrNoDocuments
  | mongo_DuplicateKey
  | External (msg : string).

(** [err.Error()] *)
Definition Error (e : error) : string :=
  match e with
  | ErrInvalidCredentials => "invalid email or password"
  | ErrUserAlreadyExists => "user with this email already exists"
  | ErrPhoneAlreadyExists => "user with this phone number already exists"
  | ErrUserNotFound => "user not found"
  | ErrUserNotVerified => "user email not verified"
  | ErrUserInactive => "user account is inactive"
  | ErrInvalidToken => "invalid token"
  | ErrExpiredToken => "token has expired"
  | ErrRevokedToken => "token has been revoked"
  | ErrInvalidOTP => "invalid OTP code"
  | ErrExpiredOTP => "OTP has expired"
  | ErrOTPNotFound => "OTP not found"
  | ErrOTPAlreadySent => "OTP already sent, please wait before requesting again"
  | ErrInvalidPhoneFormat => "invalid Pakistani phone number format (expected: +923xxxxxxxxx)"
  | ErrInvalidRole => "invalid role"
  | ErrWeakPassword => "password must be at least 8 characters"
  | ErrRateLimitExceeded => "rate limit exceeded, please try again later"
  | ErrInternalServer => "internal server error"
  | ErrBadRequest => "bad request"
  | ErrUnauthorized => "unauthorized"
  | ErrForbidden => "forbidden: insufficient permissions"
  | redis_Nil => "redis: nil"
  | mongo_ErrNoDocuments => "mongo: no documents in result"
  | mongo_DuplicateKey => "E11000 duplicate key error"
  | External msg => msg
  end.

Inductive result (A : Type) : Type :=
  | Ok (a : A)
  | Err (e : error).
Arguments Ok {A} a.
Arguments Err {A} e.

(** ** Identifiers: [primitive.ObjectID]

    Twelve bytes, held as the number they spell in big-endian order. *)

Definition ObjectID : Type := N.

Definition NilObjectID : ObjectID := 0%N.

Definition hex_digit (n : N) : ascii :=
  match n with
  | 0%N => "0" | 1%N => "1" | 2%N => "2" | 3%N => "3"
  | 4%N => "4" | 5%N => "5" | 6%N => "6" | 7%N => "7"
  | 8%N => "8" | 9%N => "9" | 10%N => "a" | 11%N => "b"
  | 12%N => "c" | 13%N => "d" | 14%N => "e" | _ => "f"
  end%char.

Definition hex_value (c : ascii) : option N :=
  let n := N_of_ascii c in
  if ((48 <=? n) && (n <=? 57))%N then Some (n - 48)%N
  else if ((97 <=? n) && (n <=? 102))%N then Some (n - 87)%N
  else if ((65 <=? n) && (n <=? 70))%N then Some (n - 55)%N
  else None.

Fixpoint hex_encode (digits : nat) (n : N) (acc : string) : string :=
  match digits with
  | O => acc
  | S k => hex_encode k (n / 16)%N (String (hex_digit (n mod 16)%N) acc)
  end.

Fixpoint hex_decode (s : string) (acc : N) : option N :=
  match s with
  | EmptyString => Some acc
  | String c s' =>
      match hex_value c with
      | Some d => hex_decode s' (acc * 16 + d)%N
      | None => None
      end
  end.

(** [id.Hex()]: twenty-four lower-case hexadecimal digits. *)
Definition Hex (id : ObjectID) : string := hex_encode 24 id "".

(** [primitive.ObjectIDFromHex(s)] *)
Definition ObjectIDFromHex (s : string) : result ObjectID :=
  if Nat.eqb (String.length s) 24 then
    match hex_decode s 0%N with
    | Some n => Ok n
    | None => Err (External "encoding/hex: invalid byte")
    end
  else Err (External "the provided hex string is not a valid ObjectID").

(** ** Package [domain]: entities and request payloads *)

Definition Role : Type := string.

Definition RoleAdmin : Role := "admin".
Definition RoleCustomer : Role := "customer".
Definition RoleFinanceManager : Role := "finance_manager".
Definition RoleManager : Role := "manager".

Record User : Type := mkUser {
  ID : ObjectID;
  Email : string;
  Phone : string;
  Password : string;
  FirstName : string;
  LastName : string;
  Role_ : Role;
  IsVerified : bool;
  IsActive : bool;
  CreatedAt : Z;
  UpdatedAt : Z;
  LastLoginAt : option Z
}.

Record RegisterRequest : Type := mkRegisterRequest {
  reg_Email : string;
  reg_Phone : string;
  reg_Password : string;
  reg_FirstName : string;
  reg_LastName : string;
  reg_Role : Role
}.

Record LoginRequest : Type := mkLoginRequest {
  login_Email : string;
  login_Password : string
}.

Record VerifyOTPRequest : Type := mkVerifyOTPRequest {
  otp_Email : string;
  otp_Code : string
}.

Record UserInfo : Type := mkUserInfo {
  info_ID : string;
  info_Email : string;
  info_Phone : string;
  info_FirstName : string;
  info_LastName : string;
  info_Role : Role;
  info_IsVerified : bool;
  info_CreatedAt : Z
}.

Definition ToUserInfo (u : User) : UserInfo :=
  {| info_ID := Hex (ID u);
     info_Email := Email u;
     info_Phone := Phone u;
     info_FirstName := FirstName u;
     info_LastName := LastName u;
     info_Role := Role_ u;
     info_IsVerified := IsVerified u;
     info_CreatedAt := CreatedAt u |}.

Definition IsValidRole (role : Role) : bool :=
  String.eqb role RoleAdmin || String.eqb role RoleCustomer
  || String.eqb role RoleFinanceManager || String.eqb role RoleManager.

(** ** Package [utils]: phone numbers *)

(** [strings.ReplaceAll(s, old, new)] for a one-byte [old], the only form
    the validators use. *)
Fixpoint ReplaceAll (s : string) (old : ascii) (new : string) : string :=
  match s with
  | EmptyString => EmptyString
  | String c s' =>
      if Ascii.eqb c old then new ++ ReplaceAll s' old new
      else String c (ReplaceAll s' old new)
  end.

(** [strings.HasPrefix(s, prefix)] *)
Definition HasPrefix (s prefix : string) : bool := String.prefix prefix s.

(** The slice [s[n:]]. *)
Fixpoint slice_from (n : nat) (s : string) : string :=
  match n, s with
  | O, _ => s
  | S k, String _ s' => slice_from k s'
  | S _, EmptyString => EmptyString
  end.

Definition is_digit (c : ascii) : bool :=
  let n := N_of_ascii c in ((48 <=? n) && (n <=? 57))%N.

Fixpoint all_digits (s : string) : bool :=
  match s with
  | EmptyString => true
  | String c s' => is_digit c && all_digits s'
  end.

(** The anchored pattern [^\+923[0-9]{9}$]: the literal prefix, then
    exactly nine digits, then the end of the text. *)
Definition MatchString_pk (phone : string) : bool :=
  HasPrefix phone "+923"
  && Nat.eqb (String.length (slice_from 4 phone)) 9
  && all_digits (slice_from 4 phone).

Definition ValidatePakistaniPhone (phone : string) : bool :=
  let phone := ReplaceAll phone " " "" in
  let phone := ReplaceAll phone "-" "" in
  MatchString_pk phone.

Definition NormalizePakistaniPhone (phone : string) : string :=
  let phone := ReplaceAll phone " " "" in
  let phone := ReplaceAll phone "-" "" in
  let phone := if HasPrefix phone "03" then "+92" ++ slice_from 1 phone else phone in
  let phone :=
    if HasPrefix phone "92" && negb (HasPrefix phone "+92") then "+" ++ phone
    else phone in
  phone.

(** ** Package [utils]: JSON web tokens

    A signed token in compact form is its header's algorithm name, its
    claims and its signature; any other string is [Malformed].  The MAC
    itself is a parameter of the development: nothing below depends on
    which function it is. *)

Record JWTClaims : Type := mkJWTClaims {
  c_UserID : string;
  c_Email : string;
  c_Role : string;
  c_ExpiresAt : option Z;
  c_IssuedAt : option Z;
  c_NotBefore : option Z
}.

Inductive TokenString : Type :=
  | Compact (alg : string) (claims : JWTClaims) (signature : string)
  | Malformed (raw : string).

#[global] Instance JWTClaims_eq_dec : EqDecision JWTClaims.
Proof. solve_decision. Defined.

#[global] Instance TokenString_eq_dec : EqDecision TokenString.
Proof. solve_decision. Defined.

Record JWTUtil : Type := NewJWTUtil {
  secretKey : string;
  accessTokenExpiration : Z;
  refreshTokenExpiration : Z
}.

Module JWTUtil.
Section Signing.

(** [hmac alg key claims]: the MAC of the encoded header and claims. *)
Variable hmac : string -> string -> JWTClaims -> string.

(** [jwt.NewNumericDate(t)]: the library keeps whole seconds. *)
Definition NewNumericDate (t : Z) : option Z := Some (time.Truncate t time.Second).

(** [jwt.NewWithClaims(method, claims).SignedString(key)] *)
Definition SignedString (alg : string) (claims : JWTClaims) (key : string) : result TokenString :=
  Ok (Compact alg claims (hmac alg key claims)).

Definition GenerateAccessToken (j : JWTUtil) (now : Z)
    (userID : ObjectID) (email role : string) : result TokenString :=
  let claims :=
    {| c_UserID := Hex userID;
       c_Email := email;
       c_Role := role;
       c_ExpiresAt := NewNumericDate (time.Add now (accessTokenExpiration j));
       c_IssuedAt := NewNumericDate now;
       c_NotBefore := NewNumericDate now |} in
  SignedString "HS256" claims (secretKey j).

Definition GenerateRefreshToken (j : JWTUtil) (now : Z) (userID : ObjectID) : result TokenString :=
  let claims :=
    {| c_UserID := Hex userID;
       c_Email := "";
       c_Role := "";
       c_ExpiresAt := NewNumericDate (time.Add now (refreshTokenExpiration j));
       c_IssuedAt := NewNumericDate now;
       c_NotBefore := NewNumericDate now |} in
  SignedString "HS256" claims (secretKey j).

(** The type test of the key function, passed by a [SigningMethodHMAC]
    only: the three HMAC methods of the library. *)
Definition is_SigningMethodHMAC (alg : string) : bool :=
  String.eqb alg "HS256" || String.eqb alg "HS384" || String.eqb alg "HS512".

(** The library's claim validation at instant [now]: an expiry, when
    present, must lie strictly after [now]; a not-before, when present,
    must not lie after [now]. *)
Definition verifyExpiresAt (claims : JWTClaims) (now : Z) : bool :=
  match c_ExpiresAt claims with
  | None => true
  | Some exp => time.Before now exp
  end.

Definition verifyNotBefore (claims : JWTClaims) (now : Z) : bool :=
  match c_NotBefore claims with
  | None => true
  | Some nbf => negb (time.Before now nbf)
  end.

(** [jwt.ParseWithClaims] with the key function of [ValidateToken]:
    structure, signing method, signature, then the time claims. *)
Definition ValidateToken (j : JWTUtil) (now : Z) (tokenString : TokenString) : result JWTClaims :=
  match tokenString with
  | Malformed _ => Err (External "token is malformed")
  | Compact alg claims signature =>
      if negb (is_SigningMethodHMAC alg) then
        Err (External "unexpected signing method")
      else if negb (String.eqb signature (hmac alg (secretKey j) claims)) then
        Err (External "signature is invalid")
      else if negb (verifyExpiresAt claims now) then
        Err (External "token is expired")
      else if negb (verifyNotBefore claims now) then
        Err (External "token is not valid yet")
      else Ok claims
  end.

Definition GetRefreshTokenExpiration (j : JWTUtil) : Z := refreshTokenExpiration j.

End Signing.
End JWTUtil.

(** ** More of [domain]: refresh-token rows and responses *)

Record RefreshToken : Type := mkRefreshToken {
  rt_ID : ObjectID;
  rt_UserID : ObjectID;
  rt_Token : TokenString;
  rt_ExpiresAt : Z;
  rt_CreatedAt : Z;
  rt_IsRevoked : bool
}.

Record RefreshTokenRequest : Type := mkRefreshTokenRequest {
  req_RefreshToken : TokenString
}.

Record AuthResponse : Type := mkAuthResponse {
  AccessToken : TokenString;
  resp_RefreshToken : TokenString;
  resp_User : UserInfo
}.

(** ** The stores and the surroundings of a call *)

(** A Redis key holds a string and, when a time to live was set, the
    instant at which it stops being visible. *)
Record RedisEntry : Type := mkRedisEntry {
  value : string;
  expire_at : option Z
}.

Record World : Type := mkWorld {
  users : list User;
  refresh_tokens : list RefreshToken;
  redis_keys : gmap string RedisEntry
}.

Definition with_users (w : World) (us : list User) : World :=
  {| users := us; refresh_tokens := refresh_tokens w; redis_keys := redis_keys w |}.

Definition with_refresh_tokens (w : World) (ts : list RefreshToken) : World :=
  {| users := users w; refresh_tokens := ts; redis_keys := redis_keys w |}.

Definition with_redis_keys (w : World) (ks : gmap string RedisEntry) : World :=
  {| users := users w; refresh_tokens := refresh_tokens w; redis_keys := ks |}.

Definition empty_world : World :=
  {| users := []; refresh_tokens := []; redis_keys := ∅ |}.

(** The external call sites, one per repository or collaborator method. *)
Inductive Call : Type :=
  | UserCreate | UserFindByEmail | UserFindByID | UserFindByPhone
  | UserUpdateVerificationStatus | UserUpdateLastLogin
  | TokenCreate | TokenFindByToken | TokenRevoke | TokenRevokeAllForUser
  | RedisSet | RedisGet | RedisDel | RedisExists | RedisIncr | RedisExpire
  | EmailSendOTP | RandRead.

#[global] Instance Call_eq_dec : EqDecision Call.
Proof. solve_decision. Defined.

Record Env : Type := mkEnv {
  Now : Z;                        (* time.Now() *)
  fails : Call -> option string;  (* Some msg: the call fails in transit with that message *)
  InsertedID : ObjectID;          (* the _id given to a document inserted without one *)
  rand_Int : nat -> Z             (* the successive draws of crypto/rand *)
}.

(** State and error monad over the stores. *)
Definition M (A : Type) : Type := World -> result A * World.

Definition ret {A} (a : A) : M A := fun w => (Ok a, w).

Definition fail {A} (e : error) : M A := fun w => (Err e, w).

Definition bind {A B} (m : M A) (k : A -> M B) : M B :=
  fun w =>
    match m w with
    | (Ok a, w') => k a w'
    | (Err e, w') => (Err e, w')
    end.

(** Run a call and hand its [(value, err)] pair to the caller. *)
Definition attempt {A} (m : M A) : M (result A) :=
  fun w => let '(r, w') := m w in (Ok r, w').

(** [if err != nil { return nil, e }]: any failure is reported as [e]. *)
Definition or_else {A} (m : M A) (e : error) : M A :=
  fun w =>
    match m w with
    | (Ok a, w') => (Ok a, w')
    | (Err _, w') => (Err e, w')
    end.

(** A failure that is logged and otherwise dropped. *)
Definition logged (m : M unit) : M unit :=
  fun w => let '(_, w') := m w in (Ok tt, w').

Definition lift {A} (r : result A) : M A := fun w => (r, w).

(** An external call: refused in transit, or served by [m]. *)
Definition call {A} (env : Env) (c : Call) (m : M A) : M A :=
  match fails env c with
  | Some msg => fail (External msg)
  | None => m
  end.

Declare Scope go_scope.
Delimit Scope go_scope with go.
Notation "'do' x <- m ; k" := (bind m (fun x => k))
  (at level 10, x name, m at level 100, k at level 200) : go_scope.
Notation "'run' m ; k" := (bind m (fun _ => k))
  (at level 10, m at level 100, k at level 200) : go_scope.
Open Scope go_scope.

(** ** Package [strconv] *)

(** [strconv.FormatInt(z, 10)] *)
Definition FormatInt (z : Z) : string := NilZero.string_of_int (Z.to_int z).

Definition MaxInt64 : Z := 2 ^ 63 - 1.
Definition MinInt64 : Z := - 2 ^ 63.

(** [strconv.Atoi(s)]: an optional sign, one or more decimal digits, and a
    value that fits an int. *)
Definition Atoi (s : string) : result Z :=
  let digits :=
    match s with
    | String "+"%char s' =>
        option_map (fun d => Z.of_int (Decimal.Pos d)) (NilZero.uint_of_string s')
    | _ => option_map Z.of_int (NilZero.int_of_string s)
    end in
  match digits with
  | None => Err (External "strconv.Atoi: invalid syntax")
  | Some z =>
      if (MinInt64 <=? z) && (z <=? MaxInt64) then Ok z
      else Err (External "strconv.Atoi: value out of range")
  end.

(** ** The MongoDB collections

    A collection is the list of its documents in insertion order.
    [FindOne] and [UpdateOne] act on the first document the filter
    accepts; [InsertOne] refuses a document that collides with a stored
    one on a uniquely indexed field. *)

Module mongo.
Section Collection.
Context {A : Type}.

Definition FindOne (filter : A -> bool) (coll : list A) : option A :=
  List.find filter coll.

Fixpoint UpdateOne (filter : A -> bool) (set : A -> A) (coll : list A) : list A :=
  match coll with
  | [] => []
  | d :: rest =>
      if filter d then set d :: rest else d :: UpdateOne filter set rest
  end.

Definition UpdateMany (filter : A -> bool) (set : A -> A) (coll : list A) : list A :=
  List.map (fun d => if filter d then set d else d) coll.

Definition InsertOne (collides : A -> A -> bool) (doc : A) (coll : list A)
    : option (list A) :=
  if List.existsb (collides doc) coll then None else Some (coll ++ [doc])%list.

End Collection.

(** A [time.Time] is stored as a BSON datetime, in whole milliseconds. *)
Definition DateTime (t : Z) : Z := time.Truncate t time.Millisecond.

End mongo.

(** ** The Redis client of [pkg/database/redis] *)

Module redis.

Definition live (now : Z) (e : RedisEntry) : bool :=
  match expire_at e with
  | None => true
  | Some t => now <? t
  end.

(** The entry a command sees under [key] at instant [now]. *)
Definition lookup (now : Z) (key : string) (ks : gmap string RedisEntry)
    : option RedisEntry :=
  match ks !! key with
  | Some e => if live now e then Some e else None
  | None => None
  end.

Definition KeepTTL : Z := -1.

(** [Set(ctx, key, value, expiration)].  A positive expiration is sent
    in milliseconds (at least one); [KeepTTL] keeps the key's expiry;
    otherwise the key is stored without expiry. *)
Definition Set_ (env : Env) (key val : string) (expiration : Z) : M unit :=
  call env RedisSet (fun w =>
    let exp :=
      if 0 <? expiration then
        let ms := if expiration <? time.Millisecond then 1
                  else expiration / time.Millisecond in
        Some (Now env + ms * time.Millisecond)
      else if expiration =? KeepTTL then
        match lookup (Now env) key (redis_keys w) with
        | Some e => expire_at e
        | None => None
        end
      else None in
    (Ok tt, with_redis_keys w (<[key := mkRedisEntry val exp]> (redis_keys w)))).

(** [Get(ctx, key)] *)
Definition Get (env : Env) (key : string) : M string :=
  call env RedisGet (fun w =>
    match lookup (Now env) key (redis_keys w) with
    | Some e => (Ok (value e), w)
    | None => (Err redis_Nil, w)
    end).

(** [Delete(ctx, key)] *)
Definition Delete (env : Env) (key : string) : M unit :=
  call env RedisDel (fun w =>
    (Ok tt, with_redis_keys w (delete key (redis_keys w)))).

(** [Exists(ctx, key)]: [result > 0] *)
Definition Exists (env : Env) (key : string) : M bool :=
  call env RedisExists (fun w =>
    match lookup (Now env) key (redis_keys w) with
    | Some _ => (Ok true, w)
    | None => (Ok false, w)
    end).

(** The server reads a counter only from the canonical decimal form of
    an int64. *)
Definition string2ll (s : string) : option Z :=
  match Atoi s with
  | Ok z => if String.eqb (FormatInt z) s then Some z else None
  | Err _ => None
  end.

(** [Increment(ctx, key)]: INCR.  A missing key counts from zero and is
    created without expiry; an existing key keeps its expiry. *)
Definition Increment (env : Env) (key : string) : M Z :=
  call env RedisIncr (fun w =>
    match lookup (Now env) key (redis_keys w) with
    | None =>
        (Ok 1, with_redis_keys w (<[key := mkRedisEntry (FormatInt 1) None]> (redis_keys w)))
    | Some e =>
        match string2ll (value e) with
        | None => (Err (External "ERR value is not an integer or out of range"), w)
        | Some n =>
            if n =? MaxInt64 then
              (Err (External "ERR increment or decrement would overflow"), w)
            else
              (Ok (n + 1),
               with_redis_keys w
                 (<[key := mkRedisEntry (FormatInt (n + 1)) (expire_at e)]> (redis_keys w)))
        end
    end).

(** [Expire(ctx, key, expiration)]: EXPIRE with the duration in whole
    seconds.  A missing key is left alone; a timeout that is not
    positive removes the key. *)
Definition Expire (env : Env) (key : string) (expiration : Z) : M unit :=
  call env RedisExpire (fun w =>
    let secs := if (0 <? expiration) && (expiration <? time.Second) then 1
                else Z.quot expiration time.Second in
    match lookup (Now env) key (redis_keys w) with
    | None => (Ok tt, w)
    | Some e =>
        if secs <=? 0 then (Ok tt, with_redis_keys w (delete key (redis_keys w)))
        else
          (Ok tt,
           with_redis_keys w
             (<[key := mkRedisEntry (value e) (Some (Now env + secs * time.Second))]>
                (redis_keys w)))
    end).

End redis.

(** ** Errors raised by the drivers *)

#[global] Instance error_eq_dec : EqDecision error.
Proof. solve_decision. Defined.

(** [errors.Is(err, target)] on the flat error values used here. *)
Definition errors_Is (err target : error) : bool := bool_decide (err = target).

(** [mongo.IsDuplicateKeyError(err)] *)
Definition IsDuplicateKeyError (err : error) : bool := errors_Is err mongo_DuplicateKey.

(** [SingleResult.Decode]: no document is [mongo.ErrNoDocuments]. *)
Definition Decode {A} (found : option A) : result A :=
  match found with
  | Some a => Ok a
  | None => Err mongo_ErrNoDocuments
  end.

(** Rewrite the error of a call, as the [if err != nil] blocks of the
    repositories do. *)
Definition map_err {A} (f : error -> error) (m : M A) : M A :=
  fun w =>
    match m w with
    | (Ok a, w') => (Ok a, w')
    | (Err e, w') => (Err (f e), w')
    end.

(** ** [UserRepositoryImpl] (collection [users]) *)

Module UserRepositoryImpl.

Definition set_ID (u : User) (id : ObjectID) : User :=
  mkUser id (Email u) (Phone u) (Password u) (FirstName u) (LastName u)
    (Role_ u) (IsVerified u) (IsActive u) (CreatedAt u) (UpdatedAt u) (LastLoginAt u).

Definition set_timestamps (u : User) (created updated : Z) : User :=
  mkUser (ID u) (Email u) (Phone u) (Password u) (FirstName u) (LastName u)
    (Role_ u) (IsVerified u) (IsActive u) created updated (LastLoginAt u).

Definition set_is_verified (isVerified : bool) (updated : Z) (u : User) : User :=
  mkUser (ID u) (Email u) (Phone u) (Password u) (FirstName u) (LastName u)
    (Role_ u) isVerified (IsActive u) (CreatedAt u) updated (LastLoginAt u).

Definition set_last_login (now : Z) (u : User) : User :=
  mkUser (ID u) (Email u) (Phone u) (Password u) (FirstName u) (LastName u)
    (Role_ u) (IsVerified u) (IsActive u) (CreatedAt u) now (Some now).

(** The document written for a user: an empty [_id] is filled in on
    insertion, instants are stored as BSON datetimes. *)
Definition document (env : Env) (u : User) : User :=
  mkUser (if N.eqb (ID u) NilObjectID then InsertedID env else ID u)
    (Email u) (Phone u) (Password u) (FirstName u) (LastName u)
    (Role_ u) (IsVerified u) (IsActive u)
    (mongo.DateTime (CreatedAt u)) (mongo.DateTime (UpdatedAt u))
    (option_map mongo.DateTime (LastLoginAt u)).

(** The unique indexes of [CreateIndexes], and the one on [_id]. *)
Definition collides (a b : User) : bool :=
  N.eqb (ID a) (ID b) || String.eqb (Email a) (Email b) || String.eqb (Phone a) (Phone b).

Definition by_email (email : string) (u : User) : bool := String.eqb (Email u) email.
Definition by_phone (phone : string) (u : User) : bool := String.eqb (Phone u) phone.
Definition by_id (id : ObjectID) (u : User) : bool := N.eqb (ID u) id.

(** [Create]: the caller's struct comes back with its timestamps and
    its assigned identifier. *)
Definition Create (env : Env) (user : User) : M User :=
  let user := set_timestamps user (Now env) (Now env) in
  let doc := document env user in
  map_err (fun err => if IsDuplicateKeyError err then ErrUserAlreadyExists else err)
    (call env UserCreate (fun w =>
       match mongo.InsertOne collides doc (users w) with
       | Some us => (Ok (set_ID user (ID doc)), with_users w us)
       | None => (Err mongo_DuplicateKey, w)
       end)).

Definition not_found (err : error) : error :=
  if errors_Is err mongo_ErrNoDocuments then ErrUserNotFound else err.

Definition FindByEmail (env : Env) (email : string) : M User :=
  map_err not_found
    (call env UserFindByEmail (fun w =>
       (Decode (mongo.FindOne (by_email email) (users w)), w))).

Definition FindByID (env : Env) (id : ObjectID) : M User :=
  map_err not_found
    (call env UserFindByID (fun w =>
       (Decode (mongo.FindOne (by_id id) (users w)), w))).

Definition FindByPhone (env : Env) (phone : string) : M User :=
  map_err not_found
    (call env UserFindByPhone (fun w =>
       (Decode (mongo.FindOne (by_phone phone) (users w)), w))).

(** [UpdateOne] reports no error when the filter matches nothing. *)
Definition UpdateVerificationStatus (env : Env) (email : string) (isVerified : bool) : M unit :=
  call env UserUpdateVerificationStatus (fun w =>
    (Ok tt,
     with_users w
       (mongo.UpdateOne (by_email email)
          (set_is_verified isVerified (mongo.DateTime (Now env))) (users w)))).

Definition UpdateLastLogin (env : Env) (userID : ObjectID) : M unit :=
  call env UserUpdateLastLogin (fun w =>
    (Ok tt,
     with_users w
       (mongo.UpdateOne (by_id userID)
          (set_last_login (mongo.DateTime (Now env))) (users w)))).

End UserRepositoryImpl.

(** ** [RefreshTokenRepositoryImpl] (collection [refresh_tokens]) *)

Module RefreshTokenRepositoryImpl.

Definition set_is_revoked (r : RefreshToken) : RefreshToken :=
  mkRefreshToken (rt_ID r) (rt_UserID r) (rt_Token r) (rt_ExpiresAt r) (rt_CreatedAt r) true.

Definition document (env : Env) (r : RefreshToken) : RefreshToken :=
  mkRefreshToken (if N.eqb (rt_ID r) NilObjectID then InsertedID env else rt_ID r)
    (rt_UserID r) (rt_Token r)
    (mongo.DateTime (rt_ExpiresAt r)) (mongo.DateTime (rt_CreatedAt r)) (rt_IsRevoked r).

(** The unique index on [token], and the one on [_id]. *)
Definition collides (a b : RefreshToken) : bool :=
  N.eqb (rt_ID a) (rt_ID b) || bool_decide (rt_Token a = rt_Token b).

Definition by_token (token : TokenString) (r : RefreshToken) : bool :=
  bool_decide (rt_Token r = token).

Definition by_user_unrevoked (userID : ObjectID) (r : RefreshToken) : bool :=
  N.eqb (rt_UserID r) userID && negb (rt_IsRevoked r).

Definition Create (env : Env) (token : RefreshToken) : M RefreshToken :=
  let token :=
    mkRefreshToken (rt_ID token) (rt_UserID token) (rt_Token token)
      (rt_ExpiresAt token) (Now env) (rt_IsRevoked token) in
  let doc := document env token in
  call env TokenCreate (fun w =>
    match mongo.InsertOne collides doc (refresh_tokens w) with
    | Some ts =>
        (Ok (mkRefreshToken (rt_ID doc) (rt_UserID token) (rt_Token token)
               (rt_ExpiresAt token) (rt_CreatedAt token) (rt_IsRevoked token)),
         with_refresh_tokens w ts)
    | None => (Err mongo_DuplicateKey, w)
    end).

Definition FindByToken (env : Env) (token : TokenString) : M RefreshToken :=
  map_err (fun err => if errors_Is err mongo_ErrNoDocuments then ErrInvalidToken else err)
    (call env TokenFindByToken (fun w =>
       (Decode (mongo.FindOne (by_token token) (refresh_tokens w)), w))).

Definition Revoke (env : Env) (token : TokenString) : M unit :=
  call env TokenRevoke (fun w =>
    (Ok tt,
     with_refresh_tokens w
       (mongo.UpdateOne (by_token token) set_is_revoked (refresh_tokens w)))).

Definition RevokeAllForUser (env : Env) (userID : ObjectID) : M unit :=
  call env TokenRevokeAllForUser (fun w =>
    (Ok tt,
     with_refresh_tokens w
       (mongo.UpdateMany (by_user_unrevoked userID) set_is_revoked (refresh_tokens w)))).

End RefreshTokenRepositoryImpl.

(** ** [OTPRepositoryImpl] (Redis keys [otp:<email>]) *)

Module OTPRepositoryImpl.

Definition key (email : string) : string := "otp:" ++ email.

Definition Store (env : Env) (email code : string) (ttlMinutes : Z) : M unit :=
  redis.Set_ env (key email) code (time.Duration ttlMinutes time.Minute).

Definition Get (env : Env) (email : string) : M string :=
  redis.Get env (key email).

Definition Delete (env : Env) (email : string) : M unit :=
  redis.Delete env (key email).

Definition Exists (env : Env) (email : string) : M bool :=
  redis.Exists env (key email).

End OTPRepositoryImpl.

(** ** [RateLimiterRepositoryImpl] (Redis keys [rate_limit:<key>]) *)

Module RateLimiterRepositoryImpl.

Definition rateLimitKey (key : string) : string := "rate_limit:" ++ key.

(** [StringCmd.Int()]: the command's error if it has one, else [Atoi]
    of the reply; the number is zero whenever an error is returned
    (or the clamped bound on a range error, which no caller reads). *)
Definition Int (reply : result string) : Z * option error :=
  match reply with
  | Err e => (0, Some e)
  | Ok s =>
      match Atoi s with
      | Ok z => (z, None)
      | Err e => (0, Some e)
      end
  end.

Definition CheckRateLimit (env : Env) (key : string) (limit windowSeconds : Z) : M bool :=
  do reply <- attempt (redis.Get env (rateLimitKey key));
  let '(count, err) := Int reply in
  match err with
  | Some e =>
      if negb (String.eqb (Error e) "redis: nil") then fail e
      else if limit <=? count then ret false else ret true
  | None =>
      if limit <=? count then ret false else ret true
  end.

Definition IncrementCounter (env : Env) (key : string) (windowSeconds : Z) : M unit :=
  do count <- redis.Increment env (rateLimitKey key);
  if count =? 1 then
    redis.Expire env (rateLimitKey key) (time.Duration windowSeconds time.Second)
  else ret tt.

End RateLimiterRepositoryImpl.

(** ** Package [utils]: one-time codes *)

Definition digits : string := "0123456789".

(** [digits[n]] for an index in range. *)
Definition digit_at (n : Z) : ascii :=
  match String.get (Z.to_nat n) digits with
  | Some c => c
  | None => "0"%char
  end.

(** The loop of [GenerateOTP]: position [i] takes the [i]-th draw of
    [rand.Int(rand.Reader, 10)], a number from 0 to 9. *)
Fixpoint otp_bytes (env : Env) (i n : nat) : string :=
  match n with
  | O => EmptyString
  | S k => String (digit_at (rand_Int env i mod 10)) (otp_bytes env (S i) k)
  end.

Definition GenerateOTP (env : Env) (length : Z) : result string :=
  if length <=? 0 then Err (External "OTP length must be positive")
  else
    match fails env RandRead with
    | Some msg => Err (External msg)
    | None => Ok (otp_bytes env 0 (Z.to_nat length))
    end.

(** ** The e-mail collaborator

    The use case holds a [domain.EmailService]; the implementation in the
    repository only logs and returns [nil], a substituted one may fail. *)

Definition SendOTP (env : Env) (email code : string) : M unit :=
  call env EmailSendOTP (ret tt).

(** ** [AuthUseCaseImpl] *)

Record AuthUseCaseImpl : Type := NewAuthUseCase {
  jwtUtil : JWTUtil;
  otpLength : Z;
  otpExpireMinutes : Z
}.

Module AuthUseCaseImpl.
Section UseCase.

Variable hmac : string -> string -> JWTClaims -> string.

(** [utils.HashPassword] and [utils.CheckPassword] wrap a salted
    password hash; the file that defines them is not among the sources,
    so both are parameters.  Hashing may draw on its surroundings and
    may fail; checking is a function of the stored hash and the
    presented password. *)
Variable HashPassword : Env -> string -> result string.
Variable CheckPassword : string -> string -> bool.

Definition Register (uc : AuthUseCaseImpl) (env : Env) (req : RegisterRequest) : M User :=
  let normalizedPhone := NormalizePakistaniPhone (reg_Phone req) in
  if negb (ValidatePakistaniPhone normalizedPhone) then fail ErrInvalidPhoneFormat else
  if negb (IsValidRole (reg_Role req)) then fail ErrInvalidRole else
  do existingUser <- attempt (UserRepositoryImpl.FindByEmail env (reg_Email req));
  match existingUser with
  | Ok _ => fail ErrUserAlreadyExists
  | Err _ =>
  do existingPhone <- attempt (UserRepositoryImpl.FindByPhone env normalizedPhone);
  match existingPhone with
  | Ok _ => fail ErrPhoneAlreadyExists
  | Err _ =>
  do hashedPassword <- lift (HashPassword env (reg_Password req));
  let user :=
    {| ID := NilObjectID;
       Email := reg_Email req;
       Phone := normalizedPhone;
       Password := hashedPassword;
       FirstName := reg_FirstName req;
       LastName := reg_LastName req;
       Role_ := reg_Role req;
       IsVerified := false;
       IsActive := true;
       CreatedAt := Now env;
       UpdatedAt := Now env;
       LastLoginAt := None |} in
  do user <- UserRepositoryImpl.Create env user;
  do otp <- lift (GenerateOTP env (otpLength uc));
  run OTPRepositoryImpl.Store env (reg_Email req) otp (otpExpireMinutes uc);
  run SendOTP env (reg_Email req) otp;
  ret user
  end
  end.

Definition Login (uc : AuthUseCaseImpl) (env : Env) (req : LoginRequest) : M AuthResponse :=
  do user <- or_else (UserRepositoryImpl.FindByEmail env (login_Email req))
               ErrInvalidCredentials;
  if negb (CheckPassword (Password user) (login_Password req)) then
    fail ErrInvalidCredentials
  else if negb (IsVerified user) then fail ErrUserNotVerified
  else if negb (IsActive user) then fail ErrUserInactive
  else
  do accessToken <-
    lift (JWTUtil.GenerateAccessToken hmac (jwtUtil uc) (Now env)
            (ID user) (Email user) (Role_ user));
  do refreshToken <-
    lift (JWTUtil.GenerateRefreshToken hmac (jwtUtil uc) (Now env) (ID user));
  let refreshTokenEntity :=
    {| rt_ID := NilObjectID;
       rt_UserID := ID user;
       rt_Token := refreshToken;
       rt_ExpiresAt := time.Add (Now env) (JWTUtil.GetRefreshTokenExpiration (jwtUtil uc));
       rt_CreatedAt := 0;
       rt_IsRevoked := false |} in
  run RefreshTokenRepositoryImpl.Create env refreshTokenEntity;
  run logged (UserRepositoryImpl.UpdateLastLogin env (ID user));
  ret {| AccessToken := accessToken;
         resp_RefreshToken := refreshToken;
         resp_User := ToUserInfo user |}.

Definition VerifyOTP (uc : AuthUseCaseImpl) (env : Env) (req : VerifyOTPRequest) : M unit :=
  do storedOTP <- or_else (OTPRepositoryImpl.Get env (otp_Email req)) ErrOTPNotFound;
  if negb (String.eqb storedOTP (otp_Code req)) then fail ErrInvalidOTP
  else
  run UserRepositoryImpl.UpdateVerificationStatus env (otp_Email req) true;
  run logged (OTPRepositoryImpl.Delete env (otp_Email req));
  ret tt.

Definition RefreshToken (uc : AuthUseCaseImpl) (env : Env) (req : RefreshTokenRequest)
    : M AuthResponse :=
  do claims <-
    or_else (lift (JWTUtil.ValidateToken hmac (jwtUtil uc) (Now env) (req_RefreshToken req)))
      ErrInvalidToken;
  do refreshToken <-
    or_else (RefreshTokenRepositoryImpl.FindByToken env (req_RefreshToken req))
      ErrInvalidToken;
  if rt_IsRevoked refreshToken then fail ErrRevokedToken
  else if time.After (Now env) (rt_ExpiresAt refreshToken) then fail ErrExpiredToken
  else
  do userID <- or_else (lift (ObjectIDFromHex (c_UserID claims))) ErrInvalidToken;
  do user <- or_else (UserRepositoryImpl.FindByID env userID) ErrUserNotFound;
  do accessToken <-
    lift (JWTUtil.GenerateAccessToken hmac (jwtUtil uc) (Now env)
            (ID user) (Email user) (Role_ user));
  do newRefreshToken <-
    lift (JWTUtil.GenerateRefreshToken hmac (jwtUtil uc) (Now env) (ID user));
  run RefreshTokenRepositoryImpl.Revoke env (req_RefreshToken req);
  let newRefreshTokenEntity :=
    {| rt_ID := NilObjectID;
       rt_UserID := ID user;
       rt_Token := newRefreshToken;
       rt_ExpiresAt := time.Add (Now env) (JWTUtil.GetRefreshTokenExpiration (jwtUtil uc));
       rt_CreatedAt := 0;
       rt_IsRevoked := false |} in
  run RefreshTokenRepositoryImpl.Create env newRefreshTokenEntity;
  ret {| AccessToken := accessToken;
         resp_RefreshToken := newRefreshToken;
         resp_User := ToUserInfo user |}.

Definition ResendOTP (uc : AuthUseCaseImpl) (env : Env) (email : string) : M unit :=
  do user <- or_else (UserRepositoryImpl.FindByEmail env email) ErrUserNotFound;
  if IsVerified user then fail ErrBadRequest
  else
  do exists_ <- OTPRepositoryImpl.Exists env email;
  if exists_ then fail ErrOTPAlreadySent
  else
  do otp <- lift (GenerateOTP env (otpLength uc));
  run OTPRepositoryImpl.Store env email otp (otpExpireMinutes uc);
  SendOTP env email otp.

Definition GetUserByID (uc : AuthUseCaseImpl) (env : Env) (userID : string) : M User :=
  do id <- or_else (lift (ObjectIDFromHex userID)) ErrUserNotFound;
  UserRepositoryImpl.FindByID env id.

End UseCase.
End AuthUseCaseImpl.

(** ** The HTTP layer: [net/http] statuses, the request context, replies *)

Module http.
Definition StatusOK : Z := 200.
Definition StatusCreated : Z := 201.
Definition StatusBadRequest : Z := 400.
Definition StatusUnauthorized : Z := 401.
Definition StatusForbidden : Z := 403.
Definition StatusNotFound : Z := 404.
Definition StatusConflict : Z := 409.
Definition StatusTooManyRequests : Z := 429.
Definition StatusInternalServerError : Z := 500.
End http.

(** What a request carries into the handler chain: the [Authorization]
    header ([""] when absent), the client address, and the keys the
    middlewares have set so far. *)
Record Context : Type := mkContext {
  Authorization : string;
  ClientIP : string;
  Keys : gmap string string
}.

Definition Set_key (c : Context) (key val : string) : Context :=
  mkContext (Authorization c) (ClientIP c) (<[key := val]> (Keys c)).

(** The payloads of [utils.SuccessResponse]. *)
Inductive Data : Type :=
  | RegisteredData (message : string) (user : UserInfo)
  | AuthData (tokens : AuthResponse)
  | MessageData (message : string)
  | ProfileData (user : UserInfo).

(** [utils.Response] with its status code; the trace identifier is left
    out. *)
Record Response : Type := mkResponse {
  status : Z;
  Success : bool;
  data : option Data;
  message_ : string
}.

Definition SuccessResponse (statusCode : Z) (d : Data) : Response :=
  mkResponse statusCode true (Some d) "".

Definition ErrorResponse (statusCode : Z) (err : error) : Response :=
  mkResponse statusCode false None (Error err).

Definition ErrorMessageResponse (statusCode : Z) (message : string) : Response :=
  mkResponse statusCode false None message.

(** A middleware either answers and aborts the chain, or hands the
    context on with [c.Next()]. *)
Inductive Flow : Type :=
  | Abort (r : Response)
  | Next (c : Context).

(** [strings.Split(s, sep)] for a one-byte separator. *)
Fixpoint Split (s : string) (sep : ascii) : list string :=
  match s with
  | EmptyString => [EmptyString]
  | String c s' =>
      if Ascii.eqb c sep then EmptyString :: Split s' sep
      else
        match Split s' sep with
        | part :: parts => String c part :: parts
        | [] => [String c EmptyString]
        end
  end.

Module middleware.

Definition rate_key (c : Context) : string :=
  match Keys c !! "user_id" with
  | Some userID => "user:" ++ userID
  | None => "ip:" ++ ClientIP c
  end.

Definition RateLimiterMiddleware (env : Env) (limit windowSeconds : Z) (c : Context)
    : World -> Flow * World :=
  fun w =>
    let key := rate_key c in
    match RateLimiterRepositoryImpl.CheckRateLimit env key limit windowSeconds w with
    | (Err _, w1) =>
        (Abort (ErrorResponse http.StatusInternalServerError ErrInternalServer), w1)
    | (Ok false, w1) =>
        (Abort (ErrorResponse http.StatusTooManyRequests ErrRateLimitExceeded), w1)
    | (Ok true, w1) =>
        let '(_, w2) := RateLimiterRepositoryImpl.IncrementCounter env key windowSeconds w1 in
        (Next c, w2)
    end.

Definition LoginRateLimiterMiddleware (env : Env) (limit : Z) (c : Context)
    : World -> Flow * World :=
  fun w =>
    let key := "login:ip:" ++ ClientIP c in
    match RateLimiterRepositoryImpl.CheckRateLimit env key limit 60 w with
    | (Err _, w1) =>
        (Abort (ErrorResponse http.StatusInternalServerError ErrInternalServer), w1)
    | (Ok false, w1) =>
        (Abort (ErrorMessageResponse http.StatusTooManyRequests
                  "Too many login attempts. Please try again later."), w1)
    | (Ok true, w1) =>
        let '(_, w2) := RateLimiterRepositoryImpl.IncrementCounter env key 60 w1 in
        (Next c, w2)
    end.

Section Auth.

Variable hmac : string -> string -> JWTClaims -> string.

(** The reading of a compact token off its text, the first step of
    [jwt.ParseWithClaims]; text that is no token reads as [Malformed]. *)
Variable ParseCompact : string -> TokenString.

Definition AuthMiddleware (j : JWTUtil) (now : Z) (c : Context) : Flow :=
  let authHeader := Authorization c in
  if String.eqb authHeader "" then
    Abort (ErrorResponse http.StatusUnauthorized ErrUnauthorized)
  else
    match Split authHeader " " with
    | [scheme; token] =>
        if negb (String.eqb scheme "Bearer") then
          Abort (ErrorResponse http.StatusUnauthorized ErrUnauthorized)
        else
          match JWTUtil.ValidateToken hmac j now (ParseCompact token) with
          | Err _ => Abort (ErrorResponse http.StatusUnauthorized ErrInvalidToken)
          | Ok claims =>
              Next (Set_key (Set_key (Set_key c "user_id" (c_UserID claims))
                               "user_email" (c_Email claims))
                      "user_role" (c_Role claims))
          end
    | _ => Abort (ErrorResponse http.StatusUnauthorized ErrUnauthorized)
    end.

End Auth.

Definition RoleMiddleware (allowedRoles : list Role) (c : Context) : Flow :=
  match Keys c !! "user_role" with
  | None => Abort (ErrorResponse http.StatusUnauthorized ErrUnauthorized)
  | Some role =>
      if List.existsb (String.eqb role) allowedRoles then Next c
      else Abort (ErrorResponse http.StatusForbidden ErrForbidden)
  end.

End middleware.

(** ** [AuthHandler]

    Each handler from the point where [ShouldBindJSON] has produced the
    request structure. *)

Module AuthHandler.
Section Handlers.

Variable hmac : string -> string -> JWTClaims -> string.
Variable HashPassword : Env -> string -> result string.
Variable CheckPassword : string -> string -> bool.

Definition Register (uc : AuthUseCaseImpl) (env : Env) (req : RegisterRequest)
    : World -> Response * World :=
  fun w =>
    match AuthUseCaseImpl.Register HashPassword uc env req w with
    | (Err err, w') =>
        (match err with
         | ErrUserAlreadyExists | ErrPhoneAlreadyExists =>
             ErrorResponse http.StatusConflict err
         | ErrInvalidPhoneFormat | ErrInvalidRole =>
             ErrorResponse http.StatusBadRequest err
         | _ => ErrorResponse http.StatusInternalServerError err
         end, w')
    | (Ok user, w') =>
        (SuccessResponse http.StatusCreated
           (RegisteredData
              "Registration successful. Please verify your email with the OTP sent."
              (ToUserInfo user)), w')
    end.

Definition Login (uc : AuthUseCaseImpl) (env : Env) (req : LoginRequest)
    : World -> Response * World :=
  fun w =>
    match AuthUseCaseImpl.Login hmac CheckPassword uc env req w with
    | (Err err, w') =>
        (match err with
         | ErrInvalidCredentials => ErrorResponse http.StatusUnauthorized err
         | ErrUserNotVerified => ErrorResponse http.StatusForbidden err
         | ErrUserInactive => ErrorResponse http.StatusForbidden err
         | _ => ErrorResponse http.StatusInternalServerError err
         end, w')
    | (Ok authResponse, w') =>
        (SuccessResponse http.StatusOK (AuthData authResponse), w')
    end.

Definition VerifyOTP (uc : AuthUseCaseImpl) (env : Env) (req : VerifyOTPRequest)
    : World -> Response * World :=
  fun w =>
    match AuthUseCaseImpl.VerifyOTP uc env req w with
    | (Err err, w') =>
        (match err with
         | ErrInvalidOTP | ErrOTPNotFound => ErrorResponse http.StatusBadRequest err
         | _ => ErrorResponse http.StatusInternalServerError err
         end, w')
    | (Ok _, w') =>
        (SuccessResponse http.StatusOK
           (MessageData "Email verified successfully. You can now login."), w')
    end.

Definition RefreshToken (uc : AuthUseCaseImpl) (env : Env) (req : RefreshTokenRequest)
    : World -> Response * World :=
  fun w =>
    match AuthUseCaseImpl.RefreshToken hmac uc env req w with
    | (Err err, w') =>
        (match err with
         | ErrInvalidToken | ErrExpiredToken | ErrRevokedToken =>
             ErrorResponse http.StatusUnauthorized err
         | _ => ErrorResponse http.StatusInternalServerError err
         end, w')
    | (Ok authResponse, w') =>
        (SuccessResponse http.StatusOK (AuthData authResponse), w')
    end.

Definition ResendOTP (uc : AuthUseCaseImpl) (env : Env) (email : string)
    : World -> Response * World :=
  fun w =>
    match AuthUseCaseImpl.ResendOTP uc env email w with
    | (Err err, w') =>
        (match err with
         | ErrUserNotFound => ErrorResponse http.StatusNotFound err
         | ErrOTPAlreadySent => ErrorResponse http.StatusTooManyRequests err
         | _ => ErrorResponse http.StatusInternalServerError err
         end, w')
    | (Ok _, w') =>
        (SuccessResponse http.StatusOK
           (MessageData "OTP sent successfully. Please check your email."), w')
    end.

Definition GetProfile (uc : AuthUseCaseImpl) (env : Env) (c : Context)
    : World -> Response * World :=
  fun w =>
    match Keys c !! "user_id" with
    | None => (ErrorResponse http.StatusUnauthorized ErrUnauthorized, w)
    | Some userID =>
        match AuthUseCaseImpl.GetUserByID uc env userID w with
        | (Err err, w') => (ErrorResponse http.StatusNotFound err, w')
        | (Ok user, w') => (SuccessResponse http.StatusOK (ProfileData (ToUserInfo user)), w')
        end
    end.

End Handlers.
End AuthHandler.

(** ** Sequences of requests

    What the service may be asked to do, one request at a time, each with
    its own surroundings. *)

Inductive Request : Type :=
  | DoRegister (req : RegisterRequest)
  | DoLogin (req : LoginRequest)
  | DoVerifyOTP (req : VerifyOTPRequest)
  | DoRefreshToken (req : RefreshTokenRequest)
  | DoResendOTP (email : string)
  | DoGetUserByID (userID : string)
  | DoCheckRateLimit (key : string) (limit windowSeconds : Z)
  | DoIncrementCounter (key : string) (windowSeconds : Z)
  | DoRevokeAllForUser (userID : ObjectID).

Section Service.

Variable hmac : string -> string -> JWTClaims -> string.
Variable HashPassword : Env -> string -> result string.
Variable CheckPassword : string -> string -> bool.

(** The stores after serving one request. *)
Definition serve (uc : AuthUseCaseImpl) (w : World) (ev : Env * Request) : World :=
  let '(env, request) := ev in
  match request with
  | DoRegister req => snd (AuthUseCaseImpl.Register HashPassword uc env req w)
  | DoLogin req => snd (AuthUseCaseImpl.Login hmac CheckPassword uc env req w)
  | DoVerifyOTP req => snd (AuthUseCaseImpl.VerifyOTP uc env req w)
  | DoRefreshToken req => snd (AuthUseCaseImpl.RefreshToken hmac uc env req w)
  | DoResendOTP email => snd (AuthUseCaseImpl.ResendOTP uc env email w)
  | DoGetUserByID userID => snd (AuthUseCaseImpl.GetUserByID uc env userID w)
  | DoCheckRateLimit key limit windowSeconds =>
      snd (RateLimiterRepositoryImpl.CheckRateLimit env key limit windowSeconds w)
  | DoIncrementCounter key windowSeconds =>
      snd (RateLimiterRepositoryImpl.IncrementCounter env key windowSeconds w)
  | DoRevokeAllForUser userID =>
      snd (RefreshTokenRepositoryImpl.RevokeAllForUser env userID w)
  end.

Definition serve_all (uc : AuthUseCaseImpl) (w : World) (trace : list (Env * Request)) : World :=
  List.fold_left (serve uc) trace w.

(** The states the service can be in, starting from empty stores. *)
Definition reachable (uc : AuthUseCaseImpl) (w : World) : Prop :=
  exists trace, w = serve_all uc empty_world trace.

End Service.

(** The counter after a run of [IncrementCounter] calls on one key. *)
Definition increment_all (key : string) (windowSeconds : Z) (w : World) (envs : list Env) : World :=
  List.fold_left
    (fun w env => snd (RateLimiterRepositoryImpl.IncrementCounter env key windowSeconds w))
    envs w.

(** The count [CheckRateLimit] reads at instant [now]: zero when the key
    is missing or expired. *)
Definition stored_count (now : Z) (key : string) (w : World) : result Z :=
  match redis.lookup now (RateLimiterRepositoryImpl.rateLimitKey key) (redis_keys w) with
  | None => Ok 0
  | Some e => Atoi (value e)
  end.

(** An [IncrementCounter] call that the store serves before [deadline]. *)
Definition counter_served (deadline : Z) (env : Env) : Prop :=
  fails env RedisIncr = None /\ fails env RedisExpire = None /\ Now env < deadline.

(** A refresh-token string whose row is marked revoked. *)
Definition revoked_in (token : TokenString) (rows : list RefreshToken) : Prop :=
  exists row,
    mongo.FindOne (RefreshTokenRepositoryImpl.by_token token) rows = Some row
    /\ rt_IsRevoked row = true.

(** Every stored one-time code belongs to a registered e-mail address. *)
Definition otp_has_user (w : World) : Prop :=
  forall email,
    is_Some (redis_keys w !! OTPRepositoryImpl.key email) ->
    exists u, u ∈ users w /\ Email u = email.

(** Every e-mail address present in [us] is still present in [us']. *)
Definition emails_kept (us us' : list User) : Prop :=
  forall u, u ∈ us -> exists u', u' ∈ us' /\ Email u' = Email u.

(** The document [Register] inserts for a request, given the hash of its
    password: the struct it builds, stamped by [Create] and written as
    the driver writes it. *)
Definition registered_user (env : Env) (req : RegisterRequest) (hashedPassword : string) : User :=
  UserRepositoryImpl.document env
    (UserRepositoryImpl.set_timestamps
       {| ID := NilObjectID;
          Email := reg_Email req;
          Phone := NormalizePakistaniPhone (reg_Phone req);
          Password := hashedPassword;
          FirstName := reg_FirstName req;
          LastName := reg_LastName req;
          Role_ := reg_Role req;
          IsVerified := false;
          IsActive := true;
          CreatedAt := Now env;
          UpdatedAt := Now env;
          LastLoginAt := None |} (Now env) (Now env)).

(** The stores right after that insertion. *)
Definition user_created (env : Env) (req : RegisterRequest) (hashedPassword : string)
    (w : World) : World :=
  with_users w (users w ++ [registered_user env req hashedPassword]).

(** ** Views used by the properties

    Parts of the functions above, named so that statements about them
    read well. *)

(** [strings.Contains(s, c)] for one byte. *)
Fixpoint has_byte (c : ascii) (s : string) : bool :=
  match s with
  | EmptyString => false
  | String a s' => Ascii.eqb a c || has_byte c s'
  end.

(** The first two statements of both phone functions. *)
Definition strip_separators (phone : string) : string :=
  ReplaceAll (ReplaceAll phone " " "") "-" "".

(** A string free of the two separators the phone functions drop. *)
Definition no_separators (s : string) : Prop :=
  has_byte " " s = false /\ has_byte "-" s = false.

(** The two prefix rewrites of [NormalizePakistaniPhone]. *)
Definition add_country_code (phone : string) : string :=
  let phone := if HasPrefix phone "03" then "+92" ++ slice_from 1 phone else phone in
  if HasPrefix phone "92" && negb (HasPrefix phone "+92") then "+" ++ phone else phone.


(** How one request may change the [users] collection: not at all, by
    the insertion [Register] makes, by the verification flag [VerifyOTP]
    sets, or by the login time [Login] records. *)
Inductive users_step (us : list User) : list User -> Prop :=
  | users_same : users_step us us
  | users_created doc :
      existsb (UserRepositoryImpl.collides doc) us = false ->
      IsVerified doc = false ->
      IsActive doc = true ->
      LastLoginAt doc = None ->
      ValidatePakistaniPhone (Phone doc) = true ->
      (exists phone, Phone doc = NormalizePakistaniPhone phone) ->
      IsValidRole (Role_ doc) = true ->
      users_step us (us ++ [doc])
  | users_verified email at_ :
      users_step us
        (mongo.UpdateOne (UserRepositoryImpl.by_email email)
           (UserRepositoryImpl.set_is_verified true at_) us)
  | users_logged_in id at_ :
      users_step us
        (mongo.UpdateOne (UserRepositoryImpl.by_id id)
           (UserRepositoryImpl.set_last_login at_) us).

(** No two stored users share an identifier, an e-mail address or a phone
    number. *)
Definition unique_users (us : list User) : Prop :=
  NoDup (List.map ID us) /\ NoDup (List.map Email us) /\ NoDup (List.map Phone us).

(** What holds of every user record the service writes. *)
Definition sound_user (u : User) : Prop :=
  IsActive u = true
  /\ MatchString_pk (Phone u) = true
  /\ IsValidRole (Role_ u) = true.

(** Two records of one account: everything but the verification flag and
    the two times a request may touch is the same. *)
Definition same_account (u u' : User) : Prop :=
  ID u' = ID u /\ Email u' = Email u /\ Phone u' = Phone u
  /\ Password u' = Password u /\ FirstName u' = FirstName u /\ LastName u' = LastName u
  /\ Role_ u' = Role_ u /\ IsActive u' = IsActive u /\ CreatedAt u' = CreatedAt u
  /\ (IsVerified u = true -> IsVerified u' = true).

(** ** The routes of [SetupRoutes]

    Each handler behind the middlewares of its group: a middleware that
    aborts answers for the whole chain, one that calls [c.Next()] hands
    its context on. *)

Module routes.
Section Routes.

Variable hmac : string -> string -> JWTClaims -> string.
Variable CheckPassword : string -> string -> bool.
Variable ParseCompact : string -> TokenString.

(** [POST /auth/login] *)
Definition login (uc : AuthUseCaseImpl) (env : Env) (loginRateLimit : Z)
    (c : Context) (req : LoginRequest) : World -> Response * World :=
  fun w =>
    match middleware.LoginRateLimiterMiddleware env loginRateLimit c w with
    | (Abort r, w1) => (r, w1)
    | (Next _, w1) => AuthHandler.Login hmac CheckPassword uc env req w1
    end.

(** The group [protected]. *)
Definition protected (j : JWTUtil) (now : Z) (handler : Context -> Response) (c : Context)
    : Response :=
  match middleware.AuthMiddleware hmac ParseCompact j now c with
  | Abort r => r
  | Next c1 => handler c1
  end.

(** A group below [protected] that is open to some roles. *)
Definition restricted (allowedRoles : list Role) (handler : Context -> Response) (c : Context)
    : Response :=
  match middleware.RoleMiddleware allowedRoles c with
  | Abort r => r
  | Next c1 => handler c1
  end.

Definition message (text : string) (c : Context) : Response :=
  SuccessResponse 200 (MessageData text).

(** [GET /admin/users], [GET /finance/reports], [GET /manager/dashboard] *)
Definition admin_users (j : JWTUtil) (now : Z) : Context -> Response :=
  protected j now (restricted [RoleAdmin] (message "Admin users endpoint")).

Definition finance_reports (j : JWTUtil) (now : Z) : Context -> Response :=
  protected j now
    (restricted [RoleAdmin; RoleFinanceManager] (message "Finance reports endpoint")).

Definition manager_dashboard (j : JWTUtil) (now : Z) : Context -> Response :=
  protected j now
    (restricted [RoleAdmin; RoleManager] (message "Manager dashboard endpoint")).

(** [GET /auth/profile] *)
Definition profile (uc : AuthUseCaseImpl) (env : Env) (c : Context)
    : World -> Response * World :=
  fun w =>
    match middleware.AuthMiddleware hmac ParseCompact (jwtUtil uc) (Now env) c with
    | Abort r => (r, w)
    | Next c1 => AuthHandler.GetProfile uc env c1 w
    end.

End Routes.
End routes.

(** The stores after a run of login attempts from one client. *)
Definition login_attempts (hmac : string -> string -> JWTClaims -> string)
    (CheckPassword : string -> string -> bool) (uc : AuthUseCaseImpl) (loginRateLimit : Z)
    (c : Context) (w : World) (attempts : list (Env * LoginRequest)) : World :=
  List.fold_left
    (fun w attempt =>
       snd (routes.login hmac CheckPassword uc (fst attempt) loginRateLimit c (snd attempt) w))
    attempts w.

(** An attempt the counter store serves within the window ending at
    [deadline]. *)
Definition attempt_served (deadline : Z) (attempt : Env * LoginRequest) : Prop :=
  fails (fst attempt) RedisGet = None /\ counter_served deadline (fst attempt).

(** The user stored under an address has not been verified. *)
Definition unverified_at (email : string) (us : list User) : Prop :=
  exists u, mongo.FindOne (UserRepositoryImpl.by_email email) us = Some u
            /\ IsVerified u = false.

(** A request that is no verification for [email]. *)
Definition verifies_other (email : string) (ev : Env * Request) : Prop :=
  forall req, snd ev = DoVerifyOTP req -> otp_Email req <> email.

(** ** A concrete deployment

    The configuration defaults of the service (fifteen-minute access
    tokens, seven-day refresh tokens, six-digit codes living five minutes)
    with stand-ins for the MAC and the password hash, and one account
    taken through registration, verification and login.  Used to evaluate
    the definitions on concrete inputs. *)

Definition demo_hmac (alg key : string) (claims : JWTClaims) : string :=
  alg ++ "." ++ key ++ "." ++ c_UserID claims ++ "." ++ c_Email claims.

Definition demo_HashPassword (_ : Env) (password : string) : result string :=
  Ok ("$2a$10$" ++ password).

Definition demo_CheckPassword (hash password : string) : bool :=
  String.eqb hash ("$2a$10$" ++ password).

Definition demo_jwt : JWTUtil :=
  NewJWTUtil "change-this-secret-key" (15 * time.Minute) (168 * time.Hour).

Definition demo_uc : AuthUseCaseImpl := NewAuthUseCase demo_jwt 6 5.

(** Surroundings in which every external call is served. *)
Definition served (now : Z) (id : ObjectID) : Env :=
  mkEnv now (fun _ => None) id (fun i => Z.of_nat i + 3).

(** Surroundings in which exactly the call [c] fails in transit. *)
Definition failing (c : Call) (msg : string) (now : Z) (id : ObjectID) : Env :=
  mkEnv now (fun c' => if bool_decide (c' = c) then Some msg else None) id
    (fun i => Z.of_nat i + 3).

Definition demo_register : RegisterRequest :=
  mkRegisterRequest "a@x.com" "03001234567" "Password123" "Ayesha" "Khan" RoleCustomer.

Definition demo_login : LoginRequest := mkLoginRequest "a@x.com" "Password123".

(** The instants of the scenario, in seconds after the epoch. *)
Definition at_second (n : Z) : Z := n * time.Second.

Definition w_registered : World :=
  snd (AuthUseCaseImpl.Register demo_HashPassword demo_uc (served (at_second 100) 1%N)
         demo_register empty_world).

Definition w_verified : World :=
  snd (AuthUseCaseImpl.VerifyOTP demo_uc (served (at_second 160) 0%N)
         (mkVerifyOTPRequest "a@x.com" "345678") w_registered).

Definition w_logged_in : World :=
  snd (AuthUseCaseImpl.Login demo_hmac demo_CheckPassword demo_uc
         (served (at_second 200) 2%N) demo_login w_verified).

(** The refresh token that login hands out. *)
Definition demo_refresh_claims : JWTClaims :=
  {| c_UserID := "000000000000000000000001";
     c_Email := "";
     c_Role := "";
     c_ExpiresAt := Some (at_second 200 + 168 * time.Hour);
     c_IssuedAt := Some (at_second 200);
     c_NotBefore := Some (at_second 200) |}.

Definition demo_refresh_token : TokenString :=
  Compact "HS256" demo_refresh_claims
    (demo_hmac "HS256" "change-this-secret-key" demo_refresh_claims).

Definition demo_refresh : RefreshTokenRequest := mkRefreshTokenRequest demo_refresh_token.

(** The row login stores for it. *)
Definition demo_refresh_row : RefreshToken :=
  {| rt_ID := 2%N;
     rt_UserID := 1%N;
     rt_Token := demo_refresh_token;
     rt_ExpiresAt := at_second 200 + 168 * time.Hour;
     rt_CreatedAt := at_second 200;
     rt_IsRevoked := false |}.

Definition w_refreshed : World :=
  snd (AuthUseCaseImpl.RefreshToken demo_hmac demo_uc (served (at_second 260) 3%N)
         demo_refresh w_logged_in).

Definition demo_user : User :=
  {| ID := 1%N;
     Email := "a@x.com";
     Phone := "+923001234567";
     Password := "$2a$10$Password123";
     FirstName := "Ayesha";
     LastName := "Khan";
     Role_ := RoleCustomer;
     IsVerified := false;
     IsActive := true;
     CreatedAt := at_second 100;
     UpdatedAt := at_second 100;
     LastLoginAt := None |}.

Definition demo_otp_entry : RedisEntry :=
  {| value := "345678"; expire_at := Some (at_second 100 + 5 * time.Minute) |}.

(** What the refresh at second 260 answers. *)
Definition demo_access_claims : JWTClaims :=
  {| c_UserID := "000000000000000000000001";
     c_Email := "a@x.com";
     c_Role := "customer";
     c_ExpiresAt := Some (at_second 260 + 15 * time.Minute);
     c_IssuedAt := Some (at_second 260);
     c_NotBefore := Some (at_second 260) |}.

Definition demo_rotated_claims : JWTClaims :=
  {| c_UserID := "000000000000000000000001";
     c_Email := "";
     c_Role := "";
     c_ExpiresAt := Some (at_second 260 + 168 * time.Hour);
     c_IssuedAt := Some (at_second 260);
     c_NotBefore := Some (at_second 260) |}.

Definition demo_refresh_response : AuthResponse :=
  {| AccessToken :=
       Compact "HS256" demo_access_claims
         (demo_hmac "HS256" "change-this-secret-key" demo_access_claims);
     resp_RefreshToken :=
       Compact "HS256" demo_rotated_claims
         (demo_hmac "HS256" "change-this-secret-key" demo_rotated_claims);
     resp_User :=
       mkUserInfo "000000000000000000000001" "a@x.com" "+923001234567"
         "Ayesha" "Khan" RoleCustomer true (at_second 100) |}.

(** The same account, verified and then deactivated by an operator. *)
Definition demo_inactive_user : User :=
  mkUser 1%N "a@x.com" "+923001234567" "$2a$10$Password123" "Ayesha" "Khan"
    RoleCustomer true false (at_second 100) (at_second 100) None.

Definition w_inactive : World := with_users w_verified [demo_inactive_user].

(** The login row with its expiry cut down to one hour by an operator. *)
Definition demo_short_row : RefreshToken :=
  mkRefreshToken 2%N 1%N demo_refresh_token (at_second 200 + time.Hour) (at_second 200) false.

Definition w_short_row : World := with_refresh_tokens w_logged_in [demo_short_row].

(** A code left behind for an address that has no user record. *)
Definition w_orphan_code : World :=
  with_redis_keys empty_world
    {[ OTPRepositoryImpl.key "ghost@x.com" := mkRedisEntry "424242" None ]}.

(** Three requests from one address within a minute. *)
Definition demo_hits : list Env :=
  [served (at_second 10) 0%N; served (at_second 25) 0%N; served (at_second 40) 0%N].

(** Surroundings in which only the e-mail dispatch fails, and the stores
    a registration leaves behind in them. *)
Definition demo_smtp_down : Env :=
  failing EmailSendOTP "smtp: connection refused" (at_second 100) 1%N.

Definition w_half_registered : World :=
  {| users := [demo_user];
     refresh_tokens := [];
     redis_keys := {[ OTPRepositoryImpl.key "a@x.com" := demo_otp_entry ]} |}.

(** Surroundings in which only the random source, or only the Redis
    write, fails. *)
Definition demo_rand_down : Env :=
  failing RandRead "rand: unexpected EOF" (at_second 100) 1%N.

Definition demo_redis_down : Env :=
  failing RedisSet "redis: connection refused" (at_second 100) 1%N.

(** The three requests that take the account to its first login. *)
Definition demo_trace : list (Env * Request) :=
  [(served (at_second 100) 1%N, DoRegister demo_register);
   (served (at_second 160) 0%N, DoVerifyOTP (mkVerifyOTPRequest "a@x.com" "345678"));
   (served (at_second 200) 2%N, DoLogin demo_login)].

(** What the login at second 200 answers. *)
Definition demo_login_claims : JWTClaims :=
  {| c_UserID := "000000000000000000000001";
     c_Email := "a@x.com";
     c_Role := "customer";
     c_ExpiresAt := Some (at_second 200 + 15 * time.Minute);
     c_IssuedAt := Some (at_second 200);
     c_NotBefore := Some (at_second 200) |}.

Definition demo_access_token : TokenString :=
  Compact "HS256" demo_login_claims
    (demo_hmac "HS256" "change-this-secret-key" demo_login_claims).

Definition demo_login_response : AuthResponse :=
  {| AccessToken := demo_access_token;
     resp_RefreshToken := demo_refresh_token;
     resp_User :=
       mkUserInfo "000000000000000000000001" "a@x.com" "+923001234567"
         "Ayesha" "Khan" RoleCustomer true (at_second 100) |}.

(** The account as the verification at second 160 leaves it. *)
Definition demo_verified_user : User :=
  UserRepositoryImpl.set_is_verified true (at_second 160) demo_user.

(** An access token for an administrator, minted at second 200. *)
Definition demo_admin_claims : JWTClaims :=
  {| c_UserID := "000000000000000000000007";
     c_Email := "root@x.com";
     c_Role := "admin";
     c_ExpiresAt := Some (at_second 200 + 15 * time.Minute);
     c_IssuedAt := Some (at_second 200);
     c_NotBefore := Some (at_second 200) |}.

Definition demo_admin_token : TokenString :=
  Compact "HS256" demo_admin_claims
    (demo_hmac "HS256" "change-this-secret-key" demo_admin_claims).

(** A stand-in for the reading of token text, which knows three texts. *)
Definition demo_ParseCompact (text : string) : TokenString :=
  if String.eqb text "access.a" then demo_access_token
  else if String.eqb text "refresh.a" then demo_refresh_token
  else if String.eqb text "access.root" then demo_admin_token
  else Malformed text.

(** A request from one client address with the given [Authorization]
    header. *)
Definition demo_request (header : string) : Context :=
  mkContext header "10.0.0.1" ∅.

(** Three login attempts with wrong passwords within a minute. *)
Definition demo_guess (second : Z) (password : string) : Env * LoginRequest :=
  (served (at_second second) 0%N, mkLoginRequest "a@x.com" password).

Definition demo_guesses : list (Env * LoginRequest) :=
  [demo_guess 10 "123456"; demo_guess 25 "password"; demo_guess 40 "qwerty"].

(** Surroundings in which only EXPIRE fails. *)
Definition demo_expire_down : Env :=
  failing RedisExpire "redis: connection reset" (at_second 10) 0%N.

(** * Properties *)

(** ** Sanity checks of the string helpers *)

Example normalize_local : NormalizePakistaniPhone "0300-123 4567" = "+923001234567".
Proof. reflexivity. Qed.

Example normalize_bare : NormalizePakistaniPhone "923001234567" = "+923001234567".
Proof. reflexivity. Qed.

Example hex_roundtrip : ObjectIDFromHex (Hex 3054198966%N) = Ok 3054198966%N.
Proof. reflexivity. Qed.

(** ** Basic facts about the repositories *)

Lemma FindByEmail_served env email w u :
  fails env UserFindByEmail = None ->
  mongo.FindOne (UserRepositoryImpl.by_email email) (users w) = Some u ->
  UserRepositoryImpl.FindByEmail env email w = (Ok u, w).
Proof.
  intros Hf Hu. unfold UserRepositoryImpl.FindByEmail, map_err, call.
  rewrite Hf, Hu. reflexivity.
Qed.

Lemma FindByEmail_absent env email w :
  mongo.FindOne (UserRepositoryImpl.by_email email) (users w) = None ->
  exists e, UserRepositoryImpl.FindByEmail env email w = (Err e, w).
Proof.
  intros Hu. unfold UserRepositoryImpl.FindByEmail, map_err, call, fail.
  destruct (fails env UserFindByEmail); [eauto |].
  rewrite Hu. simpl. eauto.
Qed.

Lemma FindByEmail_result env email w :
  (exists e, UserRepositoryImpl.FindByEmail env email w = (Err e, w))
  \/ (exists u, UserRepositoryImpl.FindByEmail env email w = (Ok u, w)
        /\ mongo.FindOne (UserRepositoryImpl.by_email email) (users w) = Some u).
Proof.
  unfold UserRepositoryImpl.FindByEmail, map_err, call, fail.
  destruct (fails env UserFindByEmail); [left; eauto |].
  destruct (mongo.FindOne _ _) as [u |]; simpl; [right | left]; eauto.
Qed.

Lemma FindByToken_result env token w :
  (exists e, RefreshTokenRepositoryImpl.FindByToken env token w = (Err e, w))
  \/ (exists row, RefreshTokenRepositoryImpl.FindByToken env token w = (Ok row, w)
        /\ mongo.FindOne (RefreshTokenRepositoryImpl.by_token token) (refresh_tokens w)
           = Some row).
Proof.
  unfold RefreshTokenRepositoryImpl.FindByToken, map_err, call, fail.
  destruct (fails env TokenFindByToken); [left; eauto |].
  destruct (mongo.FindOne _ _) as [row |]; simpl; [right | left]; eauto.
Qed.

Lemma FindByToken_served env token w row :
  fails env TokenFindByToken = None ->
  mongo.FindOne (RefreshTokenRepositoryImpl.by_token token) (refresh_tokens w) = Some row ->
  RefreshTokenRepositoryImpl.FindByToken env token w = (Ok row, w).
Proof.
  intros Hf Hr. unfold RefreshTokenRepositoryImpl.FindByToken, map_err, call.
  rewrite Hf, Hr. reflexivity.
Qed.

Lemma Truncate_le t d : 0 < d -> time.Truncate t d <= t.
Proof. intros Hd. unfold time.Truncate. pose proof (Z.mod_pos_bound t d Hd). lia. Qed.

Lemma Truncate_gt t d : 0 < d -> t - d < time.Truncate t d.
Proof. intros Hd. unfold time.Truncate. pose proof (Z.mod_pos_bound t d Hd). lia. Qed.

Lemma UpdateOne_no_match {A} (filter : A -> bool) (set : A -> A) (coll : list A) :
  mongo.FindOne filter coll = None -> mongo.UpdateOne filter set coll = coll.
Proof.
  unfold mongo.FindOne. induction coll as [| d rest IH]; simpl; [reflexivity |].
  destruct (filter d); [discriminate |].
  intros H. rewrite (IH H). reflexivity.
Qed.

(** ** Decimal counters *)

Lemma int64_bounds : MinInt64 = -9223372036854775808 /\ MaxInt64 = 9223372036854775807.
Proof. split; reflexivity. Qed.

Lemma string_of_uint_no_plus d s : NilZero.string_of_uint d <> String "+" s.
Proof. destruct d; simpl; discriminate. Qed.

Lemma int_of_string_FormatInt z :
  NilZero.int_of_string (FormatInt z) = Some (Z.to_int z).
Proof.
  unfold FormatInt. apply NilZero.isi.
  - destruct z; simpl; try discriminate.
    intros [= H]. exact (Unsigned.to_uint_nonnil _ H).
  - destruct z; simpl; try discriminate.
    intros [= H]. exact (Unsigned.to_uint_nonnil _ H).
Qed.

Lemma Atoi_FormatInt z :
  MinInt64 <= z <= MaxInt64 -> Atoi (FormatInt z) = Ok z.
Proof.
  intros Hz. unfold Atoi.
  assert (Hparse : match FormatInt z with
                   | String "+"%char s' =>
                       option_map (fun d => Z.of_int (Decimal.Pos d)) (NilZero.uint_of_string s')
                   | _ => option_map Z.of_int (NilZero.int_of_string (FormatInt z))
                   end = Some z).
  { rewrite int_of_string_FormatInt. simpl. rewrite DecimalZ.of_to.
    destruct (FormatInt z) as [| c s'] eqn:Hs; [reflexivity |].
    destruct (Ascii.eqb_spec c "+"%char) as [-> | Hc].
    - exfalso. unfold FormatInt in Hs.
      destruct (Z.to_int z) as [d | d]; simpl in Hs.
      + exact (string_of_uint_no_plus _ _ Hs).
      + discriminate.
    - destruct c as [[] [] [] [] [] [] [] []]; try reflexivity. contradiction. }
  rewrite Hparse.
  destruct (Z.leb_spec MinInt64 z); [| lia].
  destruct (Z.leb_spec z MaxInt64); [| lia].
  reflexivity.
Qed.

Lemma string2ll_FormatInt z :
  MinInt64 <= z <= MaxInt64 -> redis.string2ll (FormatInt z) = Some z.
Proof.
  intros Hz. unfold redis.string2ll. rewrite (Atoi_FormatInt z Hz), String.eqb_refl.
  reflexivity.
Qed.

Lemma Duration_small n unit :
  MinInt64 <= n * unit <= MaxInt64 -> time.Duration n unit = n * unit.
Proof.
  intros H. destruct int64_bounds as [Hmin Hmax]. rewrite Hmin, Hmax in H.
  unfold time.Duration, time.wrap64.
  change (2 ^ 63) with 9223372036854775808.
  change (2 ^ 64) with 18446744073709551616.
  rewrite Z.mod_small; lia.
Qed.

Lemma window_duration ws :
  0 < ws <= 9223372036 ->
  time.Duration ws time.Second = ws * time.Second.
Proof.
  intros H. apply Duration_small. destruct int64_bounds as [-> ->].
  unfold time.Second. lia.
Qed.

Section Counter.
Variables (key : string) (ws : Z).
Hypothesis Hws : 0 < ws <= 9223372036.

Local Abbreviation k := (RateLimiterRepositoryImpl.rateLimitKey key).

Lemma IncrementCounter_first env w :
  fails env RedisIncr = None -> fails env RedisExpire = None ->
  redis.lookup (Now env) k (redis_keys w) = None ->
  redis_keys (snd (RateLimiterRepositoryImpl.IncrementCounter env key ws w)) !! k
  = Some (mkRedisEntry (FormatInt 1) (Some (Now env + ws * time.Second))).
Proof.
  intros Hi He Hl.
  unfold RateLimiterRepositoryImpl.IncrementCounter, bind, redis.Increment, redis.Expire, call.
  rewrite Hi, Hl. simpl. rewrite He.
  rewrite (window_duration ws Hws).
  unfold redis.lookup. simpl. rewrite lookup_insert_eq. simpl.
  assert (Hq : Z.quot (ws * time.Second) time.Second = ws)
    by (apply Z.quot_mul; discriminate).
  rewrite Hq.
  destruct (Z.ltb_spec (ws * time.Second) time.Second) as [Hlt | _];
    [unfold time.Second in Hlt; lia |].
  rewrite andb_false_r.
  destruct (Z.leb_spec ws 0); [lia |]. simpl.
  rewrite lookup_insert_eq. reflexivity.
Qed.

Lemma IncrementCounter_next env w n deadline :
  counter_served deadline env ->
  1 <= n < MaxInt64 ->
  redis_keys w !! k = Some (mkRedisEntry (FormatInt n) (Some deadline)) ->
  redis_keys (snd (RateLimiterRepositoryImpl.IncrementCounter env key ws w)) !! k
  = Some (mkRedisEntry (FormatInt (n + 1)) (Some deadline)).
Proof.
  intros (Hi & He & Hnow) Hn Hk.
  unfold RateLimiterRepositoryImpl.IncrementCounter, bind, redis.Increment, call.
  rewrite Hi. unfold redis.lookup. rewrite Hk. unfold redis.live. simpl.
  destruct (Z.ltb_spec (Now env) deadline); [| lia]. simpl.
  rewrite string2ll_FormatInt by (destruct int64_bounds as [Hmin Hmax]; rewrite Hmin; lia).
  destruct (Z.eqb_spec n MaxInt64); [lia |].
  destruct (Z.eqb_spec (n + 1) 1); [lia |].
  simpl. rewrite lookup_insert_eq. reflexivity.
Qed.

Lemma increment_all_next envs : forall w n deadline,
  Forall (counter_served deadline) envs ->
  1 <= n -> n + Z.of_nat (length envs) <= MaxInt64 ->
  redis_keys w !! k = Some (mkRedisEntry (FormatInt n) (Some deadline)) ->
  redis_keys (increment_all key ws w envs) !! k
  = Some (mkRedisEntry (FormatInt (n + Z.of_nat (length envs))) (Some deadline)).
Proof.
  induction envs as [| env envs IH]; intros w n deadline Hall Hn Hmax Hk.
  - simpl. rewrite Z.add_0_r. exact Hk.
  - inversion Hall as [| ? ? Henv Hrest]; subst.
    change (increment_all key ws w (env :: envs))
      with (increment_all key ws
              (snd (RateLimiterRepositoryImpl.IncrementCounter env key ws w)) envs).
    simpl length in *.
    rewrite (IH _ (n + 1) deadline Hrest); [do 3 f_equal; lia | lia | lia |].
    apply IncrementCounter_next; [exact Henv | lia | exact Hk].
Qed.

End Counter.

(** ** Running a use case by cases *)

Ltac unfold_monad :=
  unfold bind, attempt, or_else, logged, lift, map_err, call, fail, ret in *.

Ltac unfold_repos :=
  unfold UserRepositoryImpl.Create, UserRepositoryImpl.FindByEmail,
    UserRepositoryImpl.FindByID, UserRepositoryImpl.FindByPhone,
    UserRepositoryImpl.UpdateVerificationStatus, UserRepositoryImpl.UpdateLastLogin,
    RefreshTokenRepositoryImpl.Create, RefreshTokenRepositoryImpl.FindByToken,
    RefreshTokenRepositoryImpl.Revoke, RefreshTokenRepositoryImpl.RevokeAllForUser,
    OTPRepositoryImpl.Store, OTPRepositoryImpl.Get, OTPRepositoryImpl.Delete,
    OTPRepositoryImpl.Exists, SendOTP,
    redis.Set_, redis.Get, redis.Delete, redis.Exists, redis.Increment, redis.Expire in *.


Lemma FindOne_app_found {A} (f : A -> bool) (l l' : list A) (a : A) :
  mongo.FindOne f l = Some a -> mongo.FindOne f (l ++ l')%list = Some a.
Proof.
  unfold mongo.FindOne. induction l as [| d rest IH]; simpl; [discriminate |].
  destruct (f d); [trivial | exact IH].
Qed.

Lemma revoked_in_app token rows doc :
  revoked_in token rows -> revoked_in token (rows ++ [doc])%list.
Proof.
  intros (row & Hfind & Hrev). exists row. split; [| exact Hrev].
  apply FindOne_app_found. exact Hfind.
Qed.

(** Revoking any token keeps a revoked first match revoked, and revoking
    the token itself makes its first match revoked. *)
Lemma revoked_in_Revoke token token' rows :
  revoked_in token rows ->
  revoked_in token
    (mongo.UpdateOne (RefreshTokenRepositoryImpl.by_token token')
       RefreshTokenRepositoryImpl.set_is_revoked rows).
Proof.
  unfold revoked_in, mongo.FindOne.
  induction rows as [| d rest IH]; simpl; intros (row & Hfind & Hrev); [discriminate |].
  destruct (RefreshTokenRepositoryImpl.by_token token' d) eqn:Hd'; simpl.
  - destruct (RefreshTokenRepositoryImpl.by_token token d) eqn:Hd.
    + unfold RefreshTokenRepositoryImpl.by_token in *. simpl. rewrite Hd. eauto.
    + unfold RefreshTokenRepositoryImpl.by_token in *. simpl. rewrite Hd. eauto.
  - destruct (RefreshTokenRepositoryImpl.by_token token d) eqn:Hd; eauto.
Qed.

Lemma Revoke_revokes token rows row :
  mongo.FindOne (RefreshTokenRepositoryImpl.by_token token) rows = Some row ->
  revoked_in token
    (mongo.UpdateOne (RefreshTokenRepositoryImpl.by_token token)
       RefreshTokenRepositoryImpl.set_is_revoked rows).
Proof.
  unfold revoked_in, mongo.FindOne.
  induction rows as [| d rest IH]; simpl; [discriminate |].
  destruct (RefreshTokenRepositoryImpl.by_token token d) eqn:Hd; simpl.
  - intros _. unfold RefreshTokenRepositoryImpl.by_token in *. simpl. rewrite Hd. eauto.
  - rewrite Hd. exact IH.
Qed.

Lemma revoked_in_RevokeAll token userID rows :
  revoked_in token rows ->
  revoked_in token
    (mongo.UpdateMany (RefreshTokenRepositoryImpl.by_user_unrevoked userID)
       RefreshTokenRepositoryImpl.set_is_revoked rows).
Proof.
  unfold revoked_in, mongo.FindOne, mongo.UpdateMany.
  induction rows as [| d rest IH]; simpl; intros (row & Hfind & Hrev); [discriminate |].
  unfold RefreshTokenRepositoryImpl.by_token in *.
  destruct (RefreshTokenRepositoryImpl.by_user_unrevoked userID d); simpl;
    destruct (bool_decide (rt_Token d = token)) eqn:Hd; eauto.
Qed.

(** ** The rate limiter *)

Lemma CheckRateLimit_reads env key limit windowSeconds w :
  snd (RateLimiterRepositoryImpl.CheckRateLimit env key limit windowSeconds w) = w.
Proof.
  unfold RateLimiterRepositoryImpl.CheckRateLimit, RateLimiterRepositoryImpl.Int.
  unfold_repos. unfold_monad.
  repeat (case_match; simplify_eq/=); reflexivity.
Qed.

Lemma CheckRateLimit_compares env key limit windowSeconds w count :
  fails env RedisGet = None ->
  stored_count (Now env) key w = Ok count ->
  fst (RateLimiterRepositoryImpl.CheckRateLimit env key limit windowSeconds w)
  = Ok (count <? limit).
Proof.
  intros Hf Hcount. unfold stored_count in Hcount.
  unfold RateLimiterRepositoryImpl.CheckRateLimit, RateLimiterRepositoryImpl.Int.
  unfold_repos. unfold_monad. rewrite Hf.
  rewrite (Z.ltb_antisym limit count).
  destruct (redis.lookup _ _ _) as [e |]; simpl.
  - rewrite Hcount. simpl. destruct (limit <=? count); reflexivity.
  - injection Hcount as <-. destruct (limit <=? 0); reflexivity.
Qed.

(** C8. [CheckRateLimit] writes nothing.  When the store answers, it
    allows the request exactly when the count it reads for the key (zero
    for a missing or expired key) is strictly below the limit.  Hence,
    starting a window on a key that shows no live counter, after [N]
    served increments within the window a check against [limit = N] made
    within the window reports the request as not allowed. *)
Theorem check_rate_limit_reads_and_counts :
  (forall env key limit windowSeconds w,
      snd (RateLimiterRepositoryImpl.CheckRateLimit env key limit windowSeconds w) = w)
  /\ (forall env key limit windowSeconds w count,
      fails env RedisGet = None ->
      stored_count (Now env) key w = Ok count ->
      exists allowed,
        fst (RateLimiterRepositoryImpl.CheckRateLimit env key limit windowSeconds w)
        = Ok allowed
        /\ (allowed = true <-> count < limit))
  /\ (forall key windowSeconds w envs env,
      let first := List.hd env envs in
      let deadline := Now first + windowSeconds * time.Second in
      0 < windowSeconds <= 9223372036 ->
      Z.of_nat (length envs) <= MaxInt64 ->
      redis.lookup (Now first) (RateLimiterRepositoryImpl.rateLimitKey key) (redis_keys w)
        = None ->
      Forall (counter_served deadline) envs ->
      fails env RedisGet = None ->
      Now env < deadline ->
      fst (RateLimiterRepositoryImpl.CheckRateLimit env key (Z.of_nat (length envs))
             windowSeconds (increment_all key windowSeconds w envs))
      = Ok false).
Proof.
  split; [exact CheckRateLimit_reads | split].
  - intros env key limit ws w count Hf Hcount.
    exists (count <? limit). split.
    + apply CheckRateLimit_compares; assumption.
    + apply Z.ltb_lt.
  - intros key ws w envs env first deadline Hws Hmax Hfresh Hserved Hf Hnow.
    rewrite (CheckRateLimit_compares env key _ ws _ (Z.of_nat (length envs)) Hf).
    + rewrite Z.ltb_irrefl. reflexivity.
    + unfold stored_count. destruct envs as [| e1 rest].
      * simpl in *. subst first. rewrite Hfresh. reflexivity.
      * subst first deadline. simpl List.hd in *.
        inversion Hserved as [| ? ? (Hi & He & _) Hrest]; subst.
        change (increment_all key ws w (e1 :: rest))
          with (increment_all key ws
                  (snd (RateLimiterRepositoryImpl.IncrementCounter e1 key ws w)) rest).
        unfold redis.lookup.
        rewrite (increment_all_next key ws rest _ 1 (Now e1 + ws * time.Second));
          [| exact Hrest | lia | simpl length in Hmax; lia
           | apply IncrementCounter_first; assumption ].
        unfold redis.live. cbn [expire_at value].
        destruct (Z.ltb_spec (Now env) (Now e1 + ws * time.Second)); [| lia].
        cbn [expire_at value]. rewrite Atoi_FormatInt.
        -- f_equal. simpl length. lia.
        -- destruct int64_bounds as [Hmin _]. rewrite Hmin.
           simpl length in Hmax. lia.
Qed.

(** ** One-time codes and the users they belong to *)

Lemma otp_key_inj a b : OTPRepositoryImpl.key a = OTPRepositoryImpl.key b -> a = b.
Proof. unfold OTPRepositoryImpl.key. simpl. intros [= H]. exact H. Qed.

Lemma rate_key_not_otp k email :
  RateLimiterRepositoryImpl.rateLimitKey k <> OTPRepositoryImpl.key email.
Proof. unfold RateLimiterRepositoryImpl.rateLimitKey, OTPRepositoryImpl.key. simpl. discriminate. Qed.

Lemma emails_kept_app us doc : emails_kept us (us ++ [doc])%list.
Proof. intros u Hu. exists u. split; [apply elem_of_app; left; exact Hu | reflexivity]. Qed.

Lemma emails_kept_UpdateOne filter set us :
  (forall u, Email (set u) = Email u) ->
  emails_kept us (mongo.UpdateOne filter set us).
Proof.
  intros Hset. induction us as [| d rest IH]; intros u Hu; [inversion Hu |].
  simpl. apply elem_of_cons in Hu as [-> | Hu].
  - destruct (filter d).
    + exists (set d). split; [left | apply Hset].
    + exists d. split; [left | reflexivity].
  - destruct (filter d).
    + exists u. split; [right; exact Hu | reflexivity].
    + destruct (IH u Hu) as (u' & Hu' & He). exists u'. split; [right; exact Hu' | exact He].
Qed.

Lemma otp_has_user_users w us' :
  otp_has_user w -> emails_kept (users w) us' -> otp_has_user (with_users w us').
Proof.
  intros Hinv Hkept email Hsome. destruct (Hinv email Hsome) as (u & Hu & He).
  destruct (Hkept u Hu) as (u' & Hu' & He'). exists u'. split; [exact Hu' | congruence].
Qed.

Lemma otp_has_user_tokens w ts :
  otp_has_user w -> otp_has_user (with_refresh_tokens w ts).
Proof. intros Hinv. exact Hinv. Qed.

Lemma otp_has_user_delete w k :
  otp_has_user w -> otp_has_user (with_redis_keys w (delete k (redis_keys w))).
Proof.
  intros Hinv email Hsome. apply Hinv. simpl in Hsome.
  destruct (decide (k = OTPRepositoryImpl.key email)) as [-> | Hne].
  - rewrite lookup_delete_eq in Hsome. destruct Hsome as [? [=]].
  - rewrite lookup_delete_ne in Hsome by exact Hne. exact Hsome.
Qed.

Lemma otp_has_user_store w email e :
  otp_has_user w ->
  (exists u, u ∈ users w /\ Email u = email) ->
  otp_has_user (with_redis_keys w (<[OTPRepositoryImpl.key email := e]> (redis_keys w))).
Proof.
  intros Hinv Hu email' Hsome. simpl in *.
  destruct (decide (email = email')) as [<- | Hne]; [exact Hu |].
  rewrite lookup_insert_ne in Hsome; [apply Hinv; exact Hsome |].
  intros Hk. apply Hne. apply otp_key_inj. exact Hk.
Qed.

Lemma otp_has_user_counter w k e :
  otp_has_user w ->
  otp_has_user
    (with_redis_keys w (<[RateLimiterRepositoryImpl.rateLimitKey k := e]> (redis_keys w))).
Proof.
  intros Hinv email Hsome. simpl in *.
  rewrite lookup_insert_ne in Hsome by apply rate_key_not_otp.
  apply Hinv. exact Hsome.
Qed.

Lemma FindOne_elem {A} (f : A -> bool) (l : list A) (a : A) :
  mongo.FindOne f l = Some a -> a ∈ l /\ f a = true.
Proof.
  unfold mongo.FindOne. induction l as [| d rest IH]; simpl; [discriminate |].
  destruct (f d) eqn:Hd.
  - intros [= <-]. split; [left | exact Hd].
  - intros H. destruct (IH H). split; [right; assumption | assumption].
Qed.

Lemma by_email_elem email us u :
  mongo.FindOne (UserRepositoryImpl.by_email email) us = Some u ->
  exists u', u' ∈ us /\ Email u' = email.
Proof.
  intros H. apply FindOne_elem in H as [Hu He].
  exists u. split; [exact Hu |]. apply String.eqb_eq. exact He.
Qed.

Ltac otp_step :=
  match goal with
  | H : otp_has_user ?w |- otp_has_user ?w => exact H
  | |- otp_has_user (with_redis_keys ?W (<[OTPRepositoryImpl.key _ := _]> _)) =>
      apply (otp_has_user_store W)
  | |- otp_has_user
         (with_redis_keys ?W (<[RateLimiterRepositoryImpl.rateLimitKey _ := _]> _)) =>
      apply (otp_has_user_counter W)
  | |- otp_has_user (with_redis_keys ?W (delete _ _)) => apply (otp_has_user_delete W)
  | |- otp_has_user (with_users _ _) => apply otp_has_user_users
  | |- otp_has_user (with_refresh_tokens _ _) => apply otp_has_user_tokens
  | |- emails_kept _ (_ ++ [_])%list => apply emails_kept_app
  | |- emails_kept _ (mongo.UpdateOne _ _ _) =>
      apply emails_kept_UpdateOne; intros ?; reflexivity
  | |- exists u, u ∈ users (with_users _ (_ ++ [?doc])%list) /\ Email u = _ =>
      exists doc; split; [apply elem_of_app; right; left | reflexivity]
  | H : mongo.FindOne (UserRepositoryImpl.by_email ?email) ?us = Some _
    |- exists u, u ∈ ?us /\ Email u = ?email =>
      exact (by_email_elem email us _ H)
  end.

Lemma FindOne_new_user doc us :
  existsb (UserRepositoryImpl.collides doc) us = false ->
  mongo.FindOne (UserRepositoryImpl.by_email (Email doc)) (us ++ [doc])%list = Some doc.
Proof.
  unfold mongo.FindOne. induction us as [| d rest IH]; simpl.
  - intros _. unfold UserRepositoryImpl.by_email. rewrite String.eqb_refl. reflexivity.
  - intros H. apply orb_false_elim in H as [Hd Hrest].
    unfold UserRepositoryImpl.collides in Hd.
    apply orb_false_elim in Hd as [Hd _]. apply orb_false_elim in Hd as [_ Hd].
    unfold UserRepositoryImpl.by_email at 1. rewrite String.eqb_sym, Hd.
    apply IH. exact Hrest.
Qed.

Lemma no_otp_before_creation w doc :
  otp_has_user w ->
  existsb (UserRepositoryImpl.collides doc) (users w) = false ->
  redis_keys w !! OTPRepositoryImpl.key (Email doc) = None.
Proof.
  intros Hinv Hfresh.
  destruct (redis_keys w !! OTPRepositoryImpl.key (Email doc)) as [e |] eqn:He;
    [| reflexivity].
  destruct (Hinv (Email doc)) as (u & Hu & Heq); [rewrite He; eauto |].
  exfalso.
  assert (Hall : forall d, d ∈ users w -> UserRepositoryImpl.collides doc d = false).
  { clear -Hfresh. induction (users w) as [| d rest IH]; intros d' Hd'; [inversion Hd' |].
    simpl in Hfresh. apply orb_false_elim in Hfresh as [Hd Hrest].
    apply elem_of_cons in Hd' as [-> | Hd']; [exact Hd | exact (IH Hrest d' Hd')]. }
  specialize (Hall u Hu). unfold UserRepositoryImpl.collides in Hall.
  apply orb_false_elim in Hall as [Hall _]. apply orb_false_elim in Hall as [_ Hall].
  rewrite Heq, String.eqb_refl in Hall. discriminate.
Qed.

Lemma Store_result env email code ttlMinutes w :
  (exists msg, fails env RedisSet = Some msg
     /\ OTPRepositoryImpl.Store env email code ttlMinutes w = (Err (External msg), w))
  \/ (fails env RedisSet = None
      /\ exists entry,
           OTPRepositoryImpl.Store env email code ttlMinutes w
           = (Ok tt, with_redis_keys w (<[OTPRepositoryImpl.key email := entry]> (redis_keys w)))
           /\ value entry = code
           /\ redis.live (Now env) entry = true).
Proof.
  unfold OTPRepositoryImpl.Store, redis.Set_, call, fail.
  destruct (fails env RedisSet) as [msg |]; [left; eauto | right].
  split; [reflexivity |]. eexists. split; [reflexivity |]. split; [reflexivity |].
  unfold redis.live. simpl.
  destruct (Z.ltb_spec 0 (time.Duration ttlMinutes time.Minute)) as [Hpos | _].
  - apply Z.ltb_lt.
    destruct (Z.ltb_spec (time.Duration ttlMinutes time.Minute) time.Millisecond) as [_ | Hge].
    + unfold time.Millisecond. lia.
    + assert (1 <= time.Duration ttlMinutes time.Minute / time.Millisecond).
      { apply Z.div_le_lower_bound; [reflexivity | lia]. }
      unfold time.Millisecond in *. nia.
  - destruct (_ =? redis.KeepTTL); [| reflexivity].
    unfold redis.lookup.
    destruct (redis_keys w !! OTPRepositoryImpl.key email) as [e |]; [| reflexivity].
    unfold redis.live. destruct (expire_at e) as [t |] eqn:Ht; simpl.
    + destruct (Now env <? t) eqn:Hlt; simpl; [rewrite Ht; exact Hlt | reflexivity].
    + rewrite Ht. reflexivity.
Qed.

Lemma lookup_stored now k entry (ks : gmap string RedisEntry) :
  redis.live now entry = true ->
  redis.lookup now k (<[k := entry]> ks) = Some entry.
Proof. intros Hl. unfold redis.lookup. rewrite lookup_insert_eq, Hl. reflexivity. Qed.


Lemma FindByPhone_absent env phone w :
  mongo.FindOne (UserRepositoryImpl.by_phone phone) (users w) = None ->
  exists e, UserRepositoryImpl.FindByPhone env phone w = (Err e, w).
Proof.
  intros Hu. unfold UserRepositoryImpl.FindByPhone, map_err, call, fail.
  destruct (fails env UserFindByPhone); [eauto |].
  rewrite Hu. simpl. eauto.
Qed.

Lemma no_collision_no_match doc us :
  existsb (UserRepositoryImpl.collides doc) us = false ->
  mongo.FindOne (UserRepositoryImpl.by_email (Email doc)) us = None
  /\ mongo.FindOne (UserRepositoryImpl.by_phone (Phone doc)) us = None.
Proof.
  unfold mongo.FindOne. induction us as [| d rest IH]; simpl; [split; reflexivity |].
  intros H. apply orb_false_elim in H as [Hd Hrest].
  unfold UserRepositoryImpl.collides in Hd.
  apply orb_false_elim in Hd as [Hd Hph]. apply orb_false_elim in Hd as [_ Hem].
  unfold UserRepositoryImpl.by_email, UserRepositoryImpl.by_phone.
  rewrite (String.eqb_sym (Email d)), Hem, (String.eqb_sym (Phone d)), Hph.
  exact (IH Hrest).
Qed.


Section Properties.

Variable hmac : string -> string -> JWTClaims -> string.
Variable HashPassword : Env -> string -> result string.
Variable CheckPassword : string -> string -> bool.

Local Abbreviation Register := (AuthUseCaseImpl.Register HashPassword).
Local Abbreviation Login := (AuthUseCaseImpl.Login hmac CheckPassword).
Local Abbreviation VerifyOTP := AuthUseCaseImpl.VerifyOTP.
Local Abbreviation RefreshToken := (AuthUseCaseImpl.RefreshToken hmac).
Local Abbreviation ResendOTP := AuthUseCaseImpl.ResendOTP.
Local Abbreviation ValidateToken := (JWTUtil.ValidateToken hmac).
Local Abbreviation GenerateAccessToken := (JWTUtil.GenerateAccessToken hmac).
Local Abbreviation GenerateRefreshToken := (JWTUtil.GenerateRefreshToken hmac).

(** C7. The local form "03001234567" and the international form
    "+923001234567" normalise to one and the same canonical number,
    which validates; "+92301234567", one digit short, still fails
    validation after normalisation, and [Register] turns it down with
    [ErrInvalidPhoneFormat] before touching any store. *)
Theorem phone_normalization_examples :
  NormalizePakistaniPhone "03001234567" = NormalizePakistaniPhone "+923001234567"
  /\ NormalizePakistaniPhone "03001234567" = "+923001234567"
  /\ ValidatePakistaniPhone (NormalizePakistaniPhone "03001234567") = true
  /\ ValidatePakistaniPhone (NormalizePakistaniPhone "+923001234567") = true
  /\ ValidatePakistaniPhone (NormalizePakistaniPhone "+92301234567") = false
  /\ forall uc env email password first last role w,
       Register uc env (mkRegisterRequest email "+92301234567" password first last role) w
       = (Err ErrInvalidPhoneFormat, w).
Proof. repeat split. Qed.

(** C3. A login for an e-mail address nobody registered and a login with
    a password that does not verify against the stored hash end in the
    very same error value, [ErrInvalidCredentials], and write nothing. *)
Theorem login_invalid_credentials_uniform uc env req w :
  (mongo.FindOne (UserRepositoryImpl.by_email (login_Email req)) (users w) = None
   \/ exists u,
        mongo.FindOne (UserRepositoryImpl.by_email (login_Email req)) (users w) = Some u
        /\ CheckPassword (Password u) (login_Password req) = false) ->
  Login uc env req w = (Err ErrInvalidCredentials, w).
Proof.
  intros [Hnone | (u & Hu & Hpw)]; unfold AuthUseCaseImpl.Login, bind, or_else.
  - destruct (FindByEmail_absent env _ w Hnone) as [e ->]. reflexivity.
  - destruct (FindByEmail_result env (login_Email req) w) as [[e ->] | (u' & -> & Hu')];
      [reflexivity |].
    assert (u' = u) as -> by congruence.
    rewrite Hpw. reflexivity.
Qed.

(** C4. When the account is found and the password verifies, an
    unverified account is refused with [ErrUserNotVerified] whatever its
    active flag, and a verified but inactive one with [ErrUserInactive]:
    the verification test comes first. *)
Theorem login_verified_before_active uc env req w u :
  fails env UserFindByEmail = None ->
  mongo.FindOne (UserRepositoryImpl.by_email (login_Email req)) (users w) = Some u ->
  CheckPassword (Password u) (login_Password req) = true ->
  (IsVerified u = false -> Login uc env req w = (Err ErrUserNotVerified, w))
  /\ (IsVerified u = true -> IsActive u = false ->
      Login uc env req w = (Err ErrUserInactive, w)).
Proof.
  intros Hf Hu Hpw.
  unfold AuthUseCaseImpl.Login, bind, or_else.
  rewrite (FindByEmail_served env _ w u Hf Hu), Hpw. simpl.
  split.
  - intros ->. reflexivity.
  - intros -> ->. reflexivity.
Qed.

(** C9. An access token validates at the instant it is issued, and the
    claims read back are the subject id, e-mail and role it was issued
    for.  The issuer's access lifetime is at least one second (it is
    configured in whole minutes). *)
Theorem access_token_roundtrip j now userID email role :
  time.Second <= accessTokenExpiration j ->
  exists token claims,
    GenerateAccessToken j now userID email role = Ok token
    /\ ValidateToken j now token = Ok claims
    /\ c_UserID claims = Hex userID
    /\ c_Email claims = email
    /\ c_Role claims = role.
Proof.
  intros Httl.
  eexists. eexists. split; [reflexivity |].
  split.
  - unfold JWTUtil.ValidateToken. simpl.
    rewrite String.eqb_refl. simpl.
    unfold JWTUtil.verifyExpiresAt, JWTUtil.verifyNotBefore, time.Before, time.Add. simpl.
    assert (Hs : 0 < time.Second) by reflexivity.
    pose proof (Truncate_gt (now + accessTokenExpiration j) _ Hs).
    pose proof (Truncate_le now _ Hs).
    destruct (Z.ltb_spec now (time.Truncate (now + accessTokenExpiration j) time.Second));
      [| lia].
    destruct (Z.ltb_spec now (time.Truncate now time.Second)); [lia |].
    reflexivity.
  - repeat split.
Qed.

(** C2 (as amended). A refresh request whose token passes the issuer's
    validation at the time of the call, and whose stored row is found,
    not revoked, and past its stored expiry, ends in [ErrExpiredToken].
    A token the issuer rejects, its own expiry claim included, ends in
    [ErrInvalidToken] before the store is consulted. *)
Theorem refresh_expired_row uc env req w :
  (forall claims row,
      ValidateToken (jwtUtil uc) (Now env) (req_RefreshToken req) = Ok claims ->
      fails env TokenFindByToken = None ->
      mongo.FindOne (RefreshTokenRepositoryImpl.by_token (req_RefreshToken req))
        (refresh_tokens w) = Some row ->
      rt_IsRevoked row = false ->
      rt_ExpiresAt row < Now env ->
      RefreshToken uc env req w = (Err ErrExpiredToken, w))
  /\ (forall e,
      ValidateToken (jwtUtil uc) (Now env) (req_RefreshToken req) = Err e ->
      RefreshToken uc env req w = (Err ErrInvalidToken, w)).
Proof.
  split.
  - intros claims row Hv Hf Hrow Hrev Hexp.
    unfold AuthUseCaseImpl.RefreshToken, bind, or_else, lift.
    rewrite Hv, (FindByToken_served env _ w row Hf Hrow), Hrev.
    unfold time.After. destruct (Z.ltb_spec (rt_ExpiresAt row) (Now env)); [| lia].
    reflexivity.
  - intros e Hv.
    unfold AuthUseCaseImpl.RefreshToken, bind, or_else, lift.
    rewrite Hv. reflexivity.
Qed.

(** C5. With a code stored for the address, a request carrying a
    different code ends in [ErrInvalidOTP] and leaves every store as it
    was, so that a later request with the stored code, made while the
    code is still alive and the stores answer, succeeds.  With no code
    stored (never set, removed, or past its time to live) the request
    ends in [ErrOTPNotFound], a different error value. *)
Theorem verify_otp_mismatch_keeps_code uc env req w :
  (forall entry,
      fails env RedisGet = None ->
      redis.lookup (Now env) (OTPRepositoryImpl.key (otp_Email req)) (redis_keys w)
        = Some entry ->
      value entry <> otp_Code req ->
      VerifyOTP uc env req w = (Err ErrInvalidOTP, w)
      /\ forall env',
           fails env' RedisGet = None ->
           fails env' UserUpdateVerificationStatus = None ->
           redis.live (Now env') entry = true ->
           fst (VerifyOTP uc env' (mkVerifyOTPRequest (otp_Email req) (value entry))
                  (snd (VerifyOTP uc env req w)))
           = Ok tt)
  /\ (redis.lookup (Now env) (OTPRepositoryImpl.key (otp_Email req)) (redis_keys w) = None ->
      VerifyOTP uc env req w = (Err ErrOTPNotFound, w))
  /\ ErrOTPNotFound <> ErrInvalidOTP.
Proof.
  split; [| split; [| discriminate]].
  - intros entry Hf Hlook Hne.
    assert (Hfirst : VerifyOTP uc env req w = (Err ErrInvalidOTP, w)).
    { unfold AuthUseCaseImpl.VerifyOTP, bind, or_else, OTPRepositoryImpl.Get, redis.Get, call.
      rewrite Hf, Hlook.
      destruct (String.eqb_spec (value entry) (otp_Code req)); [contradiction | reflexivity]. }
    split; [exact Hfirst |].
    intros env' Hf' Hup Hlive. rewrite Hfirst. simpl.
    assert (Hlook' : redis.lookup (Now env') (OTPRepositoryImpl.key (otp_Email req))
                       (redis_keys w) = Some entry).
    { unfold redis.lookup in *.
      destruct (redis_keys w !! OTPRepositoryImpl.key (otp_Email req)) as [e |];
        [| discriminate].
      destruct (redis.live (Now env) e); [| discriminate].
      injection Hlook as ->. rewrite Hlive. reflexivity. }
    unfold AuthUseCaseImpl.VerifyOTP, bind, or_else, OTPRepositoryImpl.Get, redis.Get, call.
    simpl. rewrite Hf', Hlook', String.eqb_refl. simpl.
    unfold UserRepositoryImpl.UpdateVerificationStatus, call. rewrite Hup.
    unfold logged. destruct (OTPRepositoryImpl.Delete _ _ _). reflexivity.
  - intros Hlook.
    unfold AuthUseCaseImpl.VerifyOTP, bind, or_else, OTPRepositoryImpl.Get, redis.Get, call, fail.
    destruct (fails env RedisGet); [reflexivity |].
    rewrite Hlook. reflexivity.
Qed.

(** C10. [VerifyOTP] never looks the user up.  With a matching code
    stored for an address that has no user record, the verification
    update matches no document, which is not an error: the request
    succeeds, the user collection is unchanged, and the code is removed
    (whenever the removal itself is served). *)
Theorem verify_otp_without_user uc env req w entry :
  fails env RedisGet = None ->
  redis.lookup (Now env) (OTPRepositoryImpl.key (otp_Email req)) (redis_keys w)
    = Some entry ->
  value entry = otp_Code req ->
  mongo.FindOne (UserRepositoryImpl.by_email (otp_Email req)) (users w) = None ->
  fails env UserUpdateVerificationStatus = None ->
  exists w',
    VerifyOTP uc env req w = (Ok tt, w')
    /\ users w' = users w
    /\ refresh_tokens w' = refresh_tokens w
    /\ (fails env RedisDel = None ->
        redis_keys w' = delete (OTPRepositoryImpl.key (otp_Email req)) (redis_keys w)
        /\ redis.lookup (Now env) (OTPRepositoryImpl.key (otp_Email req)) (redis_keys w')
           = None).
Proof.
  intros Hf Hlook Hcode Hnone Hup.
  unfold AuthUseCaseImpl.VerifyOTP, bind, or_else, OTPRepositoryImpl.Get, redis.Get, call.
  rewrite Hf, Hlook, Hcode, String.eqb_refl. simpl.
  unfold UserRepositoryImpl.UpdateVerificationStatus, call. rewrite Hup.
  rewrite (UpdateOne_no_match _ _ _ Hnone).
  unfold logged, OTPRepositoryImpl.Delete, redis.Delete, call.
  destruct (fails env RedisDel) as [msg |] eqn:Hdel; simpl.
  - eexists. split; [reflexivity |].
    split; [reflexivity | split; [reflexivity | discriminate]].
  - eexists. split; [reflexivity |].
    split; [reflexivity | split; [reflexivity | intros _; split; [reflexivity |]]].
    unfold redis.lookup. simpl. rewrite lookup_delete_eq. reflexivity.
Qed.

Lemma RefreshToken_success_revokes uc env req w resp w1 :
  RefreshToken uc env req w = (Ok resp, w1) ->
  revoked_in (req_RefreshToken req) (refresh_tokens w1).
Proof.
  unfold AuthUseCaseImpl.RefreshToken. unfold_repos. unfold_monad.
  unfold mongo.InsertOne, Decode.
  intros H. repeat (case_match; simplify_eq/=).
  apply revoked_in_app. eapply Revoke_revokes. eassumption.
Qed.

Lemma RefreshToken_revoked uc env req w :
  revoked_in (req_RefreshToken req) (refresh_tokens w) ->
  fst (RefreshToken uc env req w) = Err ErrRevokedToken
  \/ fst (RefreshToken uc env req w) = Err ErrInvalidToken.
Proof.
  intros (row & Hfind & Hrev).
  unfold AuthUseCaseImpl.RefreshToken, bind, or_else, lift.
  destruct (JWTUtil.ValidateToken _ _ _ _); [| right; reflexivity].
  destruct (FindByToken_result env (req_RefreshToken req) w) as [[e ->] | (r & -> & Hr)];
    [right; reflexivity |].
  assert (r = row) as -> by congruence.
  rewrite Hrev. left. reflexivity.
Qed.

Lemma serve_revoked uc w ev token :
  revoked_in token (refresh_tokens w) ->
  revoked_in token (refresh_tokens (serve hmac HashPassword CheckPassword uc w ev)).
Proof.
  intros Hrev. destruct ev as [env [req | req | req | req | email | userID | key limit ws | key ws | userID]];
    unfold serve.
  - unfold AuthUseCaseImpl.Register. unfold_repos. unfold_monad.
    repeat (case_match; simplify_eq/=); done.
  - unfold AuthUseCaseImpl.Login. unfold_repos. unfold_monad. unfold mongo.InsertOne.
    repeat (case_match; simplify_eq/=); auto using revoked_in_app.
  - unfold AuthUseCaseImpl.VerifyOTP. unfold_repos. unfold_monad.
    repeat (case_match; simplify_eq/=); done.
  - unfold AuthUseCaseImpl.RefreshToken. unfold_repos. unfold_monad. unfold mongo.InsertOne.
    repeat (case_match; simplify_eq/=); auto using revoked_in_app, revoked_in_Revoke.
  - unfold AuthUseCaseImpl.ResendOTP. unfold_repos. unfold_monad.
    repeat (case_match; simplify_eq/=); done.
  - unfold AuthUseCaseImpl.GetUserByID. unfold_repos. unfold_monad.
    repeat (case_match; simplify_eq/=); done.
  - unfold RateLimiterRepositoryImpl.CheckRateLimit. unfold_repos. unfold_monad.
    repeat (case_match; simplify_eq/=); done.
  - unfold RateLimiterRepositoryImpl.IncrementCounter. unfold_repos. unfold_monad.
    repeat (case_match; simplify_eq/=); done.
  - unfold_repos. unfold_monad.
    repeat (case_match; simplify_eq/=); auto using revoked_in_RevokeAll.
Qed.

Lemma serve_all_revoked uc trace : forall w token,
  revoked_in token (refresh_tokens w) ->
  revoked_in token (refresh_tokens (serve_all hmac HashPassword CheckPassword uc w trace)).
Proof.
  induction trace as [| ev trace IH]; intros w token Hrev; [exact Hrev |].
  apply IH. apply serve_revoked. exact Hrev.
Qed.

(** C1. Once a refresh request has succeeded, the token it consumed is
    spent for good: whatever requests are served afterwards, a refresh
    request presenting that same token ends in [ErrRevokedToken] or
    [ErrInvalidToken]. *)
Theorem refresh_token_single_use uc env req w resp w1 :
  RefreshToken uc env req w = (Ok resp, w1) ->
  forall trace env',
    let w2 := serve_all hmac HashPassword CheckPassword uc w1 trace in
    fst (RefreshToken uc env' req w2) = Err ErrRevokedToken
    \/ fst (RefreshToken uc env' req w2) = Err ErrInvalidToken.
Proof.
  intros Hok trace env' w2.
  apply RefreshToken_revoked. apply serve_all_revoked.
  eapply RefreshToken_success_revokes. exact Hok.
Qed.

Lemma serve_otp_has_user uc w ev :
  otp_has_user w ->
  otp_has_user (serve hmac HashPassword CheckPassword uc w ev).
Proof.
  intros Hinv.
  destruct ev as [env [req | req | req | req | email | userID | key limit ws | key ws | userID]];
    unfold serve.
  - unfold AuthUseCaseImpl.Register. unfold_repos. unfold_monad. unfold mongo.InsertOne.
    repeat (case_match; simplify_eq/=); repeat otp_step.
  - unfold AuthUseCaseImpl.Login. unfold_repos. unfold_monad. unfold mongo.InsertOne.
    repeat (case_match; simplify_eq/=); repeat otp_step.
  - unfold AuthUseCaseImpl.VerifyOTP. unfold_repos. unfold_monad.
    repeat (case_match; simplify_eq/=); repeat otp_step.
  - unfold AuthUseCaseImpl.RefreshToken. unfold_repos. unfold_monad. unfold mongo.InsertOne.
    repeat (case_match; simplify_eq/=); repeat otp_step.
  - unfold AuthUseCaseImpl.ResendOTP. unfold_repos. unfold_monad. unfold Decode.
    repeat (case_match; simplify_eq/=); repeat otp_step.
  - unfold AuthUseCaseImpl.GetUserByID. unfold_repos. unfold_monad.
    repeat (case_match; simplify_eq/=); repeat otp_step.
  - unfold RateLimiterRepositoryImpl.CheckRateLimit. unfold_repos. unfold_monad.
    repeat (case_match; simplify_eq/=); repeat otp_step.
  - unfold RateLimiterRepositoryImpl.IncrementCounter. unfold_repos. unfold_monad.
    repeat (case_match; simplify_eq/=); repeat otp_step.
  - unfold_repos. unfold_monad.
    repeat (case_match; simplify_eq/=); repeat otp_step.
Qed.

Lemma serve_all_otp_has_user uc trace : forall w,
  otp_has_user w ->
  otp_has_user (serve_all hmac HashPassword CheckPassword uc w trace).
Proof.
  induction trace as [| ev trace IH]; intros w Hinv; [exact Hinv |].
  apply IH. apply serve_otp_has_user. exact Hinv.
Qed.

Lemma reachable_otp_has_user uc w :
  reachable hmac HashPassword CheckPassword uc w -> otp_has_user w.
Proof.
  intros [trace ->]. apply serve_all_otp_has_user.
  intros email [e He]. simpl in He. rewrite lookup_empty in He. discriminate.
Qed.

(** Up to the insertion: a request with a valid phone and role whose
    document collides with no stored user, with the hash computed and the
    insertion served, gets its user created and goes on to the code. *)
Lemma Register_created uc env req w hash :
  ValidatePakistaniPhone (NormalizePakistaniPhone (reg_Phone req)) = true ->
  IsValidRole (reg_Role req) = true ->
  HashPassword env (reg_Password req) = Ok hash ->
  fails env UserCreate = None ->
  existsb (UserRepositoryImpl.collides (registered_user env req hash)) (users w) = false ->
  Register uc env req w
  = (do otp <- lift (GenerateOTP env (otpLength uc));
     run OTPRepositoryImpl.Store env (reg_Email req) otp (otpExpireMinutes uc);
     run SendOTP env (reg_Email req) otp;
     ret (UserRepositoryImpl.set_ID
            (UserRepositoryImpl.set_timestamps
               {| ID := NilObjectID;
                  Email := reg_Email req;
                  Phone := NormalizePakistaniPhone (reg_Phone req);
                  Password := hash;
                  FirstName := reg_FirstName req;
                  LastName := reg_LastName req;
                  Role_ := reg_Role req;
                  IsVerified := false;
                  IsActive := true;
                  CreatedAt := Now env;
                  UpdatedAt := Now env;
                  LastLoginAt := None |} (Now env) (Now env))
            (ID (registered_user env req hash))))
      (with_users w (users w ++ [registered_user env req hash])).
Proof.
  intros Hphone Hrole Hhash Hcreate Hfresh.
  destruct (no_collision_no_match _ _ Hfresh) as [Hemail Hph].
  change (Email (registered_user env req hash)) with (reg_Email req) in Hemail.
  change (Phone (registered_user env req hash))
    with (NormalizePakistaniPhone (reg_Phone req)) in Hph.
  unfold AuthUseCaseImpl.Register. rewrite Hphone, Hrole. cbn [negb].
  unfold bind at 1. unfold attempt.
  destruct (FindByEmail_absent env _ w Hemail) as [e1 ->].
  unfold bind at 1.
  destruct (FindByPhone_absent env _ w Hph) as [e2 ->].
  unfold bind at 1. unfold lift at 1. rewrite Hhash.
  unfold bind at 1.
  unfold UserRepositoryImpl.Create, map_err, call. rewrite Hcreate.
  unfold mongo.InsertOne. fold (registered_user env req hash). rewrite Hfresh.
  reflexivity.
Qed.

(** C6 (as amended). [Register] is not atomic.  Once the user is
    created (phone and role valid, no stored user sharing the address,
    phone or identifier, the hash computed, the insertion served), a
    failure of a later step makes [Register] return that step's error
    while the user stays persisted, unverified and active.  If the step
    that failed is the generation or the storage of the one-time code,
    the Redis keys are left as they were, so that in any state the
    service can reach no code is stored for the address; if it is the
    dispatch, the freshly generated code stays stored, and alive, for the
    address. *)
Theorem register_partial_failure uc env req w hash :
  ValidatePakistaniPhone (NormalizePakistaniPhone (reg_Phone req)) = true ->
  IsValidRole (reg_Role req) = true ->
  HashPassword env (reg_Password req) = Ok hash ->
  fails env UserCreate = None ->
  existsb (UserRepositoryImpl.collides (registered_user env req hash)) (users w) = false ->
  (mongo.FindOne (UserRepositoryImpl.by_email (reg_Email req))
     (users (user_created env req hash w)) = Some (registered_user env req hash)
   /\ IsVerified (registered_user env req hash) = false
   /\ IsActive (registered_user env req hash) = true
   /\ redis_keys (user_created env req hash w) = redis_keys w)
  /\ (forall e,
        GenerateOTP env (otpLength uc) = Err e ->
        Register uc env req w = (Err e, user_created env req hash w))
  /\ (forall otp msg,
        GenerateOTP env (otpLength uc) = Ok otp ->
        fails env RedisSet = Some msg ->
        Register uc env req w = (Err (External msg), user_created env req hash w))
  /\ (reachable hmac HashPassword CheckPassword uc w ->
      redis_keys (user_created env req hash w) !! OTPRepositoryImpl.key (reg_Email req)
      = None)
  /\ (forall otp msg,
        GenerateOTP env (otpLength uc) = Ok otp ->
        fails env RedisSet = None ->
        fails env EmailSendOTP = Some msg ->
        exists entry w2,
          Register uc env req w = (Err (External msg), w2)
          /\ users w2 = users (user_created env req hash w)
          /\ redis.lookup (Now env) (OTPRepositoryImpl.key (reg_Email req)) (redis_keys w2)
             = Some entry
          /\ value entry = otp).
Proof.
  intros Hphone Hrole Hhash Hcreate Hfresh.
  pose proof (Register_created uc env req w hash Hphone Hrole Hhash Hcreate Hfresh) as Hreg.
  fold (user_created env req hash w) in Hreg.
  split; [| split; [| split; [| split]]].
  - split; [exact (FindOne_new_user _ (users w) Hfresh) | repeat split].
  - intros e Hgen. rewrite Hreg. unfold bind, lift. rewrite Hgen. reflexivity.
  - intros otp msg Hgen Hset. rewrite Hreg. unfold bind at 1. unfold lift. rewrite Hgen.
    unfold bind at 1.
    destruct (Store_result env (reg_Email req) otp (otpExpireMinutes uc)
                (user_created env req hash w))
      as [(msg' & Hset' & ->) | (Hset' & _)]; congruence.
  - intros Hreach. apply reachable_otp_has_user in Hreach.
    exact (no_otp_before_creation w _ Hreach Hfresh).
  - intros otp msg Hgen Hset Hsend. rewrite Hreg. unfold bind at 1. unfold lift. rewrite Hgen.
    unfold bind at 1.
    destruct (Store_result env (reg_Email req) otp (otpExpireMinutes uc)
                (user_created env req hash w))
      as [(msg' & Hset' & _) | (_ & entry & -> & Hval & Hlive)]; [congruence |].
    unfold bind, SendOTP, call. rewrite Hsend.
    eexists. eexists. split; [reflexivity |]. split; [reflexivity |].
    split; [apply lookup_stored; exact Hlive | exact Hval].
Qed.

End Properties.

(** ** The scenario, evaluated *)

Example scenario_registered :
  AuthUseCaseImpl.Register demo_HashPassword demo_uc (served (at_second 100) 1%N)
    demo_register empty_world
  = (Ok demo_user,
     {| users := [demo_user];
        refresh_tokens := [];
        redis_keys := {[ OTPRepositoryImpl.key "a@x.com" := demo_otp_entry ]} |}).
Proof. vm_compute. reflexivity. Qed.

Example scenario_logged_in :
  refresh_tokens w_logged_in = [demo_refresh_row]
  /\ redis_keys w_logged_in = ∅
  /\ (exists u, users w_logged_in = [u] /\ IsVerified u = true /\ IsActive u = true).
Proof. vm_compute. repeat split. eexists. repeat split. Qed.

Example scenario_refreshed :
  AuthUseCaseImpl.RefreshToken demo_hmac demo_uc (served (at_second 260) 3%N)
    demo_refresh w_logged_in
  = (Ok demo_refresh_response, w_refreshed).
Proof. vm_compute. reflexivity. Qed.

(** ** The properties at concrete inputs *)

Lemma refresh_token_single_use_witness :
  fst (AuthUseCaseImpl.RefreshToken demo_hmac demo_uc (served (at_second 400) 5%N)
         demo_refresh
         (serve_all demo_hmac demo_HashPassword demo_CheckPassword demo_uc w_refreshed
            [(served (at_second 300) 4%N, DoLogin demo_login);
             (served (at_second 330) 0%N, DoRevokeAllForUser 7%N)]))
  = Err ErrRevokedToken
  \/ fst (AuthUseCaseImpl.RefreshToken demo_hmac demo_uc (served (at_second 400) 5%N)
            demo_refresh
            (serve_all demo_hmac demo_HashPassword demo_CheckPassword demo_uc w_refreshed
               [(served (at_second 300) 4%N, DoLogin demo_login);
                (served (at_second 330) 0%N, DoRevokeAllForUser 7%N)]))
     = Err ErrInvalidToken.
Proof.
  apply (refresh_token_single_use demo_hmac demo_HashPassword demo_CheckPassword demo_uc
           (served (at_second 260) 3%N) demo_refresh w_logged_in
           demo_refresh_response w_refreshed).
  vm_compute. reflexivity.
Defined.

Lemma refresh_expired_row_counterexample :
  mongo.FindOne (RefreshTokenRepositoryImpl.by_token demo_refresh_token)
    (refresh_tokens w_logged_in) = Some demo_refresh_row
  /\ rt_IsRevoked demo_refresh_row = false
  /\ rt_ExpiresAt demo_refresh_row < Now (served (at_second 200 + 169 * time.Hour) 9%N)
  /\ AuthUseCaseImpl.RefreshToken demo_hmac demo_uc
       (served (at_second 200 + 169 * time.Hour) 9%N) demo_refresh w_logged_in
     = (Err ErrInvalidToken, w_logged_in)
  /\ ErrInvalidToken <> ErrExpiredToken.
Proof.
  split; [vm_compute; reflexivity |].
  split; [reflexivity |].
  split; [reflexivity |].
  split; [vm_compute; reflexivity | discriminate].
Qed.

Lemma refresh_expired_row_witness :
  AuthUseCaseImpl.RefreshToken demo_hmac demo_uc (served (at_second 200 + 2 * time.Hour) 9%N)
    demo_refresh w_short_row
  = (Err ErrExpiredToken, w_short_row)
  /\ AuthUseCaseImpl.RefreshToken demo_hmac demo_uc
       (served (at_second 200 + 169 * time.Hour) 9%N) demo_refresh w_logged_in
     = (Err ErrInvalidToken, w_logged_in).
Proof.
  split.
  - apply (proj1 (refresh_expired_row demo_hmac demo_uc
                    (served (at_second 200 + 2 * time.Hour) 9%N) demo_refresh w_short_row)
             demo_refresh_claims demo_short_row).
    + vm_compute. reflexivity.
    + reflexivity.
    + vm_compute. reflexivity.
    + reflexivity.
    + reflexivity.
  - apply (proj2 (refresh_expired_row demo_hmac demo_uc
                    (served (at_second 200 + 169 * time.Hour) 9%N) demo_refresh w_logged_in)
             (External "token is expired")).
    vm_compute. reflexivity.
Defined.

Lemma login_invalid_credentials_uniform_witness :
  AuthUseCaseImpl.Login demo_hmac demo_CheckPassword demo_uc (served (at_second 200) 2%N)
    (mkLoginRequest "nobody@x.com" "anything") w_verified
  = (Err ErrInvalidCredentials, w_verified)
  /\ AuthUseCaseImpl.Login demo_hmac demo_CheckPassword demo_uc (served (at_second 200) 2%N)
       (mkLoginRequest "a@x.com" "WrongPassword") w_verified
     = (Err ErrInvalidCredentials, w_verified).
Proof.
  split.
  - apply (login_invalid_credentials_uniform demo_hmac demo_CheckPassword).
    left. vm_compute. reflexivity.
  - apply (login_invalid_credentials_uniform demo_hmac demo_CheckPassword).
    right. eexists. split; vm_compute; reflexivity.
Defined.

Lemma login_verified_before_active_witness :
  AuthUseCaseImpl.Login demo_hmac demo_CheckPassword demo_uc (served (at_second 200) 2%N)
    demo_login w_registered
  = (Err ErrUserNotVerified, w_registered)
  /\ AuthUseCaseImpl.Login demo_hmac demo_CheckPassword demo_uc (served (at_second 200) 2%N)
       demo_login w_inactive
     = (Err ErrUserInactive, w_inactive).
Proof.
  split.
  - apply (proj1 (login_verified_before_active demo_hmac demo_CheckPassword demo_uc
                    (served (at_second 200) 2%N) demo_login w_registered demo_user
                    ltac:(reflexivity) ltac:(vm_compute; reflexivity) ltac:(reflexivity))).
    reflexivity.
  - apply (proj2 (login_verified_before_active demo_hmac demo_CheckPassword demo_uc
                    (served (at_second 200) 2%N) demo_login w_inactive demo_inactive_user
                    ltac:(reflexivity) ltac:(vm_compute; reflexivity) ltac:(reflexivity)));
      reflexivity.
Defined.

Lemma access_token_roundtrip_witness :
  exists token claims,
    JWTUtil.GenerateAccessToken demo_hmac demo_jwt (at_second 260) 1%N "a@x.com" "customer"
    = Ok token
    /\ JWTUtil.ValidateToken demo_hmac demo_jwt (at_second 260) token = Ok claims
    /\ c_UserID claims = Hex 1%N
    /\ c_Email claims = "a@x.com"
    /\ c_Role claims = "customer".
Proof.
  apply (access_token_roundtrip demo_hmac demo_jwt (at_second 260) 1%N "a@x.com" "customer").
  cbv [demo_jwt accessTokenExpiration time.Second time.Minute]. lia.
Defined.

Lemma verify_otp_mismatch_keeps_code_witness :
  AuthUseCaseImpl.VerifyOTP demo_uc (served (at_second 120) 0%N)
    (mkVerifyOTPRequest "a@x.com" "000000") w_registered
  = (Err ErrInvalidOTP, w_registered)
  /\ fst (AuthUseCaseImpl.VerifyOTP demo_uc (served (at_second 130) 0%N)
            (mkVerifyOTPRequest "a@x.com" "345678")
            (snd (AuthUseCaseImpl.VerifyOTP demo_uc (served (at_second 120) 0%N)
                    (mkVerifyOTPRequest "a@x.com" "000000") w_registered)))
     = Ok tt
  /\ AuthUseCaseImpl.VerifyOTP demo_uc (served (at_second 100 + 6 * time.Minute) 0%N)
       (mkVerifyOTPRequest "a@x.com" "345678") w_registered
     = (Err ErrOTPNotFound, w_registered).
Proof.
  pose proof (verify_otp_mismatch_keeps_code demo_uc (served (at_second 120) 0%N)
                (mkVerifyOTPRequest "a@x.com" "000000") w_registered) as [Hwrong _].
  destruct (Hwrong demo_otp_entry) as [Hfirst Hthen].
  - reflexivity.
  - vm_compute. reflexivity.
  - vm_compute. discriminate.
  - split; [exact Hfirst |]. split.
    + apply (Hthen (served (at_second 130) 0%N)); reflexivity.
    + apply (proj1 (proj2 (verify_otp_mismatch_keeps_code demo_uc
                             (served (at_second 100 + 6 * time.Minute) 0%N)
                             (mkVerifyOTPRequest "a@x.com" "345678") w_registered))).
      vm_compute. reflexivity.
Defined.

Lemma verify_otp_without_user_witness :
  exists w',
    AuthUseCaseImpl.VerifyOTP demo_uc (served (at_second 500) 0%N)
      (mkVerifyOTPRequest "ghost@x.com" "424242") w_orphan_code
    = (Ok tt, w')
    /\ users w' = users w_orphan_code
    /\ refresh_tokens w' = refresh_tokens w_orphan_code
    /\ (fails (served (at_second 500) 0%N) RedisDel = None ->
        redis_keys w'
        = delete (OTPRepositoryImpl.key "ghost@x.com") (redis_keys w_orphan_code)
        /\ redis.lookup (at_second 500) (OTPRepositoryImpl.key "ghost@x.com") (redis_keys w')
           = None).
Proof.
  apply (verify_otp_without_user demo_uc (served (at_second 500) 0%N)
           (mkVerifyOTPRequest "ghost@x.com" "424242") w_orphan_code
           (mkRedisEntry "424242" None)).
  - reflexivity.
  - vm_compute. reflexivity.
  - reflexivity.
  - reflexivity.
  - reflexivity.
Defined.

Lemma register_partial_failure_counterexample :
  AuthUseCaseImpl.Register demo_HashPassword demo_uc demo_smtp_down demo_register empty_world
  = (Err (External "smtp: connection refused"), w_half_registered)
  /\ users w_half_registered = [demo_user]
  /\ IsVerified demo_user = false
  /\ IsActive demo_user = true
  /\ redis.lookup (Now demo_smtp_down) (OTPRepositoryImpl.key "a@x.com")
       (redis_keys w_half_registered)
     = Some demo_otp_entry.
Proof.
  split; [vm_compute; reflexivity |].
  split; [reflexivity |].
  split; [reflexivity |].
  split; [reflexivity |].
  vm_compute. reflexivity.
Qed.

Lemma register_partial_failure_witness :
  AuthUseCaseImpl.Register demo_HashPassword demo_uc demo_rand_down demo_register empty_world
  = (Err (External "rand: unexpected EOF"),
     user_created demo_rand_down demo_register "$2a$10$Password123" empty_world)
  /\ AuthUseCaseImpl.Register demo_HashPassword demo_uc demo_redis_down demo_register
       empty_world
     = (Err (External "redis: connection refused"),
        user_created demo_redis_down demo_register "$2a$10$Password123" empty_world)
  /\ redis_keys (user_created demo_redis_down demo_register "$2a$10$Password123" empty_world)
       !! OTPRepositoryImpl.key (reg_Email demo_register) = None
  /\ (exists entry w2,
        AuthUseCaseImpl.Register demo_HashPassword demo_uc demo_smtp_down demo_register
          empty_world
        = (Err (External "smtp: connection refused"), w2)
        /\ users w2
           = users (user_created demo_smtp_down demo_register "$2a$10$Password123" empty_world)
        /\ redis.lookup (Now demo_smtp_down) (OTPRepositoryImpl.key (reg_Email demo_register))
             (redis_keys w2) = Some entry
        /\ value entry = "345678").
Proof.
  destruct (register_partial_failure demo_hmac demo_HashPassword demo_CheckPassword demo_uc
              demo_rand_down demo_register empty_world "$2a$10$Password123")
    as (_ & Hgenerate & _); [reflexivity | reflexivity | reflexivity | reflexivity | reflexivity |].
  destruct (register_partial_failure demo_hmac demo_HashPassword demo_CheckPassword demo_uc
              demo_redis_down demo_register empty_world "$2a$10$Password123")
    as (_ & _ & Hstore & Hnone & _);
    [reflexivity | reflexivity | reflexivity | reflexivity | reflexivity |].
  destruct (register_partial_failure demo_hmac demo_HashPassword demo_CheckPassword demo_uc
              demo_smtp_down demo_register empty_world "$2a$10$Password123")
    as (_ & _ & _ & _ & Hsend);
    [reflexivity | reflexivity | reflexivity | reflexivity | reflexivity |].
  split; [apply Hgenerate; reflexivity |].
  split; [apply (Hstore "345678"); reflexivity |].
  split; [apply Hnone; exists []; reflexivity |].
  apply Hsend; reflexivity.
Defined.

Lemma check_rate_limit_reads_and_counts_witness :
  snd (RateLimiterRepositoryImpl.CheckRateLimit (served (at_second 50) 0%N)
         "ip:10.0.0.1" 3 60 (increment_all "ip:10.0.0.1" 60 empty_world demo_hits))
  = increment_all "ip:10.0.0.1" 60 empty_world demo_hits
  /\ fst (RateLimiterRepositoryImpl.CheckRateLimit (served (at_second 50) 0%N)
            "ip:10.0.0.1" 3 60 (increment_all "ip:10.0.0.1" 60 empty_world demo_hits))
     = Ok false
  /\ (exists allowed,
        fst (RateLimiterRepositoryImpl.CheckRateLimit (served (at_second 50) 0%N)
               "ip:10.0.0.1" 4 60 (increment_all "ip:10.0.0.1" 60 empty_world demo_hits))
        = Ok allowed
        /\ (allowed = true <-> 3 < 4)).
Proof.
  destruct check_rate_limit_reads_and_counts as (Hreads & Hcompares & Hcounts).
  split; [apply Hreads |]. split.
  - apply (Hcounts "ip:10.0.0.1" 60 empty_world demo_hits (served (at_second 50) 0%N)).
    + lia.
    + vm_compute. discriminate.
    + reflexivity.
    + repeat constructor.
    + reflexivity.
    + reflexivity.
  - apply (Hcompares (served (at_second 50) 0%N) "ip:10.0.0.1" 4 60).
    + reflexivity.
    + vm_compute. reflexivity.
Defined.

(** * Further properties *)
(** * Further properties of the code *)

(** ** Phone numbers *)

Lemma ReplaceAll_absent s c new :
  has_byte c s = false -> ReplaceAll s c new = s.
Proof.
  induction s as [| a s IH]; simpl; [reflexivity |].
  intros H. apply orb_false_elim in H as [Ha Hs].
  rewrite Ha, (IH Hs). reflexivity.
Qed.

Lemma has_byte_removed s c c' :
  has_byte c' (ReplaceAll s c "") = has_byte c' s && negb (Ascii.eqb c c').
Proof.
  induction s as [| a s IH]; simpl; [reflexivity |].
  destruct (Ascii.eqb_spec a c) as [-> | Hac]; simpl.
  - cbv [String.append]. rewrite IH. destruct (Ascii.eqb c c'); simpl; [apply andb_false_r | reflexivity].
  - rewrite IH. destruct (Ascii.eqb_spec a c') as [-> | Hac']; simpl; [| reflexivity].
    destruct (Ascii.eqb_spec c c') as [-> | _]; [contradiction | reflexivity].
Qed.

Lemma strip_separators_clean s : no_separators (strip_separators s).
Proof.
  unfold no_separators, strip_separators. rewrite !has_byte_removed. simpl.
  rewrite !andb_false_r. split; reflexivity.
Qed.

Lemma strip_separators_id s : no_separators s -> strip_separators s = s.
Proof.
  intros [Hsp Hd]. unfold strip_separators.
  rewrite (ReplaceAll_absent s " " "" Hsp). apply ReplaceAll_absent. exact Hd.
Qed.

Lemma Normalize_unfold p :
  NormalizePakistaniPhone p = add_country_code (strip_separators p).
Proof. reflexivity. Qed.

Lemma Validate_unfold p :
  ValidatePakistaniPhone p = MatchString_pk (strip_separators p).
Proof. reflexivity. Qed.

Lemma prefix_String a p b s :
  String.prefix (String a p) (String b s) = Ascii.eqb a b && String.prefix p s.
Proof.
  change (String.prefix (String a p) (String b s))
    with (match ascii_dec a b with left _ => String.prefix p s | right _ => false end).
  destruct (ascii_dec a b) as [-> | Hne].
  - rewrite Ascii.eqb_refl. reflexivity.
  - destruct (Ascii.eqb_spec a b); [contradiction | reflexivity].
Qed.

Lemma prefix_nil_r a p : String.prefix (String a p) "" = false.
Proof. reflexivity. Qed.

Lemma prefix_nil_l s : String.prefix "" s = true.
Proof. destruct s; reflexivity. Qed.

(** What the two rewrites amount to: a leading "03" becomes "+923", a
    leading "92" gains its "+", anything else is left alone. *)
Lemma add_country_code_cases s :
  (exists t, s = String "0" (String "3" t)
             /\ add_country_code s = String "+" (String "9" (String "2" (String "3" t))))
  \/ (exists t, s = String "9" (String "2" t)
               /\ add_country_code s = String "+" (String "9" (String "2" t)))
  \/ (HasPrefix s "03" = false /\ HasPrefix s "92" = false /\ add_country_code s = s).
Proof.
  unfold add_country_code, HasPrefix.
  destruct s as [| c1 [| c2 t]].
  - right. right. repeat split.
  - right. right.
    rewrite !prefix_String, !prefix_nil_r, !andb_false_r.
    rewrite !prefix_String, !prefix_nil_r, !andb_false_r. repeat split.
  - rewrite !prefix_String, !prefix_nil_l, !andb_true_r.
    destruct (Ascii.eqb_spec "0" c1) as [<- | H0];
      [destruct (Ascii.eqb_spec "3" c2) as [<- | H3] |]; cbn -[String.prefix Ascii.eqb].
    + left. eexists. split; reflexivity.
    + right. right. rewrite ?prefix_String.
      repeat split; rewrite ?andb_false_r; try (apply Ascii.eqb_neq; assumption); reflexivity.
    + rewrite !prefix_String, !prefix_nil_l, !andb_true_r.
      destruct (Ascii.eqb_spec "9" c1) as [<- | H9];
        [destruct (Ascii.eqb_spec "2" c2) as [<- | H2] |]; cbn -[String.prefix Ascii.eqb].
      * right. left. eexists. split; reflexivity.
      * right. right.
        repeat split; rewrite ?andb_false_r; try (apply Ascii.eqb_neq; assumption); reflexivity.
      * right. right. repeat split.
Qed.

Lemma add_country_code_clean s : no_separators s -> no_separators (add_country_code s).
Proof.
  destruct (add_country_code_cases s) as [(t & -> & ->) | [(t & -> & ->) | (_ & _ & ->)]];
    unfold no_separators; simpl; tauto.
Qed.

Lemma add_country_code_idem s : add_country_code (add_country_code s) = add_country_code s.
Proof.
  destruct (add_country_code_cases s) as [(t & -> & ->) | [(t & -> & ->) | (_ & _ & H)]].
  - reflexivity.
  - reflexivity.
  - rewrite !H. reflexivity.
Qed.

(** X1. Normalizing a phone number twice gives what normalizing it once
    gives: [Register] stores a fixed point of the function. *)
Theorem normalize_idempotent p :
  NormalizePakistaniPhone (NormalizePakistaniPhone p) = NormalizePakistaniPhone p.
Proof.
  rewrite !Normalize_unfold.
  rewrite (strip_separators_id (add_country_code (strip_separators p))).
  - apply add_country_code_idem.
  - apply add_country_code_clean, strip_separators_clean.
Qed.

Lemma normalized_valid_matches p :
  ValidatePakistaniPhone (NormalizePakistaniPhone p) = true ->
  MatchString_pk (NormalizePakistaniPhone p) = true.
Proof.
  rewrite Validate_unfold, Normalize_unfold.
  rewrite strip_separators_id; [trivial |].
  apply add_country_code_clean, strip_separators_clean.
Qed.

Lemma normalize_spellings_cons t :
  NormalizePakistaniPhone (String "0" (String "3" t))
  = String "+" (String "9" (String "2" (String "3" (strip_separators t))))
  /\ NormalizePakistaniPhone (String "9" (String "2" (String "3" t)))
     = String "+" (String "9" (String "2" (String "3" (strip_separators t))))
  /\ NormalizePakistaniPhone (String "+" (String "9" (String "2" (String "3" t))))
     = String "+" (String "9" (String "2" (String "3" (strip_separators t)))).
Proof.
  repeat split; rewrite Normalize_unfold; unfold strip_separators, add_country_code, HasPrefix;
    cbn -[String.prefix Ascii.eqb]; cbn [Ascii.eqb Bool.eqb];
    rewrite ?prefix_String, ?prefix_nil_l; cbn -[String.prefix];
    rewrite ?prefix_String, ?prefix_nil_l; cbn -[String.prefix]; reflexivity.
Qed.

(** X2. The local, the bare international and the full international
    spelling of a number, separators and all, normalise to one and the
    same text. *)
Theorem normalize_spellings t :
  NormalizePakistaniPhone ("03" ++ t) = "+923" ++ strip_separators t
  /\ NormalizePakistaniPhone ("923" ++ t) = "+923" ++ strip_separators t
  /\ NormalizePakistaniPhone ("+923" ++ t) = "+923" ++ strip_separators t.
Proof. cbv [String.append]. apply normalize_spellings_cons. Qed.

(** ** The footprint of a request on the users collection *)

Section Footprints.

Variable hmac : string -> string -> JWTClaims -> string.
Variable HashPassword : Env -> string -> result string.
Variable CheckPassword : string -> string -> bool.

Lemma serve_users_step uc w ev :
  users_step (users w) (users (serve hmac HashPassword CheckPassword uc w ev)).
Proof.
  destruct ev as [env [req | req | req | req | email | userID | key limit ws | key ws | userID]];
    unfold serve.
  - unfold AuthUseCaseImpl.Register. unfold_repos. unfold_monad. unfold mongo.InsertOne.
    repeat (case_match; simplify_eq/=); try apply users_same.
    all: apply users_created; simpl; eauto.
    all: try (apply negb_false_iff; assumption).
  - unfold AuthUseCaseImpl.Login. unfold_repos. unfold_monad. unfold mongo.InsertOne.
    repeat (case_match; simplify_eq/=); first [apply users_same | apply users_logged_in].
  - unfold AuthUseCaseImpl.VerifyOTP. unfold_repos. unfold_monad.
    repeat (case_match; simplify_eq/=); first [apply users_same | apply users_verified].
  - unfold AuthUseCaseImpl.RefreshToken. unfold_repos. unfold_monad. unfold mongo.InsertOne.
    repeat (case_match; simplify_eq/=); apply users_same.
  - unfold AuthUseCaseImpl.ResendOTP. unfold_repos. unfold_monad.
    repeat (case_match; simplify_eq/=); apply users_same.
  - unfold AuthUseCaseImpl.GetUserByID. unfold_repos. unfold_monad.
    repeat (case_match; simplify_eq/=); apply users_same.
  - unfold RateLimiterRepositoryImpl.CheckRateLimit. unfold_repos. unfold_monad.
    repeat (case_match; simplify_eq/=); apply users_same.
  - unfold RateLimiterRepositoryImpl.IncrementCounter. unfold_repos. unfold_monad.
    repeat (case_match; simplify_eq/=); apply users_same.
  - unfold_repos. unfold_monad.
    repeat (case_match; simplify_eq/=); apply users_same.
Qed.

Lemma serve_all_invariant (P : World -> Prop) uc :
  (forall w ev, P w -> P (serve hmac HashPassword CheckPassword uc w ev)) ->
  forall trace w, P w -> P (serve_all hmac HashPassword CheckPassword uc w trace).
Proof.
  intros Hstep. induction trace as [| ev trace IH]; intros w Hw; [exact Hw |].
  apply IH, Hstep, Hw.
Qed.

Lemma reachable_invariant (P : World -> Prop) uc :
  P empty_world ->
  (forall w ev, P w -> P (serve hmac HashPassword CheckPassword uc w ev)) ->
  forall w, reachable hmac HashPassword CheckPassword uc w -> P w.
Proof.
  intros H0 Hstep w [trace ->]. apply serve_all_invariant; assumption.
Qed.

End Footprints.

(** ** Invariants of the users collection *)

Lemma map_UpdateOne {A B} (f : A -> B) (filter : A -> bool) (set : A -> A) (coll : list A) :
  (forall a, f (set a) = f a) ->
  List.map f (mongo.UpdateOne filter set coll) = List.map f coll.
Proof.
  intros Hf. induction coll as [| d rest IH]; simpl; [reflexivity |].
  destruct (filter d); simpl; [rewrite Hf | rewrite IH]; reflexivity.
Qed.

Lemma no_collision doc us :
  existsb (UserRepositoryImpl.collides doc) us = false ->
  (ID doc ∉ List.map ID us) /\ (Email doc ∉ List.map Email us)
  /\ (Phone doc ∉ List.map Phone us).
Proof.
  induction us as [| d rest IH]; simpl.
  - intros _. repeat split; apply not_elem_of_nil.
  - intros H. apply orb_false_elim in H as [Hd Hrest].
    destruct (IH Hrest) as (Hi & He & Hp).
    unfold UserRepositoryImpl.collides in Hd.
    apply orb_false_elim in Hd as [Hd Hph]. apply orb_false_elim in Hd as [Hid Hem].
    apply N.eqb_neq in Hid. apply String.eqb_neq in Hem. apply String.eqb_neq in Hph.
    repeat split; apply not_elem_of_cons; split; assumption.
Qed.

Lemma NoDup_snoc {A} (l : list A) (x : A) : NoDup l -> x ∉ l -> NoDup (l ++ [x]).
Proof.
  intros Hl Hx. apply NoDup_app. split; [exact Hl |]. split.
  - intros y Hy Hin. apply list_elem_of_singleton in Hin. subst. contradiction.
  - apply NoDup_singleton.
Qed.

Lemma users_step_unique us us' :
  users_step us us' -> unique_users us -> unique_users us'.
Proof.
  intros Hstep (Hi & He & Hp). unfold unique_users.
  destruct Hstep as [| doc Hfresh _ _ _ _ _ _ | email t | id t].
  - repeat split; assumption.
  - destruct (no_collision doc us Hfresh) as (Hid & Hem & Hph).
    rewrite !map_app. simpl. repeat split; apply NoDup_snoc; assumption.
  - rewrite !map_UpdateOne by reflexivity. repeat split; assumption.
  - rewrite !map_UpdateOne by reflexivity. repeat split; assumption.
Qed.

Lemma Forall_UpdateOne {A} (P : A -> Prop) (filter : A -> bool) (set : A -> A) (coll : list A) :
  (forall a, P a -> P (set a)) ->
  Forall P coll -> Forall P (mongo.UpdateOne filter set coll).
Proof.
  intros Hset. induction 1 as [| d rest Hd Hrest IH]; simpl; [constructor |].
  destruct (filter d); constructor; auto.
Qed.

Lemma users_step_sound us us' :
  users_step us us' -> Forall sound_user us -> Forall sound_user us'.
Proof.
  intros Hstep Hall.
  destruct Hstep as [| doc _ _ Hact _ Hvalid (phone & Hphone) Hrole | email t | id t].
  - exact Hall.
  - apply Forall_app. split; [exact Hall |]. constructor; [| constructor].
    repeat split; [exact Hact | | exact Hrole].
    rewrite Hphone in *. apply normalized_valid_matches. exact Hvalid.
  - apply Forall_UpdateOne; [| exact Hall]. intros u Hu. exact Hu.
  - apply Forall_UpdateOne; [| exact Hall]. intros u Hu. exact Hu.
Qed.

Section Invariants.

Variable hmac : string -> string -> JWTClaims -> string.
Variable HashPassword : Env -> string -> result string.
Variable CheckPassword : string -> string -> bool.

(** X3. In every state the service can reach, no two users share an
    identifier, an e-mail address or a phone number. *)
Theorem reachable_unique_users uc w :
  reachable hmac HashPassword CheckPassword uc w -> unique_users (users w).
Proof.
  apply (reachable_invariant hmac HashPassword CheckPassword (fun w => unique_users (users w))).
  - repeat split; constructor.
  - intros w0 ev H. eapply users_step_unique; [apply serve_users_step | exact H].
Qed.

Lemma sound_users_reachable uc w :
  reachable hmac HashPassword CheckPassword uc w -> Forall sound_user (users w).
Proof.
  apply (reachable_invariant hmac HashPassword CheckPassword
           (fun w => Forall sound_user (users w))).
  - constructor.
  - intros w0 ev H. eapply users_step_sound; [apply serve_users_step | exact H].
Qed.

(** X4. In every state the service can reach, every user is active, holds a
    phone number of the form +923 followed by nine digits, and a role of
    the closed enumeration. *)
Theorem reachable_sound_users uc w :
  reachable hmac HashPassword CheckPassword uc w -> Forall sound_user (users w).
Proof. exact (sound_users_reachable uc w). Qed.

End Invariants.


(** ** One-time codes *)

Lemma digit_at_is_digit n : 0 <= n < 10 -> is_digit (digit_at n) = true.
Proof.
  intros H. unfold digit_at.
  destruct (Z.to_nat n) as [| k] eqn:Hk; [reflexivity |].
  do 9 (destruct k as [| k]; [reflexivity |]). lia.
Qed.

Lemma otp_bytes_shape env n : forall i,
  String.length (otp_bytes env i n) = n /\ all_digits (otp_bytes env i n) = true.
Proof.
  induction n as [| n IH]; intros i; simpl; [split; reflexivity |].
  destruct (IH (S i)) as [Hlen Hdig]. rewrite Hlen, Hdig.
  rewrite digit_at_is_digit by (apply Z.mod_pos_bound; lia).
  split; reflexivity.
Qed.

(** X5. [GenerateOTP] refuses a length that is not positive; otherwise, when
    the random source answers, the code has exactly that many characters,
    all of them decimal digits. *)
Theorem generate_otp_shape env length :
  (length <= 0 -> exists e, GenerateOTP env length = Err e)
  /\ (0 < length -> fails env RandRead = None ->
      exists otp,
        GenerateOTP env length = Ok otp
        /\ String.length otp = Z.to_nat length
        /\ all_digits otp = true).
Proof.
  unfold GenerateOTP. split.
  - intros H. destruct (Z.leb_spec length 0); [eauto | lia].
  - intros H Hr. destruct (Z.leb_spec length 0); [lia |]. rewrite Hr.
    eexists. split; [reflexivity |]. apply otp_bytes_shape.
Qed.

(** ** Accounts over time *)

Lemma same_account_refl u : same_account u u.
Proof. unfold same_account. tauto. Qed.

Lemma same_account_trans u v x : same_account u v -> same_account v x -> same_account u x.
Proof.
  unfold same_account. intros H1 H2.
  destruct H1 as (?&?&?&?&?&?&?&?&?&?), H2 as (?&?&?&?&?&?&?&?&?&?).
  repeat split; try congruence. auto.
Qed.

Lemma FindOne_UpdateOne {A} (p filter : A -> bool) (set : A -> A) (coll : list A) (a : A) :
  (forall x, p (set x) = p x) ->
  mongo.FindOne p coll = Some a ->
  mongo.FindOne p (mongo.UpdateOne filter set coll) = Some a
  \/ mongo.FindOne p (mongo.UpdateOne filter set coll) = Some (set a).
Proof.
  intros Hp. unfold mongo.FindOne.
  induction coll as [| d rest IH]; simpl; [discriminate |].
  destruct (filter d) eqn:Hf; simpl.
  - rewrite Hp. destruct (p d); [intros [= <-]; right; reflexivity | intros H; left; exact H].
  - destruct (p d); [intros [= <-]; left; reflexivity | exact IH].
Qed.

Lemma users_step_account us us' email u :
  users_step us us' ->
  mongo.FindOne (UserRepositoryImpl.by_email email) us = Some u ->
  exists u', mongo.FindOne (UserRepositoryImpl.by_email email) us' = Some u'
             /\ same_account u u'.
Proof.
  intros Hstep Hu. destruct Hstep as [| doc _ _ _ _ _ _ _ | email' t | id t].
  - exists u. split; [exact Hu | apply same_account_refl].
  - exists u. split; [apply FindOne_app_found; exact Hu | apply same_account_refl].
  - destruct (FindOne_UpdateOne (UserRepositoryImpl.by_email email)
                (UserRepositoryImpl.by_email email')
                (UserRepositoryImpl.set_is_verified true t) us u) as [H | H];
      [reflexivity | exact Hu | |]; eexists; (split; [exact H |]).
    + apply same_account_refl.
    + unfold same_account. simpl. tauto.
  - destruct (FindOne_UpdateOne (UserRepositoryImpl.by_email email)
                (UserRepositoryImpl.by_id id)
                (UserRepositoryImpl.set_last_login t) us u) as [H | H];
      [reflexivity | exact Hu | |]; eexists; (split; [exact H |]).
    + apply same_account_refl.
    + unfold same_account. simpl. tauto.
Qed.

Section Accounts.

Variable hmac : string -> string -> JWTClaims -> string.
Variable HashPassword : Env -> string -> result string.
Variable CheckPassword : string -> string -> bool.

(** X6. Whatever requests are served, an account found under an e-mail
    address stays found under it with the same identifier, phone,
    password hash, names, role, active flag and creation time, and once
    verified it stays verified: no request deletes a user, rewrites these
    fields or withdraws a verification. *)
Theorem account_is_stable uc trace : forall w email u,
  mongo.FindOne (UserRepositoryImpl.by_email email) (users w) = Some u ->
  exists u',
    mongo.FindOne (UserRepositoryImpl.by_email email)
      (users (serve_all hmac HashPassword CheckPassword uc w trace)) = Some u'
    /\ same_account u u'.
Proof.
  induction trace as [| ev trace IH]; intros w email u Hu.
  - exists u. split; [exact Hu | apply same_account_refl].
  - destruct (users_step_account _ _ email u
                (serve_users_step hmac HashPassword CheckPassword uc w ev) Hu)
      as (u1 & Hu1 & Hsame1).
    destruct (IH _ email u1 Hu1) as (u2 & Hu2 & Hsame2).
    exists u2. split; [exact Hu2 | eapply same_account_trans; eassumption].
Qed.

(** X7. Through the service no account is ever deactivated, so in a state it
    can reach [Login] never ends in [ErrUserInactive]. *)
Theorem login_never_inactive uc env req w :
  reachable hmac HashPassword CheckPassword uc w ->
  fst (AuthUseCaseImpl.Login hmac CheckPassword uc env req w) <> Err ErrUserInactive.
Proof.
  intros Hreach.
  pose proof (sound_users_reachable hmac HashPassword CheckPassword uc w Hreach) as Hsound.
  rewrite Forall_forall in Hsound.
  unfold AuthUseCaseImpl.Login. unfold_repos. unfold_monad. unfold mongo.InsertOne, Decode.
  intros Heq. repeat (case_match; simplify_eq/=).
  all: match goal with
       | H : mongo.FindOne _ _ = Some ?u |- _ =>
           apply FindOne_elem in H as [Hin _];
           destruct (Hsound u Hin) as (Hact & _)
       end.
  all: match goal with
       | H : negb (IsActive _) = true |- _ => rewrite Hact in H; discriminate H
       end.
Qed.

End Accounts.

(** ** Identifiers and their hexadecimal form *)

Lemma hex_value_digit m : (m < 16)%N -> hex_value (hex_digit m) = Some m.
Proof.
  intros H. rewrite <- (N2Nat.id m).
  destruct (N.to_nat m) as [| k] eqn:Hk; [reflexivity |].
  do 15 (destruct k as [| k]; [reflexivity |]). lia.
Qed.

Lemma hex_encode_length digits : forall n acc,
  String.length (hex_encode digits n acc) = (digits + String.length acc)%nat.
Proof.
  induction digits as [| k IH]; intros n acc; simpl; [reflexivity |].
  rewrite IH. simpl. lia.
Qed.

Lemma hex_decode_encode digits : forall n acc a,
  hex_decode (hex_encode digits n acc) a
  = hex_decode acc (a * 16 ^ N.of_nat digits + n mod 16 ^ N.of_nat digits)%N.
Proof.
  induction digits as [| k IH]; intros n acc a.
  - simpl. rewrite N.mod_1_r, N.mul_1_r, N.add_0_r. reflexivity.
  - cbn [hex_encode]. rewrite IH. cbn [hex_decode].
    rewrite hex_value_digit by (apply N.mod_lt; discriminate).
    f_equal.
    rewrite Nat2N.inj_succ, N.pow_succ_r'.
    rewrite (N.Div0.mod_mul_r n 16 (16 ^ N.of_nat k)).
    lia.
Qed.

Lemma ObjectIDFromHex_Hex id : (id < 2 ^ 96)%N -> ObjectIDFromHex (Hex id) = Ok id.
Proof.
  intros Hid. unfold ObjectIDFromHex, Hex.
  rewrite hex_encode_length. simpl Nat.eqb.
  rewrite hex_decode_encode. cbn [hex_decode].
  rewrite N.mul_0_l, N.add_0_l.
  change (16 ^ N.of_nat 24)%N with (2 ^ 96)%N.
  rewrite N.mod_small by exact Hid. reflexivity.
Qed.

Lemma FindOne_by_id_unique us u :
  NoDup (List.map ID us) -> u ∈ us ->
  mongo.FindOne (UserRepositoryImpl.by_id (ID u)) us = Some u.
Proof.
  unfold mongo.FindOne, UserRepositoryImpl.by_id.
  induction us as [| d rest IH]; simpl; intros Hnd Hin; [inversion Hin |].
  apply NoDup_cons in Hnd as [Hd Hrest].
  apply elem_of_cons in Hin as [-> | Hin].
  - rewrite N.eqb_refl. reflexivity.
  - destruct (N.eqb_spec (ID d) (ID u)) as [Heq | _]; [| exact (IH Hrest Hin)].
    exfalso. apply Hd. rewrite Heq. apply list_elem_of_fmap. exists u. split; [reflexivity | exact Hin].
Qed.

Lemma GetUserByID_found uc env w u :
  NoDup (List.map ID (users w)) ->
  u ∈ users w ->
  (ID u < 2 ^ 96)%N ->
  fails env UserFindByID = None ->
  AuthUseCaseImpl.GetUserByID uc env (Hex (ID u)) w = (Ok u, w).
Proof.
  intros Hnd Hin Hid Hf.
  unfold AuthUseCaseImpl.GetUserByID, bind, or_else, lift.
  rewrite (ObjectIDFromHex_Hex _ Hid).
  unfold UserRepositoryImpl.FindByID, map_err, call. rewrite Hf.
  rewrite (FindOne_by_id_unique _ _ Hnd Hin). reflexivity.
Qed.

(** X8. [GetUserByID] answers [ErrUserNotFound] for any text that is not
    twenty-four hexadecimal digits, without asking the store; given the
    identifier text of a stored user (as [ToUserInfo] hands it out), with
    identifiers unique and the lookup served, it returns that user. *)
Theorem get_user_by_id_roundtrip uc env w :
  (forall userID e,
      ObjectIDFromHex userID = Err e ->
      AuthUseCaseImpl.GetUserByID uc env userID w = (Err ErrUserNotFound, w))
  /\ (forall u,
      NoDup (List.map ID (users w)) ->
      u ∈ users w ->
      (ID u < 2 ^ 96)%N ->
      fails env UserFindByID = None ->
      AuthUseCaseImpl.GetUserByID uc env (info_ID (ToUserInfo u)) w = (Ok u, w)).
Proof.
  split.
  - intros userID e He. unfold AuthUseCaseImpl.GetUserByID, bind, or_else, lift.
    rewrite He. reflexivity.
  - intros u Hnd Hin Hid Hf. cbn [info_ID ToUserInfo].
    apply GetUserByID_found; assumption.
Qed.

(** ** The code store *)

Lemma otp_duration ttlMinutes :
  -153722867 <= ttlMinutes <= 153722867 ->
  time.Duration ttlMinutes time.Minute = ttlMinutes * 60000 * time.Millisecond.
Proof.
  intros H. rewrite Duration_small.
  - unfold time.Minute, time.Second, time.Millisecond. lia.
  - destruct int64_bounds as [-> ->]. unfold time.Minute, time.Second. lia.
Qed.

Lemma Store_entry env email code ttlMinutes w :
  fails env RedisSet = None ->
  -153722867 <= ttlMinutes <= 153722867 ->
  OTPRepositoryImpl.Store env email code ttlMinutes w
  = (Ok tt,
     with_redis_keys w
       (<[OTPRepositoryImpl.key email :=
            mkRedisEntry code
              (if 0 <? ttlMinutes then Some (Now env + ttlMinutes * time.Minute) else None)]>
          (redis_keys w))).
Proof.
  intros Hf Httl. unfold OTPRepositoryImpl.Store, redis.Set_, call. rewrite Hf.
  rewrite (otp_duration _ Httl).
  do 3 f_equal.
  destruct (Z.ltb_spec 0 ttlMinutes) as [Hpos | Hle].
  - destruct (Z.ltb_spec 0 (ttlMinutes * 60000 * time.Millisecond)) as [_ | H];
      [| unfold time.Millisecond in H; lia].
    destruct (Z.ltb_spec (ttlMinutes * 60000 * time.Millisecond) time.Millisecond) as [H | _];
      [unfold time.Millisecond in H; lia |].
    rewrite Z.div_mul by discriminate.
    unfold time.Minute, time.Second, time.Millisecond. do 3 apply f_equal. lia.
  - destruct (Z.ltb_spec 0 (ttlMinutes * 60000 * time.Millisecond)) as [H | _];
      [unfold time.Millisecond in H; lia |].
    destruct (Z.eqb_spec (ttlMinutes * 60000 * time.Millisecond) redis.KeepTTL) as [H | _];
      [unfold time.Millisecond, redis.KeepTTL in H; lia |].
    reflexivity.
Qed.

(** X9. A stored code is read back until its time to live has run out and
    not after; a time to live that is not positive stores the code for
    good; codes kept for other addresses are not touched. *)
Theorem otp_store_then_get env email code ttlMinutes w :
  fails env RedisSet = None ->
  -153722867 <= ttlMinutes <= 153722867 ->
  (forall env',
      fails env' RedisGet = None ->
      0 < ttlMinutes ->
      (Now env' < Now env + ttlMinutes * time.Minute ->
       fst (OTPRepositoryImpl.Get env' email
              (snd (OTPRepositoryImpl.Store env email code ttlMinutes w))) = Ok code)
      /\ (Now env + ttlMinutes * time.Minute <= Now env' ->
          fst (OTPRepositoryImpl.Get env' email
                 (snd (OTPRepositoryImpl.Store env email code ttlMinutes w)))
          = Err redis_Nil))
  /\ (forall env',
      fails env' RedisGet = None ->
      ttlMinutes <= 0 ->
      fst (OTPRepositoryImpl.Get env' email
             (snd (OTPRepositoryImpl.Store env email code ttlMinutes w))) = Ok code)
  /\ (forall other,
      other <> email ->
      redis_keys (snd (OTPRepositoryImpl.Store env email code ttlMinutes w))
        !! OTPRepositoryImpl.key other
      = redis_keys w !! OTPRepositoryImpl.key other).
Proof.
  intros Hf Httl. rewrite (Store_entry env email code ttlMinutes w Hf Httl).
  cbn [snd]. split; [| split].
  - intros env' Hg Hpos.
    unfold OTPRepositoryImpl.Get, redis.Get, call, redis.lookup. rewrite Hg.
    cbn [redis_keys with_redis_keys]. rewrite lookup_insert_eq.
    destruct (Z.ltb_spec 0 ttlMinutes); [| lia].
    unfold redis.live. cbn [expire_at value].
    split; intros H'; destruct (Z.ltb_spec (Now env') (Now env + ttlMinutes * time.Minute));
      try lia; reflexivity.
  - intros env' Hg Hle.
    unfold OTPRepositoryImpl.Get, redis.Get, call, redis.lookup. rewrite Hg.
    cbn [redis_keys with_redis_keys]. rewrite lookup_insert_eq.
    destruct (Z.ltb_spec 0 ttlMinutes); [lia |]. reflexivity.
  - intros other Hne. cbn [redis_keys with_redis_keys].
    apply lookup_insert_ne. intros Hk. apply Hne. symmetry. apply otp_key_inj. exact Hk.
Qed.

(** ** Verification and the resending of codes *)

Lemma FindOne_UpdateOne_same {A} (p : A -> bool) (set : A -> A) (coll : list A) (a : A) :
  (forall x, p (set x) = p x) ->
  mongo.FindOne p coll = Some a ->
  mongo.FindOne p (mongo.UpdateOne p set coll) = Some (set a).
Proof.
  intros Hp. unfold mongo.FindOne.
  induction coll as [| d rest IH]; simpl; [discriminate |].
  destruct (p d) eqn:Hd; simpl.
  - rewrite Hp, Hd. intros [= <-]. reflexivity.
  - rewrite Hd. exact IH.
Qed.

Section Codes.

Variable hmac : string -> string -> JWTClaims -> string.
Variable HashPassword : Env -> string -> result string.
Variable CheckPassword : string -> string -> bool.

(** X10. A matching live code verifies the account it was sent to and is then
    gone: the user found under the address afterwards is the same record
    with the verification flag set, the refresh tokens are untouched, and
    a second verification with the same request, whenever it comes and
    whatever its surroundings, ends in [ErrOTPNotFound] and changes
    nothing. *)
Theorem verify_otp_verifies_once uc env req w entry u :
  fails env RedisGet = None ->
  redis.lookup (Now env) (OTPRepositoryImpl.key (otp_Email req)) (redis_keys w)
    = Some entry ->
  value entry = otp_Code req ->
  mongo.FindOne (UserRepositoryImpl.by_email (otp_Email req)) (users w) = Some u ->
  fails env UserUpdateVerificationStatus = None ->
  fails env RedisDel = None ->
  fst (AuthUseCaseImpl.VerifyOTP uc env req w) = Ok tt
  /\ mongo.FindOne (UserRepositoryImpl.by_email (otp_Email req))
       (users (snd (AuthUseCaseImpl.VerifyOTP uc env req w)))
     = Some (UserRepositoryImpl.set_is_verified true (mongo.DateTime (Now env)) u)
  /\ refresh_tokens (snd (AuthUseCaseImpl.VerifyOTP uc env req w)) = refresh_tokens w
  /\ (forall env',
        AuthUseCaseImpl.VerifyOTP uc env' req (snd (AuthUseCaseImpl.VerifyOTP uc env req w))
        = (Err ErrOTPNotFound, snd (AuthUseCaseImpl.VerifyOTP uc env req w))).
Proof.
  intros Hf Hlook Hcode Hu Hup Hdel.
  assert (H : AuthUseCaseImpl.VerifyOTP uc env req w
              = (Ok tt,
                 with_redis_keys
                   (with_users w
                      (mongo.UpdateOne (UserRepositoryImpl.by_email (otp_Email req))
                         (UserRepositoryImpl.set_is_verified true (mongo.DateTime (Now env)))
                         (users w)))
                   (delete (OTPRepositoryImpl.key (otp_Email req)) (redis_keys w)))).
  { unfold AuthUseCaseImpl.VerifyOTP, bind, or_else, OTPRepositoryImpl.Get, redis.Get, call.
    rewrite Hf, Hlook, Hcode, String.eqb_refl. cbn [negb].
    unfold UserRepositoryImpl.UpdateVerificationStatus, call. rewrite Hup.
    unfold logged, OTPRepositoryImpl.Delete, redis.Delete, call. rewrite Hdel.
    reflexivity. }
  rewrite H. cbn [fst snd].
  split; [reflexivity | split; [| split; [reflexivity |]]].
  - apply FindOne_UpdateOne_same; [intros x; reflexivity | exact Hu].
  - intros env'. unfold AuthUseCaseImpl.VerifyOTP.
    unfold bind, or_else, OTPRepositoryImpl.Get, redis.Get, call, fail, redis.lookup.
    destruct (fails env' RedisGet); [reflexivity |].
    unfold with_redis_keys, with_users. cbn [redis_keys]. rewrite lookup_delete_eq.
    reflexivity.
Qed.

(** X11. [ResendOTP] by cases, with the status the handler answers: an
    unknown address is a 404; an account that is already verified is
    turned away with [ErrBadRequest], which the handler answers with a
    500; while a code is live no new one is sent (429); otherwise a fresh
    code is stored, dispatched, and can be read back at once. *)
Theorem resend_otp_cases uc env email w :
  fails env UserFindByEmail = None ->
  (mongo.FindOne (UserRepositoryImpl.by_email email) (users w) = None ->
   AuthUseCaseImpl.ResendOTP uc env email w = (Err ErrUserNotFound, w)
   /\ status (fst (AuthHandler.ResendOTP uc env email w)) = http.StatusNotFound)
  /\ (forall u,
      mongo.FindOne (UserRepositoryImpl.by_email email) (users w) = Some u ->
      IsVerified u = true ->
      AuthUseCaseImpl.ResendOTP uc env email w = (Err ErrBadRequest, w)
      /\ status (fst (AuthHandler.ResendOTP uc env email w))
         = http.StatusInternalServerError)
  /\ (forall u entry,
      mongo.FindOne (UserRepositoryImpl.by_email email) (users w) = Some u ->
      IsVerified u = false ->
      fails env RedisExists = None ->
      redis.lookup (Now env) (OTPRepositoryImpl.key email) (redis_keys w) = Some entry ->
      AuthUseCaseImpl.ResendOTP uc env email w = (Err ErrOTPAlreadySent, w)
      /\ status (fst (AuthHandler.ResendOTP uc env email w))
         = http.StatusTooManyRequests)
  /\ (forall u otp,
      mongo.FindOne (UserRepositoryImpl.by_email email) (users w) = Some u ->
      IsVerified u = false ->
      fails env RedisExists = None ->
      redis.lookup (Now env) (OTPRepositoryImpl.key email) (redis_keys w) = None ->
      GenerateOTP env (otpLength uc) = Ok otp ->
      fails env RedisSet = None ->
      fails env EmailSendOTP = None ->
      fails env RedisGet = None ->
      fst (AuthUseCaseImpl.ResendOTP uc env email w) = Ok tt
      /\ status (fst (AuthHandler.ResendOTP uc env email w)) = http.StatusOK
      /\ users (snd (AuthUseCaseImpl.ResendOTP uc env email w)) = users w
      /\ fst (OTPRepositoryImpl.Get env email (snd (AuthUseCaseImpl.ResendOTP uc env email w)))
         = Ok otp).
Proof.
  intros Hfind. split; [| split; [| split]].
  - intros Hnone.
    assert (H : AuthUseCaseImpl.ResendOTP uc env email w = (Err ErrUserNotFound, w)).
    { unfold AuthUseCaseImpl.ResendOTP, bind, or_else, UserRepositoryImpl.FindByEmail,
        map_err, call.
      rewrite Hfind, Hnone. reflexivity. }
    split; [exact H |]. unfold AuthHandler.ResendOTP. rewrite H. reflexivity.
  - intros u Hu Hv.
    assert (H : AuthUseCaseImpl.ResendOTP uc env email w = (Err ErrBadRequest, w)).
    { unfold AuthUseCaseImpl.ResendOTP, bind, or_else.
      rewrite (FindByEmail_served env email w u Hfind Hu), Hv. reflexivity. }
    split; [exact H |]. unfold AuthHandler.ResendOTP. rewrite H. reflexivity.
  - intros u entry Hu Hv Hex Hlook.
    assert (H : AuthUseCaseImpl.ResendOTP uc env email w = (Err ErrOTPAlreadySent, w)).
    { unfold AuthUseCaseImpl.ResendOTP, bind, or_else.
      rewrite (FindByEmail_served env email w u Hfind Hu), Hv.
      unfold OTPRepositoryImpl.Exists, redis.Exists, call. rewrite Hex, Hlook. reflexivity. }
    split; [exact H |]. unfold AuthHandler.ResendOTP. rewrite H. reflexivity.
  - intros u otp Hu Hv Hex Hlook Hgen Hset Hsend Hget.
    destruct (Store_result env email otp (otpExpireMinutes uc) w)
      as [(msg & Hm & _) | (_ & entry & Hstore & Hval & Hlive)]; [congruence |].
    assert (H : AuthUseCaseImpl.ResendOTP uc env email w
                = (Ok tt, with_redis_keys w
                            (<[OTPRepositoryImpl.key email := entry]> (redis_keys w)))).
    { unfold AuthUseCaseImpl.ResendOTP, bind, or_else.
      rewrite (FindByEmail_served env email w u Hfind Hu), Hv.
      unfold OTPRepositoryImpl.Exists, redis.Exists, call at 1. rewrite Hex, Hlook.
      unfold lift. rewrite Hgen, Hstore.
      unfold SendOTP, call, ret. rewrite Hsend. reflexivity. }
    unfold AuthHandler.ResendOTP. rewrite H. cbn [fst snd].
    split; [reflexivity | split; [reflexivity | split; [reflexivity |]]].
    unfold OTPRepositoryImpl.Get, redis.Get, call. rewrite Hget.
    cbn [redis_keys with_redis_keys]. rewrite (lookup_stored _ _ _ _ Hlive).
    cbn [fst]. rewrite Hval. reflexivity.
Qed.

End Codes.

(** ** The bearer credential *)

Lemma append_String c a b : (String c a ++ b)%string = String c (a ++ b)%string.
Proof. reflexivity. Qed.

Lemma append_nil b : ("" ++ b)%string = b.
Proof. reflexivity. Qed.

Lemma Split_nonempty s sep : Split s sep <> [].
Proof.
  destruct s as [| c s']; simpl; [discriminate |].
  destruct (Ascii.eqb c sep); [discriminate |].
  destruct (Split s' sep); discriminate.
Qed.

Lemma Split_one s sep : has_byte sep s = false -> Split s sep = [s].
Proof.
  induction s as [| c s' IH]; simpl; [reflexivity |].
  intros H. apply orb_false_elim in H as [Hc Hs]. rewrite Hc, (IH Hs). reflexivity.
Qed.

Lemma Split_app a sep b :
  has_byte sep a = false -> Split (a ++ String sep b)%string sep = a :: Split b sep.
Proof.
  induction a as [| c a' IH]; intros H.
  - rewrite append_nil. simpl. rewrite Ascii.eqb_refl. reflexivity.
  - simpl in H. apply orb_false_elim in H as [Hc Ha].
    rewrite append_String. simpl. rewrite Hc, (IH Ha). reflexivity.
Qed.

Lemma Split_cons_inv sep s : forall h t,
  Split s sep = h :: t ->
  has_byte sep h = false
  /\ ((t = [] /\ s = h) \/ exists s', s = (h ++ String sep s')%string /\ Split s' sep = t).
Proof.
  induction s as [| c s' IH]; intros h t; simpl.
  - intros [= <- <-]. split; [reflexivity | left; split; reflexivity].
  - destruct (Ascii.eqb_spec c sep) as [-> | Hne].
    + intros [= <- <-]. split; [reflexivity |]. right. exists s'. split; reflexivity.
    + destruct (Split s' sep) as [| p ps] eqn:Hs; [exfalso; exact (Split_nonempty _ _ Hs) |].
      intros [= <- <-]. destruct (IH p ps eq_refl) as [Hp Hshape].
      split.
      * simpl. rewrite Hp. destruct (Ascii.eqb_spec c sep); [contradiction | reflexivity].
      * destruct Hshape as [[-> ->] | (s'' & -> & Hs'')].
        -- left. split; reflexivity.
        -- right. exists s''. split; [reflexivity | exact Hs''].
Qed.

Lemma Split_two s sep a b :
  Split s sep = [a; b] ->
  s = (a ++ String sep b)%string /\ has_byte sep a = false /\ has_byte sep b = false.
Proof.
  intros H. destruct (Split_cons_inv sep s a [b] H) as [Ha [[Hnil _] | (s' & -> & Hs')]];
    [discriminate |].
  destruct (Split_cons_inv sep s' b [] Hs') as [Hb [[_ ->] | (s'' & _ & Hs'')]].
  - repeat split; assumption.
  - exfalso. exact (Split_nonempty _ _ Hs'').
Qed.

Section Bearer.

Variable hmac : string -> string -> JWTClaims -> string.
Variable ParseCompact : string -> TokenString.

Local Abbreviation AuthMiddleware := (middleware.AuthMiddleware hmac ParseCompact).
Local Abbreviation ValidateToken := (JWTUtil.ValidateToken hmac).

(** A token signed with the service's key is accepted from its
    not-before instant up to, and not including, its expiry. *)
Lemma ValidateToken_signed j now claims exp nbf :
  c_ExpiresAt claims = Some exp ->
  c_NotBefore claims = Some nbf ->
  nbf <= now < exp ->
  ValidateToken j now (Compact "HS256" claims (hmac "HS256" (secretKey j) claims)) = Ok claims.
Proof.
  intros He Hn Hwin. unfold JWTUtil.ValidateToken.
  cbn [JWTUtil.is_SigningMethodHMAC String.eqb Ascii.eqb Bool.eqb orb negb].
  rewrite String.eqb_refl. cbn [negb].
  unfold JWTUtil.verifyExpiresAt, JWTUtil.verifyNotBefore, time.Before. rewrite He, Hn.
  destruct (Z.ltb_spec now exp); [| lia].
  destruct (Z.ltb_spec now nbf); [lia |].
  reflexivity.
Qed.

(** The keys [AuthMiddleware] sets from the claims of a token. *)
Lemma AuthMiddleware_bearer j now c token claims :
  Authorization c = ("Bearer " ++ token)%string ->
  has_byte " " token = false ->
  ValidateToken j now (ParseCompact token) = Ok claims ->
  AuthMiddleware j now c
  = Next (Set_key (Set_key (Set_key c "user_id" (c_UserID claims))
                     "user_email" (c_Email claims))
            "user_role" (c_Role claims)).
Proof.
  intros Hh Ht Hv. unfold middleware.AuthMiddleware. rewrite Hh.
  change ("Bearer " ++ token)%string with ("Bearer" ++ String " " token)%string.
  rewrite Split_app by reflexivity. rewrite (Split_one _ _ Ht).
  change (("Bearer" ++ String " " token)%string =? "")%string with false.
  cbn [negb String.eqb Ascii.eqb Bool.eqb]. rewrite Hv. reflexivity.
Qed.

(** X12. [AuthMiddleware] lets a request through exactly when its header is
    the word Bearer, one space, and a text without spaces that
    [ValidateToken] accepts; the context handed on then carries the
    claims of that token under [user_id], [user_email] and [user_role].
    Every other request is answered 401 without success. *)
Theorem auth_middleware_bearer_only j now c :
  (forall c',
      AuthMiddleware j now c = Next c' <->
      exists token claims,
        Authorization c = ("Bearer " ++ token)%string
        /\ has_byte " " token = false
        /\ ValidateToken j now (ParseCompact token) = Ok claims
        /\ c' = Set_key (Set_key (Set_key c "user_id" (c_UserID claims))
                           "user_email" (c_Email claims))
                  "user_role" (c_Role claims))
  /\ (forall r,
      AuthMiddleware j now c = Abort r ->
      status r = http.StatusUnauthorized /\ Success r = false /\ data r = None).
Proof.
  split.
  - intros c'. split.
    + unfold middleware.AuthMiddleware.
      destruct (String.eqb (Authorization c) "") eqn:He; [discriminate |].
      destruct (Split (Authorization c) " ") as [| scheme [| token [| x rest]]] eqn:Hs;
        try discriminate.
      destruct (String.eqb_spec scheme "Bearer") as [-> | _]; [| discriminate].
      cbn [negb].
      destruct (JWTUtil.ValidateToken hmac j now (ParseCompact token)) as [claims | e] eqn:Hv;
        [| discriminate].
      intros [= <-]. exists token, claims.
      apply Split_two in Hs as (Hh & _ & Ht).
      repeat split; assumption.
    + intros (token & claims & Hh & Ht & Hv & ->).
      exact (AuthMiddleware_bearer j now c token claims Hh Ht Hv).
  - intros r. unfold middleware.AuthMiddleware.
    repeat case_match; intros [= <-]; repeat split; reflexivity.
Qed.

(** X13. What the three role groups of the router answer to a valid access
    token, by the role it carries: an administrator reaches all three, a
    finance manager the finance reports only, a manager the dashboard
    only, a customer none; whoever is turned away gets 403. *)
Theorem role_groups j now userID email role text c now' :
  JWTUtil.GenerateAccessToken hmac j now userID email role = Ok (ParseCompact text) ->
  has_byte " " text = false ->
  Authorization c = ("Bearer " ++ text)%string ->
  time.Truncate now time.Second <= now'
    < time.Truncate (now + accessTokenExpiration j) time.Second ->
  (role = RoleAdmin ->
     status (routes.admin_users hmac ParseCompact j now' c) = http.StatusOK
     /\ status (routes.finance_reports hmac ParseCompact j now' c) = http.StatusOK
     /\ status (routes.manager_dashboard hmac ParseCompact j now' c) = http.StatusOK)
  /\ (role = RoleFinanceManager ->
     status (routes.admin_users hmac ParseCompact j now' c) = http.StatusForbidden
     /\ status (routes.finance_reports hmac ParseCompact j now' c) = http.StatusOK
     /\ status (routes.manager_dashboard hmac ParseCompact j now' c) = http.StatusForbidden)
  /\ (role = RoleManager ->
     status (routes.admin_users hmac ParseCompact j now' c) = http.StatusForbidden
     /\ status (routes.finance_reports hmac ParseCompact j now' c) = http.StatusForbidden
     /\ status (routes.manager_dashboard hmac ParseCompact j now' c) = http.StatusOK)
  /\ (role = RoleCustomer ->
     status (routes.admin_users hmac ParseCompact j now' c) = http.StatusForbidden
     /\ status (routes.finance_reports hmac ParseCompact j now' c) = http.StatusForbidden
     /\ status (routes.manager_dashboard hmac ParseCompact j now' c) = http.StatusForbidden).
Proof.
  intros Hgen Ht Hh Hwin.
  assert (Hv : exists claims,
             ValidateToken j now' (ParseCompact text) = Ok claims /\ c_Role claims = role).
  { unfold JWTUtil.GenerateAccessToken, JWTUtil.SignedString in Hgen.
    injection Hgen as <-. eexists.
    split; [eapply ValidateToken_signed; [reflexivity | reflexivity | exact Hwin]
           | reflexivity]. }
  destruct Hv as (claims & Hv & Hrole).
  unfold routes.admin_users, routes.finance_reports, routes.manager_dashboard,
    routes.protected.
  rewrite (AuthMiddleware_bearer j now' c text claims Hh Ht Hv).
  unfold routes.restricted, middleware.RoleMiddleware, Set_key. cbn [Keys].
  rewrite lookup_insert_eq, Hrole. clear Hrole Hgen.
  repeat split; subst role; reflexivity.
Qed.

(** X14. A refresh token is accepted by [AuthMiddleware] as a bearer
    credential throughout its own, longer, lifetime: it sets the user
    identifier of its owner, an empty e-mail address and an empty role,
    so a route behind [AuthMiddleware] alone takes it for its owner,
    while each role group answers 403. *)
Theorem refresh_token_as_bearer j now userID text c now' :
  JWTUtil.GenerateRefreshToken hmac j now userID = Ok (ParseCompact text) ->
  has_byte " " text = false ->
  Authorization c = ("Bearer " ++ text)%string ->
  time.Truncate now time.Second <= now'
    < time.Truncate (now + refreshTokenExpiration j) time.Second ->
  (exists c',
      AuthMiddleware j now' c = Next c'
      /\ Keys c' !! "user_id" = Some (Hex userID)
      /\ Keys c' !! "user_email" = Some ""
      /\ Keys c' !! "user_role" = Some "")
  /\ status (routes.admin_users hmac ParseCompact j now' c) = http.StatusForbidden
  /\ status (routes.finance_reports hmac ParseCompact j now' c) = http.StatusForbidden
  /\ status (routes.manager_dashboard hmac ParseCompact j now' c) = http.StatusForbidden.
Proof.
  intros Hgen Ht Hh Hwin.
  assert (Hv : exists claims,
             ValidateToken j now' (ParseCompact text) = Ok claims
             /\ c_UserID claims = Hex userID /\ c_Email claims = "" /\ c_Role claims = "").
  { unfold JWTUtil.GenerateRefreshToken, JWTUtil.SignedString in Hgen.
    injection Hgen as <-. eexists.
    split; [eapply ValidateToken_signed; [reflexivity | reflexivity | exact Hwin]
           | repeat split; reflexivity]. }
  destruct Hv as (claims & Hv & Hid & Hemail & Hrole).
  unfold routes.admin_users, routes.finance_reports, routes.manager_dashboard,
    routes.protected.
  rewrite (AuthMiddleware_bearer j now' c text claims Hh Ht Hv).
  split.
  - eexists. split; [reflexivity |]. unfold Set_key. cbn [Keys].
    rewrite lookup_insert_eq.
    rewrite lookup_insert_ne by discriminate. rewrite lookup_insert_ne by discriminate.
    rewrite lookup_insert_eq.
    rewrite lookup_insert_ne by discriminate. rewrite lookup_insert_eq.
    rewrite Hid, Hemail, Hrole. repeat split; reflexivity.
  - unfold routes.restricted, middleware.RoleMiddleware, Set_key. cbn [Keys].
    rewrite lookup_insert_eq, Hrole.
    repeat split; reflexivity.
Qed.

(** X15. The profile route answers any token that [ValidateToken] accepts
    and that names a stored user with that user's record as it is stored
    now: the e-mail address and role inside the token are not looked at,
    and an access token and a refresh token of the user serve alike. *)
Theorem profile_route_serves_owner uc env c text claims w u :
  Authorization c = ("Bearer " ++ text)%string ->
  has_byte " " text = false ->
  ValidateToken (jwtUtil uc) (Now env) (ParseCompact text) = Ok claims ->
  c_UserID claims = Hex (ID u) ->
  NoDup (List.map ID (users w)) ->
  u ∈ users w ->
  (ID u < 2 ^ 96)%N ->
  fails env UserFindByID = None ->
  routes.profile hmac ParseCompact uc env c w
  = (SuccessResponse http.StatusOK (ProfileData (ToUserInfo u)), w).
Proof.
  intros Hh Ht Hv Hid Hnd Hin Hlt Hf.
  unfold routes.profile.
  rewrite (AuthMiddleware_bearer (jwtUtil uc) (Now env) c text claims Hh Ht Hv).
  unfold AuthHandler.GetProfile, Set_key. cbn [Keys].
  rewrite lookup_insert_ne by discriminate. rewrite lookup_insert_ne by discriminate.
  rewrite lookup_insert_eq, Hid.
  rewrite (GetUserByID_found uc env w u Hnd Hin Hlt Hf). reflexivity.
Qed.

End Bearer.

(** ** The login route behind its rate limiter *)

Lemma stored_count_counter now key w n deadline :
  redis_keys w !! RateLimiterRepositoryImpl.rateLimitKey key
    = Some (mkRedisEntry (FormatInt n) deadline) ->
  MinInt64 <= n <= MaxInt64 ->
  redis.live now (mkRedisEntry (FormatInt n) deadline) = true ->
  stored_count now key w = Ok n.
Proof.
  intros Hk Hn Hlive. unfold stored_count, redis.lookup. rewrite Hk, Hlive.
  cbn [value]. apply Atoi_FormatInt. exact Hn.
Qed.

Lemma stored_count_expired now key w e t :
  redis_keys w !! RateLimiterRepositoryImpl.rateLimitKey key = Some e ->
  expire_at e = Some t ->
  t <= now ->
  stored_count now key w = Ok 0.
Proof.
  intros Hk He Ht. unfold stored_count, redis.lookup, redis.live. rewrite Hk, He.
  destruct (Z.ltb_spec now t); [lia | reflexivity].
Qed.

Lemma IncrementCounter_forever env key ws w n :
  fails env RedisIncr = None ->
  1 <= n < MaxInt64 ->
  redis_keys w !! RateLimiterRepositoryImpl.rateLimitKey key
    = Some (mkRedisEntry (FormatInt n) None) ->
  redis_keys (snd (RateLimiterRepositoryImpl.IncrementCounter env key ws w))
    !! RateLimiterRepositoryImpl.rateLimitKey key
  = Some (mkRedisEntry (FormatInt (n + 1)) None).
Proof.
  intros Hi Hn Hk.
  unfold RateLimiterRepositoryImpl.IncrementCounter, bind, redis.Increment, call.
  rewrite Hi. unfold redis.lookup. rewrite Hk. unfold redis.live. cbn [expire_at value].
  rewrite string2ll_FormatInt by (destruct int64_bounds as [Hmin Hmax]; rewrite Hmin; lia).
  destruct (Z.eqb_spec n MaxInt64); [lia |].
  destruct (Z.eqb_spec (n + 1) 1); [lia |].
  cbn [snd ret redis_keys with_redis_keys]. rewrite lookup_insert_eq. reflexivity.
Qed.

Lemma increment_all_forever key ws envs : forall w n,
  Forall (fun env => fails env RedisIncr = None) envs ->
  1 <= n -> n + Z.of_nat (length envs) <= MaxInt64 ->
  redis_keys w !! RateLimiterRepositoryImpl.rateLimitKey key
    = Some (mkRedisEntry (FormatInt n) None) ->
  redis_keys (increment_all key ws w envs) !! RateLimiterRepositoryImpl.rateLimitKey key
  = Some (mkRedisEntry (FormatInt (n + Z.of_nat (length envs))) None).
Proof.
  induction envs as [| env envs IH]; intros w n Hall Hn Hmax Hk.
  - simpl. rewrite Z.add_0_r. exact Hk.
  - inversion Hall as [| ? ? Henv Hrest]; subst.
    change (increment_all key ws w (env :: envs))
      with (increment_all key ws
              (snd (RateLimiterRepositoryImpl.IncrementCounter env key ws w)) envs).
    simpl length in *.
    rewrite (IH _ (n + 1) Hrest); [do 3 f_equal; lia | lia | lia |].
    apply IncrementCounter_forever; [exact Henv | lia | exact Hk].
Qed.

(** X16. When the EXPIRE that should start a window fails, [IncrementCounter]
    reports the error but the counter it has just created stays, without
    an expiry.  Later increments never give it one, so once the limit is
    reached every check on the key refuses, at whatever later time it is
    made. *)
Theorem counter_without_expiry env0 key windowSeconds w msg :
  fails env0 RedisIncr = None ->
  fails env0 RedisExpire = Some msg ->
  redis.lookup (Now env0) (RateLimiterRepositoryImpl.rateLimitKey key) (redis_keys w) = None ->
  fst (RateLimiterRepositoryImpl.IncrementCounter env0 key windowSeconds w)
    = Err (External msg)
  /\ (forall envs env,
        Forall (fun env => fails env RedisIncr = None) envs ->
        1 + Z.of_nat (length envs) <= MaxInt64 ->
        fails env RedisGet = None ->
        fst (RateLimiterRepositoryImpl.CheckRateLimit env key (1 + Z.of_nat (length envs))
               windowSeconds
               (increment_all key windowSeconds
                  (snd (RateLimiterRepositoryImpl.IncrementCounter env0 key windowSeconds w))
                  envs))
        = Ok false).
Proof.
  intros Hi He Hl.
  assert (H : RateLimiterRepositoryImpl.IncrementCounter env0 key windowSeconds w
              = (Err (External msg),
                 with_redis_keys w
                   (<[RateLimiterRepositoryImpl.rateLimitKey key :=
                        mkRedisEntry (FormatInt 1) None]> (redis_keys w)))).
  { unfold RateLimiterRepositoryImpl.IncrementCounter, bind, redis.Increment, redis.Expire,
      call, fail.
    rewrite Hi, Hl. cbn [Z.eqb Pos.eqb]. rewrite He. reflexivity. }
  rewrite H. cbn [fst snd]. split; [reflexivity |].
  intros envs env Hall Hmax Hg.
  rewrite (CheckRateLimit_compares env key _ windowSeconds _ (1 + Z.of_nat (length envs)) Hg).
  - rewrite Z.ltb_irrefl. reflexivity.
  - apply (stored_count_counter _ _ _ _ None).
    + apply increment_all_forever; [exact Hall | lia | exact Hmax |].
      cbn [redis_keys with_redis_keys]. apply lookup_insert_eq.
    + destruct int64_bounds as [Hmin _]. rewrite Hmin. lia.
    + reflexivity.
Qed.

Section LoginRoute.

Variable hmac : string -> string -> JWTClaims -> string.
Variable CheckPassword : string -> string -> bool.

Local Abbreviation login := (routes.login hmac CheckPassword).
Local Abbreviation attempts_from := (login_attempts hmac CheckPassword).

Lemma Login_keeps_redis uc env req w :
  redis_keys (snd (AuthUseCaseImpl.Login hmac CheckPassword uc env req w)) = redis_keys w.
Proof.
  unfold AuthUseCaseImpl.Login. unfold_repos. unfold_monad. unfold mongo.InsertOne, Decode.
  repeat (case_match; simplify_eq/=); reflexivity.
Qed.

Lemma login_keys uc env limit c req w count :
  fails env RedisGet = None ->
  stored_count (Now env) ("login:ip:" ++ ClientIP c) w = Ok count ->
  count < limit ->
  fst (login uc env limit c req w)
    = fst (AuthHandler.Login hmac CheckPassword uc env req
             (snd (RateLimiterRepositoryImpl.IncrementCounter env
                     ("login:ip:" ++ ClientIP c) 60 w)))
  /\ redis_keys (snd (login uc env limit c req w))
     = redis_keys (snd (RateLimiterRepositoryImpl.IncrementCounter env
                          ("login:ip:" ++ ClientIP c) 60 w)).
Proof.
  intros Hg Hcount Hlt.
  pose proof (CheckRateLimit_compares env _ limit 60 w count Hg Hcount) as Hfst.
  pose proof (CheckRateLimit_reads env ("login:ip:" ++ ClientIP c) limit 60 w) as Hsnd.
  unfold routes.login, middleware.LoginRateLimiterMiddleware.
  destruct (RateLimiterRepositoryImpl.CheckRateLimit env _ limit 60 w) as [r w1].
  cbn [fst snd] in Hfst, Hsnd. subst r w1.
  destruct (Z.ltb_spec count limit); [| lia].
  destruct (RateLimiterRepositoryImpl.IncrementCounter env _ 60 w) as [x w2]. cbn [snd].
  split; [reflexivity |].
  unfold AuthHandler.Login.
  pose proof (Login_keeps_redis uc env req w2) as Hk.
  destruct (AuthUseCaseImpl.Login hmac CheckPassword uc env req w2) as [[resp | err] w3];
    exact Hk.
Qed.

Lemma login_refused uc env limit c req w count :
  fails env RedisGet = None ->
  stored_count (Now env) ("login:ip:" ++ ClientIP c) w = Ok count ->
  limit <= count ->
  login uc env limit c req w
  = (ErrorMessageResponse http.StatusTooManyRequests
       "Too many login attempts. Please try again later.", w).
Proof.
  intros Hg Hcount Hle.
  pose proof (CheckRateLimit_compares env _ limit 60 w count Hg Hcount) as Hfst.
  pose proof (CheckRateLimit_reads env ("login:ip:" ++ ClientIP c) limit 60 w) as Hsnd.
  unfold routes.login, middleware.LoginRateLimiterMiddleware.
  destruct (RateLimiterRepositoryImpl.CheckRateLimit env _ limit 60 w) as [r w1].
  cbn [fst snd] in Hfst, Hsnd. subst r w1.
  destruct (Z.ltb_spec count limit); [lia | reflexivity].
Qed.

Lemma login_attempts_next uc limit c attempts : forall w n deadline,
  Forall (attempt_served deadline) attempts ->
  1 <= n -> n + Z.of_nat (length attempts) <= limit -> limit <= MaxInt64 ->
  redis_keys w !! RateLimiterRepositoryImpl.rateLimitKey ("login:ip:" ++ ClientIP c)
    = Some (mkRedisEntry (FormatInt n) (Some deadline)) ->
  redis_keys (attempts_from uc limit c w attempts)
    !! RateLimiterRepositoryImpl.rateLimitKey ("login:ip:" ++ ClientIP c)
  = Some (mkRedisEntry (FormatInt (n + Z.of_nat (length attempts))) (Some deadline)).
Proof.
  induction attempts as [| [env req] attempts IH]; intros w n deadline Hall Hn Hlen Hmax Hk.
  - simpl. rewrite Z.add_0_r. exact Hk.
  - inversion Hall as [| ? ? (Hg & Hserved) Hrest]; subst. cbn [fst] in Hg, Hserved.
    change (attempts_from uc limit c w ((env, req) :: attempts))
      with (attempts_from uc limit c (snd (login uc env limit c req w)) attempts).
    simpl length in *.
    rewrite (IH _ (n + 1) deadline Hrest); [do 3 f_equal; lia | lia | lia | exact Hmax |].
    destruct (login_keys uc env limit c req w n Hg) as [_ ->].
    + apply (stored_count_counter _ _ _ _ (Some deadline) Hk).
      * destruct int64_bounds as [Hmin _]. rewrite Hmin. lia.
      * unfold redis.live. cbn [expire_at]. apply Z.ltb_lt. apply Hserved.
    + lia.
    + apply IncrementCounter_next; [exact Hserved | lia | exact Hk].
Qed.


End LoginRoute.

(** ** Tokens minted within one second *)

Lemma Truncate_add_multiple t d unit :
  0 < unit -> d mod unit = 0 ->
  time.Truncate (t + d) unit = time.Truncate t unit + d.
Proof.
  intros Hu Hd. unfold time.Truncate.
  rewrite Z.add_mod by lia. rewrite Hd, Z.add_0_r, Z.mod_mod by lia. lia.
Qed.

Lemma Truncate_Second_DateTime t : time.Truncate t time.Second <= mongo.DateTime t.
Proof.
  unfold mongo.DateTime, time.Truncate, time.Second, time.Millisecond.
  pose proof (Z.mod_pos_bound t 1000000 eq_refl).
  pose proof (Z.mod_pos_bound t 1000000000 eq_refl).
  pose proof (Z.div_mod t 1000000000 ltac:(discriminate)).
  pose proof (Z.div_mod t 1000000 ltac:(discriminate)).
  assert (t mod 1000000 <= t mod 1000000000); [| lia].
  rewrite <- (Z.mod_small (t mod 1000000) 1000000) by lia.
  replace 1000000000 with (1000000 * 1000) by reflexivity.
  rewrite Z.rem_mul_r by lia.
  rewrite Z.mod_mod by lia.
  pose proof (Z.mod_pos_bound (t / 1000000) 1000 eq_refl). nia.
Qed.

Section SameSecond.

Variable hmac : string -> string -> JWTClaims -> string.
Variable HashPassword : Env -> string -> result string.
Variable CheckPassword : string -> string -> bool.

Local Abbreviation Login := (AuthUseCaseImpl.Login hmac CheckPassword).
Local Abbreviation RefreshToken := (AuthUseCaseImpl.RefreshToken hmac).

Lemma GenerateRefreshToken_same_second j now now' id :
  refreshTokenExpiration j mod time.Second = 0 ->
  time.Truncate now' time.Second = time.Truncate now time.Second ->
  JWTUtil.GenerateRefreshToken hmac j now' id = JWTUtil.GenerateRefreshToken hmac j now id.
Proof.
  intros Hm Ht. unfold JWTUtil.GenerateRefreshToken, JWTUtil.NewNumericDate, time.Add.
  rewrite !(Truncate_add_multiple _ _ time.Second) by (exact Hm || reflexivity).
  rewrite Ht. reflexivity.
Qed.

(** What a successful login has read and written. *)
Lemma Login_success uc env req w resp w1 :
  Login uc env req w = (Ok resp, w1) ->
  exists user row,
    user ∈ users w
    /\ JWTUtil.GenerateRefreshToken hmac (jwtUtil uc) (Now env) (ID user)
       = Ok (resp_RefreshToken resp)
    /\ refresh_tokens w1 = (refresh_tokens w ++ [row])%list
    /\ existsb (RefreshTokenRepositoryImpl.collides row) (refresh_tokens w) = false
    /\ rt_Token row = resp_RefreshToken resp
    /\ rt_IsRevoked row = false
    /\ rt_ExpiresAt row
       = mongo.DateTime (Now env + refreshTokenExpiration (jwtUtil uc))
    /\ users_step (users w) (users w1)
    /\ mongo.FindOne (UserRepositoryImpl.by_email (login_Email req)) (users w) = Some user
    /\ CheckPassword (Password user) (login_Password req) = true
    /\ IsVerified user = true
    /\ IsActive user = true.
Proof.
  unfold AuthUseCaseImpl.Login. unfold_repos. unfold_monad. unfold mongo.InsertOne, Decode.
  intros H. repeat (case_match; simplify_eq/=).
  all: match goal with
       | Hf : mongo.FindOne _ _ = Some ?u |- _ =>
           exists u; eexists;
           split; [pose proof Hf as Hf'; apply FindOne_elem in Hf' as [Hin _]; exact Hin |]
       end.
  all: repeat match goal with
         | H : negb _ = false |- _ => apply negb_false_iff in H
         end.
  all: repeat split; try reflexivity; try assumption.
  all: first [apply users_same | apply users_logged_in].
Qed.

Lemma FindOne_new_row row rows :
  existsb (RefreshTokenRepositoryImpl.collides row) rows = false ->
  mongo.FindOne (RefreshTokenRepositoryImpl.by_token (rt_Token row)) (rows ++ [row])%list
  = Some row.
Proof.
  unfold mongo.FindOne, RefreshTokenRepositoryImpl.by_token,
    RefreshTokenRepositoryImpl.collides.
  induction rows as [| r rest IH]; simpl; intros H.
  - rewrite bool_decide_eq_true_2 by reflexivity. reflexivity.
  - apply orb_false_elim in H as [Hr Hrest]. apply orb_false_elim in Hr as [_ Hr].
    apply bool_decide_eq_false in Hr.
    rewrite bool_decide_eq_false_2 by congruence. exact (IH Hrest).
Qed.

Lemma users_step_finds_id us us' u :
  users_step us us' -> u ∈ us ->
  exists u', mongo.FindOne (UserRepositoryImpl.by_id (ID u)) us' = Some u' /\ ID u' = ID u.
Proof.
  intros Hstep Hin.
  assert (Hfound : exists u0, mongo.FindOne (UserRepositoryImpl.by_id (ID u)) us = Some u0).
  { unfold mongo.FindOne. destruct (find _ us) as [u0 |] eqn:Hf; [eauto |].
    pose proof (find_none _ _ Hf u (proj1 (list_elem_of_In _ _) Hin)) as Hc.
    unfold UserRepositoryImpl.by_id in Hc. rewrite N.eqb_refl in Hc. discriminate. }
  destruct Hfound as [u0 Hu0].
  assert (Hid : forall x, mongo.FindOne (UserRepositoryImpl.by_id (ID u)) us' = Some x ->
                          ID x = ID u).
  { intros x Hx. apply FindOne_elem in Hx as [_ Hx].
    unfold UserRepositoryImpl.by_id in Hx. apply N.eqb_eq. exact Hx. }
  assert (Hsome : exists x, mongo.FindOne (UserRepositoryImpl.by_id (ID u)) us' = Some x).
  { destruct Hstep as [| doc _ _ _ _ _ _ _ | email t | id t].
    - eauto.
    - exists u0. apply FindOne_app_found. exact Hu0.
    - destruct (FindOne_UpdateOne (UserRepositoryImpl.by_id (ID u))
                  (UserRepositoryImpl.by_email email)
                  (UserRepositoryImpl.set_is_verified true t) us u0) as [H | H];
        [reflexivity | exact Hu0 | eauto | eauto].
    - destruct (FindOne_UpdateOne (UserRepositoryImpl.by_id (ID u))
                  (UserRepositoryImpl.by_id id)
                  (UserRepositoryImpl.set_last_login t) us u0) as [H | H];
        [reflexivity | exact Hu0 | eauto | eauto]. }
  destruct Hsome as [x Hx]. exists x. split; [exact Hx | exact (Hid x Hx)].
Qed.

Lemma UpdateOne_found {A} (p : A -> bool) (set : A -> A) (coll : list A) (a : A) :
  mongo.FindOne p coll = Some a -> set a ∈ mongo.UpdateOne p set coll.
Proof.
  unfold mongo.FindOne. induction coll as [| d rest IH]; simpl; [discriminate |].
  destruct (p d) eqn:Hd.
  - intros [= <-]. left.
  - intros H. right. exact (IH H).
Qed.

(** X18. With a refresh lifetime of whole seconds, a refresh request made in
    the same clock second as the login that issued its token mints the
    very same token text again: the old row is revoked first, the
    insertion of the new row then fails on the unique token index, and
    the request ends in that error with the only copy of the token
    revoked. *)
Theorem refresh_within_login_second uc env req w resp w1 env' :
  Login uc env req w = (Ok resp, w1) ->
  refreshTokenExpiration (jwtUtil uc) mod time.Second = 0 ->
  time.Second <= refreshTokenExpiration (jwtUtil uc) ->
  time.Truncate (Now env') time.Second = time.Truncate (Now env) time.Second ->
  Forall (fun u => (ID u < 2 ^ 96)%N) (users w) ->
  fails env' TokenFindByToken = None ->
  fails env' UserFindByID = None ->
  fails env' TokenRevoke = None ->
  fails env' TokenCreate = None ->
  fst (RefreshToken uc env' {| req_RefreshToken := resp_RefreshToken resp |} w1)
    = Err mongo_DuplicateKey
  /\ revoked_in (resp_RefreshToken resp)
       (refresh_tokens
          (snd (RefreshToken uc env' {| req_RefreshToken := resp_RefreshToken resp |} w1)))
  /\ status (fst (AuthHandler.RefreshToken hmac uc env'
                    {| req_RefreshToken := resp_RefreshToken resp |} w1))
     = http.StatusInternalServerError.
Proof.
  intros Hlogin Hmod Httl Hsec Hids Hfind Hbyid Hrevoke Hcreate.
  destruct (Login_success uc env req w resp w1 Hlogin)
    as (user & row & Hin & Hgen & Hrows & Hfresh & Htok & Hrev & Hexp & Hstep & _).
  destruct (users_step_finds_id _ _ user Hstep Hin) as (user' & Huser' & Hid').
  rewrite Forall_forall in Hids. pose proof (Hids user Hin) as Hid.
  pose proof (FindOne_new_row row (refresh_tokens w) Hfresh) as Hrow.
  rewrite Htok, <- Hrows in Hrow.
  assert (Hnow : time.Truncate (Now env) time.Second <= Now env'
                 < time.Truncate (Now env) time.Second + time.Second).
  { rewrite <- Hsec. pose proof (Truncate_le (Now env') time.Second eq_refl).
    pose proof (Truncate_gt (Now env') time.Second eq_refl). lia. }
  assert (Hrun :
    RefreshToken uc env' {| req_RefreshToken := resp_RefreshToken resp |} w1
    = (Err mongo_DuplicateKey,
       with_refresh_tokens w1
         (mongo.UpdateOne (RefreshTokenRepositoryImpl.by_token (resp_RefreshToken resp))
            RefreshTokenRepositoryImpl.set_is_revoked (refresh_tokens w1)))).
  { unfold AuthUseCaseImpl.RefreshToken, bind, or_else, lift. cbn [req_RefreshToken].
    assert (Hval : exists claims,
               JWTUtil.ValidateToken hmac (jwtUtil uc) (Now env') (resp_RefreshToken resp)
               = Ok claims /\ c_UserID claims = Hex (ID user)).
    { pose proof Hgen as Hgen0.
      unfold JWTUtil.GenerateRefreshToken, JWTUtil.SignedString in Hgen0.
      injection Hgen0 as Hgen0. rewrite <- Hgen0. eexists.
      split; [eapply ValidateToken_signed; [reflexivity | reflexivity |] | reflexivity].
      unfold time.Add. rewrite (Truncate_add_multiple _ _ time.Second eq_refl Hmod). lia. }
    destruct Hval as (claims & -> & Hclaims).
    rewrite (FindByToken_served env' _ w1 row Hfind Hrow), Hrev.
    unfold time.After. rewrite Hexp.
    destruct (Z.ltb_spec (mongo.DateTime (Now env + refreshTokenExpiration (jwtUtil uc)))
                (Now env')) as [Hlt | _].
    { pose proof (Truncate_Second_DateTime (Now env + refreshTokenExpiration (jwtUtil uc))).
      rewrite (Truncate_add_multiple _ _ time.Second eq_refl Hmod) in *. lia. }
    rewrite Hclaims, (ObjectIDFromHex_Hex _ Hid).
    unfold UserRepositoryImpl.FindByID, map_err, call. rewrite Hbyid, Huser'.
    cbn [Decode]. rewrite Hid'.
    unfold JWTUtil.GenerateAccessToken, JWTUtil.SignedString.
    rewrite (GenerateRefreshToken_same_second _ _ _ _ Hmod Hsec), Hgen.
    unfold RefreshTokenRepositoryImpl.Revoke, call. rewrite Hrevoke.
    unfold RefreshTokenRepositoryImpl.Create, call. rewrite Hcreate.
    unfold mongo.InsertOne. cbn [refresh_tokens with_refresh_tokens].
    match goal with
    | |- context [existsb ?f ?l] =>
        assert (Hdup : existsb f l = true); [| rewrite Hdup; reflexivity]
    end.
    apply existsb_exists. exists (RefreshTokenRepositoryImpl.set_is_revoked row). split.
    - apply list_elem_of_In. apply UpdateOne_found. exact Hrow.
    - unfold RefreshTokenRepositoryImpl.collides, RefreshTokenRepositoryImpl.document.
      cbn [rt_Token RefreshTokenRepositoryImpl.set_is_revoked].
      rewrite Htok. rewrite (bool_decide_eq_true_2 _ eq_refl). apply orb_true_r. }
  unfold AuthHandler.RefreshToken. rewrite Hrun. cbn [fst snd].
  split; [reflexivity | split; [| reflexivity]].
  cbn [refresh_tokens with_refresh_tokens].
  eapply Revoke_revokes. exact Hrow.
Qed.

(** X19. With a refresh lifetime of whole seconds, a second login of the same
    user within the clock second of a successful one mints the same
    refresh token text, fails to store it on the unique token index, and
    ends in that error, which the handler answers with a 500; nothing is
    written. *)
Theorem login_twice_within_second uc env req w resp w1 env' :
  Login uc env req w = (Ok resp, w1) ->
  refreshTokenExpiration (jwtUtil uc) mod time.Second = 0 ->
  time.Truncate (Now env') time.Second = time.Truncate (Now env) time.Second ->
  fails env' UserFindByEmail = None ->
  fails env' TokenCreate = None ->
  Login uc env' req w1 = (Err mongo_DuplicateKey, w1)
  /\ status (fst (AuthHandler.Login hmac CheckPassword uc env' req w1))
     = http.StatusInternalServerError.
Proof.
  intros Hlogin Hmod Hsec Hfind Hcreate.
  destruct (Login_success uc env req w resp w1 Hlogin)
    as (user & row & Hin & Hgen & Hrows & Hfresh & Htok & Hrev & Hexp & Hstep
        & Huser & Hpw & Hver & Hact).
  destruct (users_step_account _ _ _ user Hstep Huser) as (user' & Huser' & Hsame).
  destruct Hsame as (Hid & _ & _ & Hpass & _ & _ & _ & Hactive & _ & Hverified).
  assert (Hrun : Login uc env' req w1 = (Err mongo_DuplicateKey, w1)).
  { unfold AuthUseCaseImpl.Login, bind, or_else, lift.
    rewrite (FindByEmail_served env' _ w1 user' Hfind Huser').
    rewrite Hpass, Hpw, (Hverified Hver), Hactive, Hact, Hid. cbn [negb].
    unfold JWTUtil.GenerateAccessToken, JWTUtil.SignedString.
    rewrite (GenerateRefreshToken_same_second _ _ _ _ Hmod Hsec), Hgen.
    unfold RefreshTokenRepositoryImpl.Create, call. rewrite Hcreate.
    unfold mongo.InsertOne. rewrite Hrows.
    match goal with
    | |- context [existsb ?f ?l] =>
        assert (Hdup : existsb f l = true); [| rewrite Hdup; reflexivity]
    end.
    apply existsb_exists. exists row. split.
    - apply in_or_app. right. left. reflexivity.
    - unfold RefreshTokenRepositoryImpl.collides, RefreshTokenRepositoryImpl.document.
      cbn [rt_Token]. rewrite Htok. rewrite (bool_decide_eq_true_2 _ eq_refl).
      apply orb_true_r. }
  split; [exact Hrun |]. unfold AuthHandler.Login. rewrite Hrun. reflexivity.
Qed.

End SameSecond.

(** ** What a token must be to be accepted *)

Section Validation.

Variable hmac : string -> string -> JWTClaims -> string.

Lemma ValidateToken_accepted j now tokenString claims :
  JWTUtil.ValidateToken hmac j now tokenString = Ok claims ->
  exists alg,
    tokenString = Compact alg claims (hmac alg (secretKey j) claims)
    /\ In alg ["HS256"; "HS384"; "HS512"]
    /\ (forall exp, c_ExpiresAt claims = Some exp -> now < exp)
    /\ (forall nbf, c_NotBefore claims = Some nbf -> nbf <= now).
Proof.
  unfold JWTUtil.ValidateToken.
  destruct tokenString as [alg c sig | raw]; [| discriminate].
  destruct (JWTUtil.is_SigningMethodHMAC alg) eqn:Halg; [| discriminate]. cbn [negb].
  destruct (String.eqb_spec sig (hmac alg (secretKey j) c)) as [-> | _]; [| discriminate].
  cbn [negb].
  destruct (JWTUtil.verifyExpiresAt c now) eqn:Hexp; [| discriminate]. cbn [negb].
  destruct (JWTUtil.verifyNotBefore c now) eqn:Hnbf; [| discriminate]. cbn [negb].
  intros [= <-]. exists alg. split; [reflexivity |]. split; [| split].
  - unfold JWTUtil.is_SigningMethodHMAC in Halg.
    destruct (String.eqb_spec alg "HS256") as [-> | _]; [left; reflexivity |].
    destruct (String.eqb_spec alg "HS384") as [-> | _]; [right; left; reflexivity |].
    destruct (String.eqb_spec alg "HS512") as [-> | _]; [right; right; left; reflexivity |].
    discriminate.
  - intros exp He. unfold JWTUtil.verifyExpiresAt, time.Before in Hexp. rewrite He in Hexp.
    apply Z.ltb_lt. exact Hexp.
  - intros nbf Hn. unfold JWTUtil.verifyNotBefore, time.Before in Hnbf. rewrite Hn in Hnbf.
    apply negb_true_iff, Z.ltb_ge in Hnbf. exact Hnbf.
Qed.


(** X21. An access token is accepted exactly from the start of the second it
    was minted in until the start of the second its lifetime ends in. *)
Theorem access_token_window j now userID email role token now' :
  JWTUtil.GenerateAccessToken hmac j now userID email role = Ok token ->
  (exists claims, JWTUtil.ValidateToken hmac j now' token = Ok claims)
  <-> time.Truncate now time.Second <= now'
      < time.Truncate (now + accessTokenExpiration j) time.Second.
Proof.
  unfold JWTUtil.GenerateAccessToken, JWTUtil.SignedString. intros [= <-]. split.
  - intros [claims Hv]. apply ValidateToken_accepted in Hv as (alg & Heq & _ & Hexp & Hnbf).
    injection Heq as _ <- _. split.
    + apply Hnbf. reflexivity.
    + apply Hexp. reflexivity.
  - intros Hwin. eexists. eapply ValidateToken_signed; [reflexivity | reflexivity | exact Hwin].
Qed.

End Validation.

(** ** Registration *)

Lemma FindOne_UpdateOne_other {A} (p q : A -> bool) (set : A -> A) (coll : list A) :
  (forall x, q x = true -> p x = false /\ p (set x) = false) ->
  mongo.FindOne p (mongo.UpdateOne q set coll) = mongo.FindOne p coll.
Proof.
  intros H. unfold mongo.FindOne. induction coll as [| d rest IH]; simpl; [reflexivity |].
  destruct (q d) eqn:Hq; simpl.
  - destruct (H d Hq) as [-> ->]. reflexivity.
  - rewrite IH. reflexivity.
Qed.

Lemma unverified_app email us doc : unverified_at email us -> unverified_at email (us ++ [doc]).
Proof. intros (u & Hu & Hv). exists u. split; [apply FindOne_app_found; exact Hu | exact Hv]. Qed.

Lemma unverified_login email us id t :
  unverified_at email us ->
  unverified_at email
    (mongo.UpdateOne (UserRepositoryImpl.by_id id) (UserRepositoryImpl.set_last_login t) us).
Proof.
  intros (u & Hu & Hv).
  destruct (FindOne_UpdateOne (UserRepositoryImpl.by_email email) (UserRepositoryImpl.by_id id)
              (UserRepositoryImpl.set_last_login t) us u) as [H | H];
    [reflexivity | exact Hu | |]; eexists; (split; [exact H | exact Hv]).
Qed.

Lemma unverified_verify_other email us email' t :
  email' <> email ->
  unverified_at email us ->
  unverified_at email
    (mongo.UpdateOne (UserRepositoryImpl.by_email email')
       (UserRepositoryImpl.set_is_verified true t) us).
Proof.
  intros Hne (u & Hu & Hv). exists u. split; [| exact Hv].
  rewrite FindOne_UpdateOne_other; [exact Hu |].
  intros x Hx. unfold UserRepositoryImpl.by_email in *. cbn [Email UserRepositoryImpl.set_is_verified].
  apply String.eqb_eq in Hx.
  assert (String.eqb (Email x) email = false) as ->; [| split; reflexivity].
  apply String.eqb_neq. congruence.
Qed.

Section Registration.

Variable hmac : string -> string -> JWTClaims -> string.
Variable HashPassword : Env -> string -> result string.
Variable CheckPassword : string -> string -> bool.

Local Abbreviation Register := (AuthUseCaseImpl.Register HashPassword).
Local Abbreviation Login := (AuthUseCaseImpl.Login hmac CheckPassword).

(** X22. What [Register] refuses, with the status the handler answers and
    without touching any store: a phone number that does not normalize to
    a valid one (400), a role outside the enumeration (400), an address
    that is already stored (409), a phone number that is already stored
    under its normalized form (409). *)
Theorem register_rejections uc env req w :
  (ValidatePakistaniPhone (NormalizePakistaniPhone (reg_Phone req)) = false ->
   Register uc env req w = (Err ErrInvalidPhoneFormat, w)
   /\ status (fst (AuthHandler.Register HashPassword uc env req w)) = http.StatusBadRequest)
  /\ (ValidatePakistaniPhone (NormalizePakistaniPhone (reg_Phone req)) = true ->
      IsValidRole (reg_Role req) = false ->
      Register uc env req w = (Err ErrInvalidRole, w)
      /\ status (fst (AuthHandler.Register HashPassword uc env req w))
         = http.StatusBadRequest)
  /\ (forall u,
      ValidatePakistaniPhone (NormalizePakistaniPhone (reg_Phone req)) = true ->
      IsValidRole (reg_Role req) = true ->
      fails env UserFindByEmail = None ->
      mongo.FindOne (UserRepositoryImpl.by_email (reg_Email req)) (users w) = Some u ->
      Register uc env req w = (Err ErrUserAlreadyExists, w)
      /\ status (fst (AuthHandler.Register HashPassword uc env req w)) = http.StatusConflict)
  /\ (forall u,
      ValidatePakistaniPhone (NormalizePakistaniPhone (reg_Phone req)) = true ->
      IsValidRole (reg_Role req) = true ->
      mongo.FindOne (UserRepositoryImpl.by_email (reg_Email req)) (users w) = None ->
      fails env UserFindByPhone = None ->
      mongo.FindOne (UserRepositoryImpl.by_phone (NormalizePakistaniPhone (reg_Phone req)))
        (users w) = Some u ->
      Register uc env req w = (Err ErrPhoneAlreadyExists, w)
      /\ status (fst (AuthHandler.Register HashPassword uc env req w)) = http.StatusConflict).
Proof.
  split; [| split; [| split]].
  - intros Hp.
    assert (H : Register uc env req w = (Err ErrInvalidPhoneFormat, w)).
    { unfold AuthUseCaseImpl.Register. rewrite Hp. reflexivity. }
    split; [exact H |]. unfold AuthHandler.Register. rewrite H. reflexivity.
  - intros Hp Hr.
    assert (H : Register uc env req w = (Err ErrInvalidRole, w)).
    { unfold AuthUseCaseImpl.Register. rewrite Hp, Hr. reflexivity. }
    split; [exact H |]. unfold AuthHandler.Register. rewrite H. reflexivity.
  - intros u Hp Hr Hf Hu.
    assert (H : Register uc env req w = (Err ErrUserAlreadyExists, w)).
    { unfold AuthUseCaseImpl.Register. rewrite Hp, Hr. cbn [negb].
      unfold bind, attempt. rewrite (FindByEmail_served env _ w u Hf Hu). reflexivity. }
    split; [exact H |]. unfold AuthHandler.Register. rewrite H. reflexivity.
  - intros u Hp Hr Hnone Hf Hu.
    assert (H : Register uc env req w = (Err ErrPhoneAlreadyExists, w)).
    { unfold AuthUseCaseImpl.Register. rewrite Hp, Hr. cbn [negb].
      unfold bind at 1. unfold attempt.
      destruct (FindByEmail_absent env _ w Hnone) as [e ->].
      unfold bind at 1.
      unfold UserRepositoryImpl.FindByPhone, map_err, call. rewrite Hf, Hu. reflexivity. }
    split; [exact H |]. unfold AuthHandler.Register. rewrite H. reflexivity.
Qed.

(** What a successful registration has written. *)
Lemma Register_success uc env req w user w1 :
  Register uc env req w = (Ok user, w1) ->
  unverified_at (reg_Email req) (users w1)
  /\ Email user = reg_Email req
  /\ IsVerified user = false.
Proof.
  unfold AuthUseCaseImpl.Register. unfold_repos. unfold_monad. unfold mongo.InsertOne.
  intros H. repeat (case_match; simplify_eq/=).
  all: split; [| split; reflexivity].
  all: match goal with
       | Hc : existsb (UserRepositoryImpl.collides ?doc) _ = false |- _ =>
           exists doc; split; [exact (FindOne_new_user doc _ Hc) | reflexivity]
       end.
Qed.

Lemma serve_unverified uc w ev email :
  verifies_other email ev ->
  unverified_at email (users w) ->
  unverified_at email (users (serve hmac HashPassword CheckPassword uc w ev)).
Proof.
  intros Hother Hun.
  destruct ev as [env [req | req | req | req | e | userID | key limit ws | key ws | userID]];
    unfold serve.
  - unfold AuthUseCaseImpl.Register. unfold_repos. unfold_monad. unfold mongo.InsertOne.
    repeat (case_match; simplify_eq/=); first [assumption | apply unverified_app; assumption].
  - unfold AuthUseCaseImpl.Login. unfold_repos. unfold_monad. unfold mongo.InsertOne.
    repeat (case_match; simplify_eq/=);
      first [assumption | apply unverified_login; assumption].
  - specialize (Hother req eq_refl).
    unfold AuthUseCaseImpl.VerifyOTP. unfold_repos. unfold_monad.
    repeat (case_match; simplify_eq/=);
      first [assumption | apply unverified_verify_other; assumption].
  - unfold AuthUseCaseImpl.RefreshToken. unfold_repos. unfold_monad. unfold mongo.InsertOne.
    repeat (case_match; simplify_eq/=); assumption.
  - unfold AuthUseCaseImpl.ResendOTP. unfold_repos. unfold_monad.
    repeat (case_match; simplify_eq/=); assumption.
  - unfold AuthUseCaseImpl.GetUserByID. unfold_repos. unfold_monad.
    repeat (case_match; simplify_eq/=); assumption.
  - unfold RateLimiterRepositoryImpl.CheckRateLimit. unfold_repos. unfold_monad.
    repeat (case_match; simplify_eq/=); assumption.
  - unfold RateLimiterRepositoryImpl.IncrementCounter. unfold_repos. unfold_monad.
    repeat (case_match; simplify_eq/=); assumption.
  - unfold_repos. unfold_monad.
    repeat (case_match; simplify_eq/=); assumption.
Qed.

Lemma serve_all_unverified uc email trace : forall w,
  Forall (verifies_other email) trace ->
  unverified_at email (users w) ->
  unverified_at email (users (serve_all hmac HashPassword CheckPassword uc w trace)).
Proof.
  induction trace as [| ev trace IH]; intros w Hall Hun; [exact Hun |].
  inversion Hall as [| ? ? Hev Hrest]; subst.
  apply (IH _ Hrest). apply serve_unverified; assumption.
Qed.

(** X23. Verification is the only way to a login.  After a successful
    registration, and whatever requests are served next as long as none
    of them is a verification for the registered address, every login for
    that address is turned away: with [ErrUserNotVerified] if the
    password is right, with [ErrInvalidCredentials] otherwise; no tokens
    are issued and nothing is written. *)
Theorem login_requires_verification uc env req w user w1 trace env' password :
  Register uc env req w = (Ok user, w1) ->
  Forall (verifies_other (reg_Email req)) trace ->
  (fst (Login uc env' {| login_Email := reg_Email req; login_Password := password |}
          (serve_all hmac HashPassword CheckPassword uc w1 trace))
     = Err ErrUserNotVerified
   \/ fst (Login uc env' {| login_Email := reg_Email req; login_Password := password |}
             (serve_all hmac HashPassword CheckPassword uc w1 trace))
      = Err ErrInvalidCredentials)
  /\ snd (Login uc env' {| login_Email := reg_Email req; login_Password := password |}
            (serve_all hmac HashPassword CheckPassword uc w1 trace))
     = serve_all hmac HashPassword CheckPassword uc w1 trace.
Proof.
  intros Hreg Hall.
  destruct (Register_success uc env req w user w1 Hreg) as (Hun & _ & _).
  destruct (serve_all_unverified uc _ trace w1 Hall Hun) as (u & Hu & Hv).
  unfold AuthUseCaseImpl.Login, bind, or_else. cbn [login_Email login_Password].
  destruct (FindByEmail_result env' (reg_Email req)
              (serve_all hmac HashPassword CheckPassword uc w1 trace))
    as [[e ->] | (u' & -> & Hu')].
  - split; [right |]; reflexivity.
  - assert (u' = u) as -> by congruence.
    destruct (CheckPassword (Password u) password); cbn [negb].
    + rewrite Hv. split; [left |]; reflexivity.
    + split; [right |]; reflexivity.
Qed.

End Registration.

(** ** The general rate limiter, and revoking a user's tokens *)

(** X24. How [RateLimiterMiddleware] behaves when Redis does not: a failed
    read of the counter (with an error text other than that of a missing
    key), or a counter that is no number, stops the request with a 500
    and writes nothing; a failed increment is only logged, so the request
    goes on uncounted. *)
Theorem rate_limiter_failure_modes env limit windowSeconds c w :
  (forall msg,
      fails env RedisGet = Some msg ->
      msg <> "redis: nil" ->
      middleware.RateLimiterMiddleware env limit windowSeconds c w
      = (Abort (ErrorResponse http.StatusInternalServerError ErrInternalServer), w))
  /\ (forall e err,
      fails env RedisGet = None ->
      redis.lookup (Now env) (RateLimiterRepositoryImpl.rateLimitKey (middleware.rate_key c))
        (redis_keys w) = Some e ->
      Atoi (value e) = Err err ->
      middleware.RateLimiterMiddleware env limit windowSeconds c w
      = (Abort (ErrorResponse http.StatusInternalServerError ErrInternalServer), w))
  /\ (forall count msg,
      fails env RedisGet = None ->
      stored_count (Now env) (middleware.rate_key c) w = Ok count ->
      count < limit ->
      fails env RedisIncr = Some msg ->
      middleware.RateLimiterMiddleware env limit windowSeconds c w = (Next c, w)).
Proof.
  split; [| split].
  - intros msg Hg Hmsg. unfold middleware.RateLimiterMiddleware,
      RateLimiterRepositoryImpl.CheckRateLimit, RateLimiterRepositoryImpl.Int,
      bind, attempt, redis.Get, call, fail.
    rewrite Hg. cbn [Error].
    destruct (String.eqb_spec msg "redis: nil"); [contradiction | reflexivity].
  - intros e err Hg Hl Ha. unfold middleware.RateLimiterMiddleware,
      RateLimiterRepositoryImpl.CheckRateLimit, RateLimiterRepositoryImpl.Int,
      bind, attempt, redis.Get, call, fail.
    rewrite Hg, Hl, Ha.
    assert (Hne : negb (String.eqb (Error err) "redis: nil") = true).
    { unfold Atoi in Ha. repeat case_match; simplify_eq; reflexivity. }
    rewrite Hne. reflexivity.
  - intros count msg Hg Hcount Hlt Hi.
    pose proof (CheckRateLimit_compares env _ limit windowSeconds w count Hg Hcount) as Hfst.
    pose proof (CheckRateLimit_reads env (middleware.rate_key c) limit windowSeconds w)
      as Hsnd.
    unfold middleware.RateLimiterMiddleware.
    destruct (RateLimiterRepositoryImpl.CheckRateLimit env _ limit windowSeconds w)
      as [r w1].
    cbn [fst snd] in Hfst, Hsnd. subst r w1.
    destruct (Z.ltb_spec count limit); [| lia].
    unfold RateLimiterRepositoryImpl.IncrementCounter, bind, redis.Increment, call, fail.
    rewrite Hi. reflexivity.
Qed.

Lemma FindOne_UpdateMany {A} (p f : A -> bool) (set : A -> A) (coll : list A) (a : A) :
  (forall x, p (set x) = p x) ->
  mongo.FindOne p coll = Some a ->
  mongo.FindOne p (mongo.UpdateMany f set coll) = Some (if f a then set a else a).
Proof.
  intros Hp. unfold mongo.FindOne, mongo.UpdateMany.
  induction coll as [| d rest IH]; simpl; [discriminate |].
  assert (Hd : p (if f d then set d else d) = p d) by (destruct (f d); [apply Hp | reflexivity]).
  rewrite Hd. destruct (p d); [intros [= <-]; reflexivity | exact IH].
Qed.

Section RevokeAll.

Variable hmac : string -> string -> JWTClaims -> string.
Variable HashPassword : Env -> string -> result string.
Variable CheckPassword : string -> string -> bool.

(** X25. After a served [RevokeAllForUser], no refresh token of that user
    refreshes any more, whatever requests are served in between: each
    ends in [ErrRevokedToken] or [ErrInvalidToken].  The rows of other
    users, the users and the Redis keys are left as they were. *)
Theorem revoke_all_for_user_signs_out env userID w :
  fails env TokenRevokeAllForUser = None ->
  (forall token row,
      mongo.FindOne (RefreshTokenRepositoryImpl.by_token token) (refresh_tokens w) = Some row ->
      rt_UserID row = userID ->
      forall uc trace env',
        fst (AuthUseCaseImpl.RefreshToken hmac uc env' {| req_RefreshToken := token |}
               (serve_all hmac HashPassword CheckPassword uc
                  (snd (RefreshTokenRepositoryImpl.RevokeAllForUser env userID w)) trace))
          = Err ErrRevokedToken
        \/ fst (AuthUseCaseImpl.RefreshToken hmac uc env' {| req_RefreshToken := token |}
                  (serve_all hmac HashPassword CheckPassword uc
                     (snd (RefreshTokenRepositoryImpl.RevokeAllForUser env userID w)) trace))
           = Err ErrInvalidToken)
  /\ (forall token row,
      mongo.FindOne (RefreshTokenRepositoryImpl.by_token token) (refresh_tokens w) = Some row ->
      rt_UserID row <> userID ->
      mongo.FindOne (RefreshTokenRepositoryImpl.by_token token)
        (refresh_tokens (snd (RefreshTokenRepositoryImpl.RevokeAllForUser env userID w)))
      = Some row)
  /\ users (snd (RefreshTokenRepositoryImpl.RevokeAllForUser env userID w)) = users w
  /\ redis_keys (snd (RefreshTokenRepositoryImpl.RevokeAllForUser env userID w))
     = redis_keys w.
Proof.
  intros Hf. unfold RefreshTokenRepositoryImpl.RevokeAllForUser, call. rewrite Hf.
  cbn [snd]. split; [| split; [| split; reflexivity]].
  - intros token row Hrow Huser uc trace env'.
    apply (RefreshToken_revoked hmac uc env' {| req_RefreshToken := token |}).
    apply serve_all_revoked. cbn [refresh_tokens with_refresh_tokens req_RefreshToken].
    eexists. split.
    + apply FindOne_UpdateMany; [intros x; reflexivity | exact Hrow].
    + unfold RefreshTokenRepositoryImpl.by_user_unrevoked. rewrite Huser, N.eqb_refl.
      destruct (rt_IsRevoked row) eqn:Hrev; [exact Hrev | reflexivity].
  - intros token row Hrow Huser. cbn [refresh_tokens with_refresh_tokens].
    rewrite (FindOne_UpdateMany _ _ _ _ row); [| intros x; reflexivity | exact Hrow].
    unfold RefreshTokenRepositoryImpl.by_user_unrevoked.
    destruct (N.eqb_spec (rt_UserID row) userID); [contradiction | reflexivity].
Qed.

End RevokeAll.

(** ** The further properties at concrete inputs *)

Lemma reachable_unique_users_witness :
  unique_users
    (users (serve_all demo_hmac demo_HashPassword demo_CheckPassword demo_uc empty_world
              demo_trace)).
Proof.
  apply (reachable_unique_users demo_hmac demo_HashPassword demo_CheckPassword demo_uc).
  exists demo_trace. reflexivity.
Defined.

Lemma reachable_sound_users_witness :
  Forall sound_user
    (users (serve_all demo_hmac demo_HashPassword demo_CheckPassword demo_uc empty_world
              demo_trace)).
Proof.
  apply (reachable_sound_users demo_hmac demo_HashPassword demo_CheckPassword demo_uc).
  exists demo_trace. reflexivity.
Defined.

Lemma generate_otp_shape_witness :
  exists otp,
    GenerateOTP (served (at_second 100) 1%N) 6 = Ok otp
    /\ String.length otp = Z.to_nat 6
    /\ all_digits otp = true.
Proof.
  apply (proj2 (generate_otp_shape (served (at_second 100) 1%N) 6)); [lia | reflexivity].
Defined.

Lemma account_is_stable_witness :
  mongo.FindOne (UserRepositoryImpl.by_email "a@x.com") (users w_registered) = Some demo_user
  /\ exists u',
       mongo.FindOne (UserRepositoryImpl.by_email "a@x.com")
         (users (serve_all demo_hmac demo_HashPassword demo_CheckPassword demo_uc w_registered
                   (tl demo_trace))) = Some u'
       /\ same_account demo_user u'.
Proof.
  split; [vm_compute; reflexivity |].
  apply (account_is_stable demo_hmac demo_HashPassword demo_CheckPassword demo_uc
           (tl demo_trace) w_registered "a@x.com" demo_user).
  vm_compute. reflexivity.
Defined.

Lemma login_never_inactive_witness :
  reachable demo_hmac demo_HashPassword demo_CheckPassword demo_uc w_verified
  /\ fst (AuthUseCaseImpl.Login demo_hmac demo_CheckPassword demo_uc
            (served (at_second 200) 2%N) demo_login w_verified)
     <> Err ErrUserInactive.
Proof.
  assert (H : reachable demo_hmac demo_HashPassword demo_CheckPassword demo_uc w_verified).
  { exists (firstn 2 demo_trace). reflexivity. }
  split; [exact H |].
  apply (login_never_inactive demo_hmac demo_HashPassword demo_CheckPassword demo_uc
           (served (at_second 200) 2%N) demo_login w_verified H).
Defined.

Lemma get_user_by_id_roundtrip_witness :
  AuthUseCaseImpl.GetUserByID demo_uc (served (at_second 300) 0%N) "not-an-identifier"
    w_registered
  = (Err ErrUserNotFound, w_registered)
  /\ AuthUseCaseImpl.GetUserByID demo_uc (served (at_second 300) 0%N)
       (info_ID (ToUserInfo demo_user)) w_registered
     = (Ok demo_user, w_registered).
Proof.
  destruct (get_user_by_id_roundtrip demo_uc (served (at_second 300) 0%N) w_registered)
    as [Hbad Hgood].
  split.
  - apply (Hbad "not-an-identifier" (External "the provided hex string is not a valid ObjectID")).
    vm_compute. reflexivity.
  - apply (Hgood demo_user).
    + vm_compute. repeat constructor. intros H. inversion H.
    + vm_compute. left.
    + vm_compute. reflexivity.
    + reflexivity.
Defined.

Lemma otp_store_then_get_witness :
  fst (OTPRepositoryImpl.Get (served (at_second 399) 0%N) "a@x.com"
         (snd (OTPRepositoryImpl.Store (served (at_second 100) 0%N) "a@x.com" "345678" 5
                 empty_world)))
  = Ok "345678"
  /\ fst (OTPRepositoryImpl.Get (served (at_second 400) 0%N) "a@x.com"
            (snd (OTPRepositoryImpl.Store (served (at_second 100) 0%N) "a@x.com" "345678" 5
                    empty_world)))
     = Err redis_Nil
  /\ fst (OTPRepositoryImpl.Get (served (at_second 4000000) 0%N) "a@x.com"
            (snd (OTPRepositoryImpl.Store (served (at_second 100) 0%N) "a@x.com" "345678" 0
                    empty_world)))
     = Ok "345678".
Proof.
  destruct (otp_store_then_get (served (at_second 100) 0%N) "a@x.com" "345678" 5 empty_world)
    as (Hlive & _ & _); [reflexivity | lia |].
  destruct (otp_store_then_get (served (at_second 100) 0%N) "a@x.com" "345678" 0 empty_world)
    as (_ & Hforever & _); [reflexivity | lia |].
  split; [apply (Hlive (served (at_second 399) 0%N)); [reflexivity | lia | vm_compute; reflexivity] |].
  split; [apply (Hlive (served (at_second 400) 0%N)); [reflexivity | lia | vm_compute; discriminate] |].
  apply (Hforever (served (at_second 4000000) 0%N)); [reflexivity | lia].
Defined.

Lemma verify_otp_verifies_once_witness :
  fst (AuthUseCaseImpl.VerifyOTP demo_uc (served (at_second 160) 0%N)
         (mkVerifyOTPRequest "a@x.com" "345678") w_registered) = Ok tt
  /\ mongo.FindOne (UserRepositoryImpl.by_email "a@x.com") (users w_verified)
     = Some (UserRepositoryImpl.set_is_verified true
               (mongo.DateTime (Now (served (at_second 160) 0%N))) demo_user)
  /\ AuthUseCaseImpl.VerifyOTP demo_uc (served (at_second 170) 0%N)
       (mkVerifyOTPRequest "a@x.com" "345678") w_verified
     = (Err ErrOTPNotFound, w_verified).
Proof.
  destruct (verify_otp_verifies_once demo_uc (served (at_second 160) 0%N)
              (mkVerifyOTPRequest "a@x.com" "345678") w_registered demo_otp_entry demo_user)
    as (Hok & Hfound & _ & Honce);
    [reflexivity | vm_compute; reflexivity | reflexivity | vm_compute; reflexivity
     | reflexivity | reflexivity |].
  split; [exact Hok |]. split; [exact Hfound |].
  exact (Honce (served (at_second 170) 0%N)).
Defined.

Lemma resend_otp_cases_witness :
  status (fst (AuthHandler.ResendOTP demo_uc (served (at_second 120) 0%N) "nobody@x.com"
                 w_registered)) = http.StatusNotFound
  /\ status (fst (AuthHandler.ResendOTP demo_uc (served (at_second 170) 0%N) "a@x.com"
                    w_verified)) = http.StatusInternalServerError
  /\ AuthUseCaseImpl.ResendOTP demo_uc (served (at_second 120) 0%N) "a@x.com" w_registered
     = (Err ErrOTPAlreadySent, w_registered)
  /\ fst (OTPRepositoryImpl.Get (served (at_second 500) 0%N) "a@x.com"
            (snd (AuthUseCaseImpl.ResendOTP demo_uc (served (at_second 500) 0%N) "a@x.com"
                    w_registered)))
     = Ok "345678".
Proof.
  split.
  { apply (proj1 (resend_otp_cases demo_uc (served (at_second 120) 0%N) "nobody@x.com"
                    w_registered eq_refl)).
    vm_compute. reflexivity. }
  split.
  { apply (proj1 (proj2 (resend_otp_cases demo_uc (served (at_second 170) 0%N) "a@x.com"
                           w_verified eq_refl))
             demo_verified_user).
    - vm_compute. reflexivity.
    - reflexivity. }
  split.
  { apply (proj1 (proj2 (proj2 (resend_otp_cases demo_uc (served (at_second 120) 0%N)
                                  "a@x.com" w_registered eq_refl)))
             demo_user demo_otp_entry).
    - vm_compute. reflexivity.
    - reflexivity.
    - reflexivity.
    - vm_compute. reflexivity. }
  apply (proj2 (proj2 (proj2 (resend_otp_cases demo_uc (served (at_second 500) 0%N)
                                "a@x.com" w_registered eq_refl)))
           demo_user "345678").
  - vm_compute. reflexivity.
  - reflexivity.
  - reflexivity.
  - vm_compute. reflexivity.
  - vm_compute. reflexivity.
  - reflexivity.
  - reflexivity.
  - reflexivity.
Defined.

Lemma auth_middleware_bearer_only_witness :
  middleware.AuthMiddleware demo_hmac demo_ParseCompact demo_jwt (at_second 260)
    (demo_request "Bearer access.a")
  = Next (Set_key (Set_key (Set_key (demo_request "Bearer access.a")
                              "user_id" (c_UserID demo_login_claims))
                     "user_email" (c_Email demo_login_claims))
            "user_role" (c_Role demo_login_claims))
  /\ status (ErrorResponse http.StatusUnauthorized ErrUnauthorized) = http.StatusUnauthorized.
Proof.
  destruct (auth_middleware_bearer_only demo_hmac demo_ParseCompact demo_jwt (at_second 260)
              (demo_request "Bearer access.a")) as [Hnext _].
  destruct (auth_middleware_bearer_only demo_hmac demo_ParseCompact demo_jwt (at_second 260)
              (demo_request "Basic access.a")) as [_ Habort].
  split.
  - apply Hnext. exists "access.a", demo_login_claims.
    split; [reflexivity |]. split; [reflexivity |].
    split; [vm_compute; reflexivity | reflexivity].
  - apply (Habort (ErrorResponse http.StatusUnauthorized ErrUnauthorized)).
    vm_compute. reflexivity.
Defined.

Lemma role_groups_witness :
  (status (routes.admin_users demo_hmac demo_ParseCompact demo_jwt (at_second 260)
             (demo_request "Bearer access.root")) = http.StatusOK
   /\ status (routes.finance_reports demo_hmac demo_ParseCompact demo_jwt (at_second 260)
                (demo_request "Bearer access.root")) = http.StatusOK
   /\ status (routes.manager_dashboard demo_hmac demo_ParseCompact demo_jwt (at_second 260)
                (demo_request "Bearer access.root")) = http.StatusOK)
  /\ (status (routes.admin_users demo_hmac demo_ParseCompact demo_jwt (at_second 260)
                (demo_request "Bearer access.a")) = http.StatusForbidden
      /\ status (routes.finance_reports demo_hmac demo_ParseCompact demo_jwt (at_second 260)
                   (demo_request "Bearer access.a")) = http.StatusForbidden
      /\ status (routes.manager_dashboard demo_hmac demo_ParseCompact demo_jwt (at_second 260)
                   (demo_request "Bearer access.a")) = http.StatusForbidden).
Proof.
  split.
  - apply (role_groups demo_hmac demo_ParseCompact demo_jwt (at_second 200) 7%N "root@x.com"
             RoleAdmin "access.root" (demo_request "Bearer access.root") (at_second 260));
      [vm_compute; reflexivity | reflexivity | reflexivity | vm_compute; split; [discriminate | reflexivity] | reflexivity].
  - apply (role_groups demo_hmac demo_ParseCompact demo_jwt (at_second 200) 1%N "a@x.com"
             RoleCustomer "access.a" (demo_request "Bearer access.a") (at_second 260));
      [vm_compute; reflexivity | reflexivity | reflexivity | vm_compute; split; [discriminate | reflexivity] | reflexivity].
Defined.

Lemma refresh_token_as_bearer_witness :
  (exists c',
      middleware.AuthMiddleware demo_hmac demo_ParseCompact demo_jwt (at_second 200 + 24 * time.Hour)
        (demo_request "Bearer refresh.a") = Next c'
      /\ Keys c' !! "user_id" = Some (Hex 1%N)
      /\ Keys c' !! "user_email" = Some ""
      /\ Keys c' !! "user_role" = Some "")
  /\ status (routes.admin_users demo_hmac demo_ParseCompact demo_jwt
               (at_second 200 + 24 * time.Hour) (demo_request "Bearer refresh.a"))
     = http.StatusForbidden
  /\ status (routes.finance_reports demo_hmac demo_ParseCompact demo_jwt
               (at_second 200 + 24 * time.Hour) (demo_request "Bearer refresh.a"))
     = http.StatusForbidden
  /\ status (routes.manager_dashboard demo_hmac demo_ParseCompact demo_jwt
               (at_second 200 + 24 * time.Hour) (demo_request "Bearer refresh.a"))
     = http.StatusForbidden.
Proof.
  apply (refresh_token_as_bearer demo_hmac demo_ParseCompact demo_jwt (at_second 200) 1%N
           "refresh.a" (demo_request "Bearer refresh.a") (at_second 200 + 24 * time.Hour));
    [vm_compute; reflexivity | reflexivity | reflexivity
     | vm_compute; split; [discriminate | reflexivity]].
Defined.

Lemma profile_route_serves_owner_witness :
  routes.profile demo_hmac demo_ParseCompact demo_uc (served (at_second 200 + 24 * time.Hour) 0%N)
    (demo_request "Bearer refresh.a") w_verified
  = (SuccessResponse http.StatusOK (ProfileData (ToUserInfo demo_verified_user)), w_verified).
Proof.
  apply (profile_route_serves_owner demo_hmac demo_ParseCompact demo_uc
           (served (at_second 200 + 24 * time.Hour) 0%N) (demo_request "Bearer refresh.a")
           "refresh.a" demo_refresh_claims w_verified demo_verified_user).
  - reflexivity.
  - reflexivity.
  - vm_compute. reflexivity.
  - vm_compute. reflexivity.
  - vm_compute. repeat constructor. intros H. inversion H.
  - vm_compute. left.
  - vm_compute. reflexivity.
  - reflexivity.
Defined.

Lemma counter_without_expiry_witness :
  fst (RateLimiterRepositoryImpl.IncrementCounter demo_expire_down "ip:10.0.0.1" 60 empty_world)
  = Err (External "redis: connection reset")
  /\ fst (RateLimiterRepositoryImpl.CheckRateLimit (served (at_second 86400) 0%N)
            "ip:10.0.0.1" (1 + Z.of_nat (length (tl demo_hits))) 60
            (increment_all "ip:10.0.0.1" 60
               (snd (RateLimiterRepositoryImpl.IncrementCounter demo_expire_down
                       "ip:10.0.0.1" 60 empty_world))
               (tl demo_hits)))
     = Ok false.
Proof.
  destruct (counter_without_expiry demo_expire_down "ip:10.0.0.1" 60 empty_world
              "redis: connection reset") as [Herr Hlocked];
    [reflexivity | reflexivity | vm_compute; reflexivity |].
  split; [exact Herr |].
  apply (Hlocked (tl demo_hits) (served (at_second 86400) 0%N));
    [repeat constructor | vm_compute; discriminate | reflexivity].
Defined.


Lemma refresh_within_login_second_witness :
  fst (AuthUseCaseImpl.RefreshToken demo_hmac demo_uc
         (served (at_second 200 + 500 * time.Millisecond) 3%N)
         {| req_RefreshToken := resp_RefreshToken demo_login_response |} w_logged_in)
  = Err mongo_DuplicateKey
  /\ revoked_in (resp_RefreshToken demo_login_response)
       (refresh_tokens
          (snd (AuthUseCaseImpl.RefreshToken demo_hmac demo_uc
                  (served (at_second 200 + 500 * time.Millisecond) 3%N)
                  {| req_RefreshToken := resp_RefreshToken demo_login_response |}
                  w_logged_in)))
  /\ status (fst (AuthHandler.RefreshToken demo_hmac demo_uc
                    (served (at_second 200 + 500 * time.Millisecond) 3%N)
                    {| req_RefreshToken := resp_RefreshToken demo_login_response |}
                    w_logged_in))
     = http.StatusInternalServerError.
Proof.
  apply (refresh_within_login_second demo_hmac demo_CheckPassword demo_uc
           (served (at_second 200) 2%N) demo_login w_verified demo_login_response
           w_logged_in (served (at_second 200 + 500 * time.Millisecond) 3%N)).
  - vm_compute. reflexivity.
  - reflexivity.
  - vm_compute. discriminate.
  - reflexivity.
  - repeat constructor.
  - reflexivity.
  - reflexivity.
  - reflexivity.
  - reflexivity.
Defined.

Lemma login_twice_within_second_witness :
  AuthUseCaseImpl.Login demo_hmac demo_CheckPassword demo_uc
    (served (at_second 200 + 500 * time.Millisecond) 3%N) demo_login w_logged_in
  = (Err mongo_DuplicateKey, w_logged_in)
  /\ status (fst (AuthHandler.Login demo_hmac demo_CheckPassword demo_uc
                    (served (at_second 200 + 500 * time.Millisecond) 3%N) demo_login
                    w_logged_in))
     = http.StatusInternalServerError.
Proof.
  apply (login_twice_within_second demo_hmac demo_CheckPassword demo_uc
           (served (at_second 200) 2%N) demo_login w_verified demo_login_response
           w_logged_in (served (at_second 200 + 500 * time.Millisecond) 3%N)).
  - vm_compute. reflexivity.
  - reflexivity.
  - reflexivity.
  - reflexivity.
  - reflexivity.
Defined.


Lemma access_token_window_witness :
  (exists claims,
      JWTUtil.ValidateToken demo_hmac demo_jwt (at_second 200 + 15 * time.Minute)
        demo_access_token = Ok claims)
  <-> time.Truncate (at_second 200) time.Second <= at_second 200 + 15 * time.Minute
      < time.Truncate (at_second 200 + accessTokenExpiration demo_jwt) time.Second.
Proof.
  apply (access_token_window demo_hmac demo_jwt (at_second 200) 1%N "a@x.com" "customer"
           demo_access_token (at_second 200 + 15 * time.Minute)).
  vm_compute. reflexivity.
Defined.

Lemma register_rejections_witness :
  status (fst (AuthHandler.Register demo_HashPassword demo_uc (served (at_second 300) 4%N)
                 (mkRegisterRequest "b@x.com" "12345" "Password123" "Bilal" "Khan"
                    RoleCustomer) w_registered)) = http.StatusBadRequest
  /\ status (fst (AuthHandler.Register demo_HashPassword demo_uc (served (at_second 300) 4%N)
                    (mkRegisterRequest "b@x.com" "03001234568" "Password123" "Bilal" "Khan"
                       "owner") w_registered)) = http.StatusBadRequest
  /\ AuthUseCaseImpl.Register demo_HashPassword demo_uc (served (at_second 300) 4%N)
       (mkRegisterRequest "a@x.com" "03001234568" "Password123" "Bilal" "Khan" RoleCustomer)
       w_registered
     = (Err ErrUserAlreadyExists, w_registered)
  /\ AuthUseCaseImpl.Register demo_HashPassword demo_uc (served (at_second 300) 4%N)
       (mkRegisterRequest "b@x.com" "+92 300-1234567" "Password123" "Bilal" "Khan"
          RoleCustomer) w_registered
     = (Err ErrPhoneAlreadyExists, w_registered).
Proof.
  split.
  { apply (proj1 (register_rejections demo_HashPassword demo_uc (served (at_second 300) 4%N)
                    (mkRegisterRequest "b@x.com" "12345" "Password123" "Bilal" "Khan"
                       RoleCustomer) w_registered)).
    vm_compute. reflexivity. }
  split.
  { apply (proj1 (proj2 (register_rejections demo_HashPassword demo_uc
                           (served (at_second 300) 4%N)
                           (mkRegisterRequest "b@x.com" "03001234568" "Password123" "Bilal"
                              "Khan" "owner") w_registered)));
      vm_compute; reflexivity. }
  split.
  { apply (proj1 (proj2 (proj2 (register_rejections demo_HashPassword demo_uc
                                  (served (at_second 300) 4%N)
                                  (mkRegisterRequest "a@x.com" "03001234568" "Password123"
                                     "Bilal" "Khan" RoleCustomer) w_registered)))
             demo_user);
      vm_compute; reflexivity. }
  apply (proj2 (proj2 (proj2 (register_rejections demo_HashPassword demo_uc
                                (served (at_second 300) 4%N)
                                (mkRegisterRequest "b@x.com" "+92 300-1234567" "Password123"
                                   "Bilal" "Khan" RoleCustomer) w_registered)))
           demo_user);
    vm_compute; reflexivity.
Defined.

Lemma login_requires_verification_witness :
  (fst (AuthUseCaseImpl.Login demo_hmac demo_CheckPassword demo_uc
          (served (at_second 170) 2%N)
          {| login_Email := reg_Email demo_register; login_Password := "Password123" |}
          (serve_all demo_hmac demo_HashPassword demo_CheckPassword demo_uc w_registered
             [(served (at_second 150) 2%N, DoLogin demo_login);
              (served (at_second 155) 0%N, DoVerifyOTP (mkVerifyOTPRequest "b@x.com" "345678"))]))
     = Err ErrUserNotVerified
   \/ fst (AuthUseCaseImpl.Login demo_hmac demo_CheckPassword demo_uc
             (served (at_second 170) 2%N)
             {| login_Email := reg_Email demo_register; login_Password := "Password123" |}
             (serve_all demo_hmac demo_HashPassword demo_CheckPassword demo_uc w_registered
                [(served (at_second 150) 2%N, DoLogin demo_login);
                 (served (at_second 155) 0%N,
                  DoVerifyOTP (mkVerifyOTPRequest "b@x.com" "345678"))]))
      = Err ErrInvalidCredentials)
  /\ snd (AuthUseCaseImpl.Login demo_hmac demo_CheckPassword demo_uc
            (served (at_second 170) 2%N)
            {| login_Email := reg_Email demo_register; login_Password := "Password123" |}
            (serve_all demo_hmac demo_HashPassword demo_CheckPassword demo_uc w_registered
               [(served (at_second 150) 2%N, DoLogin demo_login);
                (served (at_second 155) 0%N,
                 DoVerifyOTP (mkVerifyOTPRequest "b@x.com" "345678"))]))
     = serve_all demo_hmac demo_HashPassword demo_CheckPassword demo_uc w_registered
         [(served (at_second 150) 2%N, DoLogin demo_login);
          (served (at_second 155) 0%N, DoVerifyOTP (mkVerifyOTPRequest "b@x.com" "345678"))].
Proof.
  apply (login_requires_verification demo_hmac demo_HashPassword demo_CheckPassword demo_uc
           (served (at_second 100) 1%N) demo_register empty_world demo_user w_registered).
  - vm_compute. reflexivity.
  - repeat constructor; intros r H; try discriminate H.
    injection H as <-. discriminate.
Defined.

Lemma rate_limiter_failure_modes_witness :
  middleware.RateLimiterMiddleware
    (failing RedisGet "redis: connection refused" (at_second 10) 0%N) 100 60
    (demo_request "") empty_world
  = (Abort (ErrorResponse http.StatusInternalServerError ErrInternalServer), empty_world)
  /\ middleware.RateLimiterMiddleware
       (failing RedisIncr "redis: connection refused" (at_second 10) 0%N) 100 60
       (demo_request "") empty_world
     = (Next (demo_request ""), empty_world).
Proof.
  split.
  - apply (proj1 (rate_limiter_failure_modes
                    (failing RedisGet "redis: connection refused" (at_second 10) 0%N) 100 60
                    (demo_request "") empty_world)
             "redis: connection refused"); [reflexivity | discriminate].
  - apply (proj2 (proj2 (rate_limiter_failure_modes
                           (failing RedisIncr "redis: connection refused" (at_second 10) 0%N)
                           100 60 (demo_request "") empty_world))
             0 "redis: connection refused"); [reflexivity | vm_compute; reflexivity | lia | reflexivity].
Defined.

Lemma revoke_all_for_user_signs_out_witness :
  (fst (AuthUseCaseImpl.RefreshToken demo_hmac demo_uc (served (at_second 400) 5%N)
          {| req_RefreshToken := demo_refresh_token |}
          (serve_all demo_hmac demo_HashPassword demo_CheckPassword demo_uc
             (snd (RefreshTokenRepositoryImpl.RevokeAllForUser (served (at_second 300) 0%N)
                     1%N w_logged_in))
             [(served (at_second 330) 4%N, DoLogin demo_login)]))
     = Err ErrRevokedToken
   \/ fst (AuthUseCaseImpl.RefreshToken demo_hmac demo_uc (served (at_second 400) 5%N)
             {| req_RefreshToken := demo_refresh_token |}
             (serve_all demo_hmac demo_HashPassword demo_CheckPassword demo_uc
                (snd (RefreshTokenRepositoryImpl.RevokeAllForUser (served (at_second 300) 0%N)
                        1%N w_logged_in))
                [(served (at_second 330) 4%N, DoLogin demo_login)]))
      = Err ErrInvalidToken)
  /\ users (snd (RefreshTokenRepositoryImpl.RevokeAllForUser (served (at_second 300) 0%N)
                   1%N w_logged_in))
     = users w_logged_in.
Proof.
  destruct (revoke_all_for_user_signs_out demo_hmac demo_HashPassword demo_CheckPassword
              (served (at_second 300) 0%N) 1%N w_logged_in eq_refl)
    as (Hout & _ & Husers & _).
  split; [| exact Husers].
  apply (Hout demo_refresh_token demo_refresh_row); [vm_compute; reflexivity | reflexivity].
Defined.
